(** * EnergyPlus regression tool: the suite runner ([epregressions/runtests.py])

    A shallow embedding of [SuiteRunner]: the end-file classifier
    ([process_end_file]), the outcome decision of
    [process_diffs_for_one_case], the diff dispatcher, the text diff
    ([diff_text_files]), the per-case error boundary of
    [diff_logs_for_build], the staging and in-process execution loop of
    [run_build] and the cancellation checks of [run_test_suite].

    Python strings are [string]; file-system calls, the simulation, the
    numeric and table diff engines and [difflib.unified_diff] are external
    collaborators, taken as the fields of a record [Ext]. *)

From Stdlib Require Import List String Ascii Bool Arith ZArith NArith QArith Lia DecimalString.
Import ListNotations.
Close Scope Q_scope.
Local Open Scope string_scope.
Local Open Scope list_scope.
Local Open Scope nat_scope.

(* ================================================================= *)
(** ** Python string operations used by the runner *)

Module PyStr.

(** [needle in hay] *)
Fixpoint contains (needle hay : string) : bool :=
  if String.prefix needle hay then true
  else match hay with
       | EmptyString => false
       | String _ t => contains needle t
       end.

(** [s.split(sep)] for a one-character separator: empty fields are kept. *)
Fixpoint split_on (sep : ascii) (s : string) : list string :=
  match s with
  | EmptyString => [EmptyString]
  | String c t =>
      if Ascii.eqb c sep then EmptyString :: split_on sep t
      else match split_on sep t with
           | h :: r => String c h :: r
           | [] => [String c EmptyString]
           end
  end.

(** [s.replace(c, "")] for a one-character [c]. *)
Fixpoint remove_char (c : ascii) (s : string) : string :=
  match s with
  | EmptyString => EmptyString
  | String d t => if Ascii.eqb d c then remove_char c t
                  else String d (remove_char c t)
  end.

Definition nonempty (s : string) : bool :=
  match s with EmptyString => false | _ => true end.

Fixpoint take (n : nat) (s : string) : string :=
  match n, s with
  | S k, String c t => String c (take k t)
  | _, _ => EmptyString
  end.

(** [s[0:stop]]: a negative [stop] counts from the end, and the bounds
    are clamped to the string. *)
Definition slice_to (stop : Z) (s : string) : string :=
  let len := Z.of_nat (String.length s) in
  let stop' := if (stop <? 0)%Z then Z.max 0 (stop + len) else Z.min stop len in
  take (Z.to_nat stop') s.

(** [s.index(c)]: the position of the first [c], [None] where Python
    raises [ValueError]. *)
Fixpoint index_of (c : ascii) (s : string) : option nat :=
  match s with
  | EmptyString => None
  | String d t => if Ascii.eqb d c then Some O
                  else option_map S (index_of c t)
  end.

(** Characters removed by [str.strip()] in the ASCII range. *)
Definition is_space (c : ascii) : bool :=
  let n := nat_of_ascii c in
  ((9 <=? n)%nat && (n <=? 13)%nat) || ((28 <=? n)%nat && (n <=? 32)%nat).

Fixpoint lstrip (s : string) : string :=
  match s with
  | String c t => if is_space c then lstrip t else s
  | EmptyString => EmptyString
  end.

Fixpoint rstrip (s : string) : string :=
  match s with
  | EmptyString => EmptyString
  | String c t =>
      match rstrip t with
      | EmptyString => if is_space c then EmptyString else String c EmptyString
      | t' => String c t'
      end
  end.

Definition strip (s : string) : string := rstrip (lstrip s).

(** [s[-n:]] *)
Fixpoint drop (n : nat) (s : string) : string :=
  match n, s with
  | S k, String _ t => drop k t
  | _, _ => s
  end.

Definition last_chars (n : nat) (s : string) : string :=
  drop (String.length s - n) s.

(** [s.replace(old, new)] for a non-empty [old]: occurrences are replaced
    left to right without overlap.  [fuel] bounds the scan by the length
    of the string. *)
Fixpoint replace_from (fuel : nat) (old new s : string) : string :=
  match fuel with
  | O => s
  | S k =>
      match s with
      | EmptyString => EmptyString
      | String c t =>
          if String.prefix old s
          then new ++ replace_from k old new (drop (String.length old) s)
          else String c (replace_from k old new t)
      end
  end.

Definition replace (old new s : string) : string :=
  replace_from (String.length s) old new s.

(** *** [float(s)] on decimal literals

    The runner only feeds [float] with pieces of the elapsed-time stamp.
    The embedding covers the plain decimal notation, an optional sign, digits
    and at most one point, surrounded by optional blanks; the value is the
    exact rational.  Exponents, underscores, [inf] and [nan] are outside it
    and are rejected, as every malformed literal is. *)

Definition digit_of (c : ascii) : option N :=
  let n := N_of_ascii c in
  if ((48 <=? n) && (n <=? 57))%N then Some (n - 48)%N else None.

(** value of a digit string, most significant digit first *)
Fixpoint digits_from (acc : N) (s : string) : option N :=
  match s with
  | EmptyString => Some acc
  | String c t =>
      match digit_of c with
      | Some d => digits_from (acc * 10 + d)%N t
      | None => None
      end
  end.

Definition unsigned_decimal (s : string) : option Q :=
  match split_on "." s with
  | [ip] =>
      if nonempty ip
      then option_map (fun n => inject_Z (Z.of_N n)) (digits_from 0%N ip)
      else None
  | [ip; fp] =>
      if nonempty ip || nonempty fp
      then match digits_from 0%N ip, digits_from 0%N fp with
           | Some i, Some f =>
               let scale := Pos.pow 10 (Pos.of_nat (String.length fp)) in
               let scale := if nonempty fp then scale else 1%positive in
               Some (Qmake (Z.of_N i * Z.pos scale + Z.of_N f) scale)
           | _, _ => None
           end
      else None
  | _ => None
  end.

Definition float (s : string) : option Q :=
  match strip s with
  | String "+" t => unsigned_decimal t
  | String "-" t => option_map Qopp (unsigned_decimal t)
  | t => unsigned_decimal t
  end.

End PyStr.

(* ================================================================= *)
(** ** Exceptions and results *)

(** A Python exception, with the text [str(e)] gives. *)
Inductive exn : Type :=
| IndexError (msg : string)
| ValueError (msg : string)
| OtherError (msg : string).

Definition str_of_exn (e : exn) : string :=
  match e with IndexError m | ValueError m | OtherError m => m end.

Inductive Result (A : Type) : Type :=
| Ok (a : A)
| Raise (e : exn).
Arguments Ok {A} a.
Arguments Raise {A} e.

Definition rbind {A B} (r : Result A) (k : A -> Result B) : Result B :=
  match r with Ok a => k a | Raise e => Raise e end.

Definition list_index {A} (l : list A) (i : nat) : Result A :=
  match nth_error l i with
  | Some a => Ok a
  | None => Raise (IndexError "list index out of range")
  end.

Definition float_of (s : string) : Result Q :=
  match PyStr.float s with
  | Some q => Ok q
  | None => Raise (ValueError ("could not convert string to float: " ++ s))
  end.

Definition str_index (c : ascii) (s : string) : Result nat :=
  match PyStr.index_of c s with
  | Some i => Ok i
  | None => Raise (ValueError "substring not found")
  end.

(* ================================================================= *)
(** ** End-status classifier: [SuiteRunner.process_end_file] *)

(** [EndErrSummary.STATUS_*] *)
Inductive Status : Type :=
| STATUS_UNKNOWN | STATUS_SUCCESS | STATUS_FATAL | STATUS_MISSING.

Definition Status_eqb (a b : Status) : bool :=
  match a, b with
  | STATUS_UNKNOWN, STATUS_UNKNOWN | STATUS_SUCCESS, STATUS_SUCCESS
  | STATUS_FATAL, STATUS_FATAL | STATUS_MISSING, STATUS_MISSING => true
  | _, _ => false
  end.

(** The time stamp follows the first equals sign: [00hr 00min  2.80sec]. *)
Definition parse_runtime (end_contents : string) : Result Q :=
  rbind (list_index (PyStr.split_on "=" end_contents) 1) (fun time_string =>
  let time_string_tokens :=
    filter PyStr.nonempty (PyStr.split_on " " time_string) in
  rbind (list_index time_string_tokens 0) (fun tok0 =>
  rbind (float_of (PyStr.slice_to 2 tok0)) (fun hours =>
  rbind (list_index time_string_tokens 1) (fun tok1 =>
  rbind (float_of (PyStr.slice_to 2 tok1)) (fun minutes =>
  rbind (list_index time_string_tokens 2) (fun seconds_term =>
  rbind (str_index "s" seconds_term) (fun seconds_index =>
  rbind (float_of (PyStr.slice_to (Z.of_nat seconds_index - 1) seconds_term))
        (fun seconds =>
  Ok (hours * 3600 + minutes * 60 + seconds)%Q)))))))).

(** The part of [process_end_file] after the file is read: [raw] is what
    [f_end.read()] returned. *)
Definition process_end_contents (raw : string) : Result (Status * Q) :=
  let end_contents := PyStr.remove_char "010" raw in
  if PyStr.contains "Successfully" end_contents then
    rbind (parse_runtime end_contents) (fun t => Ok (STATUS_SUCCESS, t))
  else if PyStr.contains "Fatal" end_contents then
    rbind (parse_runtime end_contents) (fun t => Ok (STATUS_FATAL, t))
  else Ok (STATUS_UNKNOWN, 0%Q).

(* ================================================================= *)
(** ** Data model *)

(** [build.get_build_tree()]: the resolved layout of one build. *)
Record BuildTree : Type := {
  build_dir : string;
  test_files_dir : string;
  source_dir : string;
  weather_dir : string;
  data_sets_dir : string
}.

(** [ForceRunType] *)
Inductive ForceRunType : Type := ANNUAL | DD | NONE.

Inductive MathKind : Type := ESO | MTR | ZSZ | SSZ.
Inductive TextKind : Type :=
| AUD | BND | DXF | EIO | MDD | MTD | RDD | SHD | ERR | DL_IN | DL_OUT.

(** The artifact kinds the dispatcher goes through. *)
Inductive FileKind : Type :=
| MathFile (k : MathKind)
| TableFile
| TextFile (k : TextKind).

Definition MathKind_eqb (a b : MathKind) : bool :=
  match a, b with
  | ESO, ESO | MTR, MTR | ZSZ, ZSZ | SSZ, SSZ => true
  | _, _ => false
  end.

Definition TextKind_eqb (a b : TextKind) : bool :=
  match a, b with
  | AUD, AUD | BND, BND | DXF, DXF | EIO, EIO | MDD, MDD | MTD, MTD
  | RDD, RDD | SHD, SHD | ERR, ERR | DL_IN, DL_IN | DL_OUT, DL_OUT => true
  | _, _ => false
  end.

Definition FileKind_eqb (a b : FileKind) : bool :=
  match a, b with
  | MathFile x, MathFile y => MathKind_eqb x y
  | TableFile, TableFile => true
  | TextFile x, TextFile y => TextKind_eqb x y
  | _, _ => false
  end.

(** Modelled from the spec: the severity a numeric or table diff call
    reports ([epregressions/diffs] is not part of the sources at hand);
    section 3 gives it as none, small or big. *)
Inductive Severity : Type := SevNone | SevSmall | SevBig.

(** [TextDifferences.EQUAL] and [TextDifferences.DIFFS] *)
Inductive TextOutcome : Type := EQUAL | DIFFS.

(** [EndErrSummary(status_case1, runtime_case1, status_case2, runtime_case2)] *)
Record EndErrSummary : Type := {
  simulation_status_case1 : Status;
  run_time_seconds_case1 : Q;
  simulation_status_case2 : Status;
  run_time_seconds_case2 : Q
}.

(** Modelled from the spec: [TestEntry] of [epregressions/structures.py],
    which is not part of the sources at hand.  Section 3 describes the work
    item as an identifier, an optional weather override, a completion summary
    and zero or more math, table and text diff records; the [add_*] methods
    attach one record each. *)
Record TestEntry : Type := {
  basename : string;
  epw : option string;
  summary_result : option EndErrSummary;
  math_diffs : list (MathKind * Severity);
  table_diffs : list Severity;
  text_diffs : list (TextKind * TextOutcome)
}.

(** [TestEntry(basename, epw)] *)
Definition new_TestEntry (name : string) (weather : option string) : TestEntry :=
  {| basename := name; epw := weather; summary_result := None;
     math_diffs := []; table_diffs := []; text_diffs := [] |}.

Definition add_summary_result (s : EndErrSummary) (e : TestEntry) : TestEntry :=
  {| basename := basename e; epw := epw e; summary_result := Some s;
     math_diffs := math_diffs e; table_diffs := table_diffs e;
     text_diffs := text_diffs e |}.

Definition add_math_differences (sev : Severity) (k : MathKind) (e : TestEntry)
  : TestEntry :=
  {| basename := basename e; epw := epw e; summary_result := summary_result e;
     math_diffs := math_diffs e ++ [(k, sev)]; table_diffs := table_diffs e;
     text_diffs := text_diffs e |}.

Definition add_table_differences (sev : Severity) (e : TestEntry) : TestEntry :=
  {| basename := basename e; epw := epw e; summary_result := summary_result e;
     math_diffs := math_diffs e; table_diffs := table_diffs e ++ [sev];
     text_diffs := text_diffs e |}.

Definition add_text_differences (o : TextOutcome) (k : TextKind) (e : TestEntry)
  : TestEntry :=
  {| basename := basename e; epw := epw e; summary_result := summary_result e;
     math_diffs := math_diffs e; table_diffs := table_diffs e;
     text_diffs := text_diffs e ++ [(k, o)] |}.

(** Number of diff records of one kind attached to an entry. *)
Definition records_of_kind (k : FileKind) (e : TestEntry) : nat :=
  match k with
  | MathFile m => List.length (filter (fun r => MathKind_eqb m (fst r)) (math_diffs e))
  | TableFile => List.length (table_diffs e)
  | TextFile t => List.length (filter (fun r => TextKind_eqb t (fst r)) (text_diffs e))
  end.

(** Modelled from the spec: [CompletedStructure] of
    [epregressions/structures.py], reduced to the entries handed to
    [add_test_entry], in the order they were added. *)
Record CompletedStructure : Type := {
  entries_by_file : list TestEntry
}.

Definition add_test_entry (e : TestEntry) (c : CompletedStructure)
  : CompletedStructure :=
  {| entries_by_file := entries_by_file c ++ [e] |}.

(** [TestCaseCompleted] *)
Record TestCaseCompleted : Type := {
  run_directory : string;
  case_name : string;
  run_success : bool;
  muffle_err_msg : bool;
  name_of_thread : string
}.

(** One job of [energy_plus_runs]: the arguments of
    [energyplus.execute_energyplus]. *)
Record Task : Type := {
  task_build_tree : BuildTree;
  task_basename : string;
  task_run_directory : string;
  task_run_type : ForceRunType;
  task_reporting_freq : string;
  task_parametric : bool;
  task_epw_path : string
}.

(** What the runner does that an observer can see: the [my_*]
    notifications, which go to the registered callback or fall back to a
    printed line, and the calls to the simulation and to the diff functions. *)
Inductive Event : Type :=
| Print (msg : string)
| Starting (number_of_builds number_of_cases_per_build : nat)
| CaseCompleted (c : TestCaseCompleted)
| SimulationsComplete
| DiffCompleted (case : string)
| AllDone (results : CompletedStructure)
| Cancelled
| Executed (t : Task)
| DiffCall (k : FileKind) (file_a file_b : string).

(* ================================================================= *)
(** ** External collaborators *)

(** The file system, the simulation and the diff engines.  A call that
    changes the world returns the new world with its result; a call can
    raise. *)
Record Ext : Type := {
  World : Type;
  ThreshDict : Type;
  (* os.path and os *)
  os_path_exists : string -> World -> bool;
  os_path_isfile : string -> World -> bool;
  os_listdir : string -> World -> Result (list string);
  os_mkdir : string -> World -> World * Result unit;
  (* shutil *)
  shutil_rmtree : string -> World -> World * Result unit;
  shutil_copy : string -> string -> World -> World * Result unit;
  (* io.open / codecs.open *)
  read_text : string -> World -> Result string;
  readlines : string -> World -> Result (list string);
  write_text : string -> string -> World -> World * Result unit;
  (* difflib *)
  unified_diff : list string -> list string -> list string;
  (* epregressions.diffs *)
  load_ThreshDict : string -> World -> Result ThreshDict;
  math_diff : ThreshDict -> string -> string -> string -> string -> string ->
              string -> World -> World * Result Severity;
  table_diff : ThreshDict -> string -> string -> string -> string -> string ->
               string -> World -> World * Result Severity;
  (* epregressions.energyplus *)
  execute_energyplus : Task -> World -> World * Result TestCaseCompleted;
  (* CompletedStructure.to_runtime_summary / to_json_summary *)
  to_runtime_summary : CompletedStructure -> string -> World -> World * Result unit;
  to_json_summary : CompletedStructure -> string -> World -> World * Result unit
}.

(** [os.path.join] (POSIX): an absolute component restarts the path. *)
Definition ends_with_slash (s : string) : bool :=
  match PyStr.last_chars 1 s with String "/" EmptyString => true | _ => false end.

Definition join (a b : string) : string :=
  if String.prefix "/" b then b
  else if negb (PyStr.nonempty a) || ends_with_slash a then a ++ b
  else a ++ "/" ++ b.

Definition join3 (a b c : string) : string := join (join a b) c.

(* ================================================================= *)
(** ** The runner's monad: state, exceptions and the trace *)

(** A computation over a state [S] that returns or raises; the state
    reached is kept in both cases, as Python keeps the objects an
    interrupted call has already changed. *)
Definition M (S A : Type) : Type := S -> S * Result A.

Definition ret {S A} (a : A) : M S A := fun s => (s, Ok a).

Definition bind {S A B} (m : M S A) (k : A -> M S B) : M S B :=
  fun s => match m s with
           | (s', Ok a) => k a s'
           | (s', Raise e) => (s', Raise e)
           end.

Definition lift_result {S A} (r : Result A) : M S A := fun s => (s, r).

(** [try: m  except Exception as e: handler e] *)
Definition try_except {S A} (m : M S A) (handler : exn -> M S A) : M S A :=
  fun s => match m s with
           | (s', Ok a) => (s', Ok a)
           | (s', Raise e) => handler e s'
           end.

(** [try: m  finally: final] *)
Definition try_finally {S A} (m : M S A) (final : M S unit) : M S A :=
  fun s => match m s with
           | (s', r) =>
               match final s' with
               | (s'', Ok _) => (s'', r)
               | (s'', Raise e) => (s'', Raise e)
               end
           end.

Declare Scope runner_scope.
Delimit Scope runner_scope with runner.
Notation "x <- m ;; k" := (bind m (fun x => k))
  (at level 61, m at next level, right associativity) : runner_scope.
Notation "m ;;; k" := (bind m (fun _ => k))
  (at level 61, right associativity) : runner_scope.
Local Open Scope runner_scope.

(** [for x in l: body x] *)
Fixpoint for_each {S A} (l : list A) (body : A -> M S unit) : M S unit :=
  match l with
  | [] => ret tt
  | x :: r => body x ;;; for_each r body
  end.

(** The attributes of a [SuiteRunner] the methods read.  The embedding
    follows the in-process path, [number_of_threads == 1]. *)
Record SuiteRunner : Type := {
  force_run_type : ForceRunType;
  min_reporting_freq : string;
  build_tree_a : BuildTree;
  run_case_a : bool;
  build_tree_b : BuildTree;
  run_case_b : bool;
  thresh_dict_file : string;
  test_output_dir : string
}.

Definition ep_in_filename : string := "in.idf".
Definition default_weather_filename : string :=
  "USA_IL_Chicago-OHare.Intl.AP.725300_TMY3.epw".

Section Runner.

Context {E : Ext}.

(** [clock] counts the calls made so far to the outside (file system,
    simulation, diff engines, notifications); [events] is the trace, each
    event with the clock at which it happened. *)
Record St : Type := {
  world : World E;
  clock : nat;
  events : list (nat * Event)
}.

Definition trace (s : St) : list Event := map snd (events s).

Definition emit (ev : Event) : M St unit :=
  fun s => ({| world := world s; clock := S (clock s);
               events := events s ++ [(clock s, ev)] |}, Ok tt).

(** a call that only looks at the world *)
Definition ask {A} (f : World E -> A) : M St A :=
  fun s => ({| world := world s; clock := S (clock s); events := events s |},
            Ok (f (world s))).

Definition ask_result {A} (f : World E -> Result A) : M St A :=
  fun s => ({| world := world s; clock := S (clock s); events := events s |},
            f (world s)).

(** a call that may change the world *)
Definition call {A} (f : World E -> World E * Result A) : M St A :=
  fun s => let (w, r) := f (world s) in
           ({| world := w; clock := S (clock s); events := events s |}, r).

(** The notifications. *)
Definition my_print (msg : string) : M St unit := emit (Print msg).
Definition my_starting (number_of_builds number_of_cases_per_build : nat)
  : M St unit := emit (Starting number_of_builds number_of_cases_per_build).
Definition my_casecompleted (c : TestCaseCompleted) : M St unit :=
  emit (CaseCompleted c).
Definition my_simulationscomplete : M St unit := emit SimulationsComplete.
Definition my_diffcompleted (case : string) : M St unit :=
  emit (DiffCompleted case).
Definition my_alldone (results : CompletedStructure) : M St unit :=
  emit (AllDone results).
Definition my_cancelled : M St unit := emit Cancelled.

(** *** [process_end_file] *)

Definition process_end_file (end_path : string) : M St (Status * Q) :=
  raw <- ask_result (read_text E end_path) ;;
  lift_result (process_end_contents raw).

(** *** [both_files_exist] *)

Definition both_files_exist (base_path_a base_path_b common_relative_path : string)
  : M St bool :=
  a <- ask (os_path_exists E (join base_path_a common_relative_path)) ;;
  if a then
    b <- ask (os_path_exists E (join base_path_b common_relative_path)) ;;
    if b then ret true else ret false
  else ret false.

(** *** [diff_text_files] *)

Definition skip_strings : list string :=
  [ "Program Version,EnergyPlus";
    "EnergyPlus Completed";
    "EnergyPlus Terminated";
    "DElight input generated";
    "(idf)=";
    "(user input)=";
    "(input file)=" ].

(** the lines kept: those with none of the listed strings in them *)
Definition cleaned (txt : list string) : list string :=
  filter (fun line => negb (existsb (fun x => PyStr.contains x line) skip_strings))
         txt.

Fixpoint lines_eqb (a b : list string) : bool :=
  match a, b with
  | [], [] => true
  | x :: a', y :: b' => String.eqb x y && lines_eqb a' b'
  | _, _ => false
  end.

Definition diff_text_files (file_a file_b diff_file : string) : M St TextOutcome :=
  txt1 <- ask_result (readlines E file_a) ;;
  txt2 <- ask_result (readlines E file_b) ;;
  let txt1_cleaned := cleaned txt1 in
  let txt2_cleaned := cleaned txt2 in
  if lines_eqb txt1_cleaned txt2_cleaned then ret EQUAL
  else
    let out_lines := unified_diff E txt1_cleaned txt2_cleaned in
    call (write_text E diff_file (String.concat "" out_lines)) ;;;
    ret DIFFS.

(** *** [process_diffs_for_one_case]

    The entry is a Python object changed in place, so it is part of the
    state: what was attached before an exception stays attached. *)

Definition DSt : Type := (TestEntry * St)%type.

Definition on_st {A} (m : M St A) : M DSt A :=
  fun es => let (s', r) := m (snd es) in ((fst es, s'), r).

Definition update_entry (f : TestEntry -> TestEntry) : M DSt unit :=
  fun es => ((f (fst es), snd es), Ok tt).

Definition get_entry : M DSt TestEntry := fun es => (es, Ok (fst es)).

(** The branches of the end-status check, named as the comments of the
    source name them. *)
Inductive Decision : Type :=
| PROCEED            (* Case 1a *)
| SKIP_BOTH_FATAL    (* Case 1b *)
| SKIP_ONE_FATAL     (* Case 1c *)
| SKIP_BOTH_MISSING  (* Case 2 *)
| SKIP_ONE_MISSING   (* Case 3 *)
| SKIP_UNKNOWN.      (* Case 4 *)

(** [sum(x == status for x in l)] *)
Definition count_status (status : Status) (l : list Status) : nat :=
  List.length (filter (fun x => Status_eqb x status) l).

(** The [if]/[elif] chain on the two statuses.  [None] stands for the
    inner chain of case 1 ending without a branch taken, after which
    control would reach the diffs with nothing printed. *)
Definition end_status_decision (status_case1 status_case2 : Status)
  : option Decision :=
  let both := [status_case1; status_case2] in
  if negb (existsb (fun x => Status_eqb x STATUS_MISSING) both) then
    if count_status STATUS_SUCCESS both =? 2 then Some PROCEED
    else if count_status STATUS_SUCCESS both =? 0 then Some SKIP_BOTH_FATAL
    else if count_status STATUS_SUCCESS both =? 1 then Some SKIP_ONE_FATAL
    else None
  else if forallb (fun x => Status_eqb x STATUS_MISSING) both
  then Some SKIP_BOTH_MISSING
  else if count_status STATUS_MISSING both =? 1 then Some SKIP_ONE_MISSING
  else Some SKIP_UNKNOWN.

(** the line each branch prints *)
Definition decision_message (d : Decision) (name : string) : string :=
  match d with
  | PROCEED => "Processing (Diffs) : " ++ name
  | SKIP_BOTH_FATAL =>
      "Skipping entry because it has a fatal error in both base and mod cases: "
      ++ name
  | SKIP_ONE_FATAL =>
      "Skipping an entry because it appears to have a fatal error in one case: "
      ++ name
  | SKIP_BOTH_MISSING =>
      "Skipping entry because it failed (crashed) in both base and mod cases: "
      ++ name
  | SKIP_ONE_MISSING =>
      "Skipping an entry because it appears to have failed (crashed) in one case: "
      ++ name
  | SKIP_UNKNOWN =>
      "Skipping an entry because it has an unknown end status: " ++ name
  end.

Definition math_files : list (MathKind * string) :=
  [ (ESO, "eplusout.csv"); (MTR, "eplusmtr.csv");
    (ZSZ, "epluszsz.csv"); (SSZ, "eplusssz.csv") ].

Definition table_file : string := "eplustbl.htm".

Definition text_files : list (TextKind * string) :=
  [ (AUD, "eplusout.audit"); (BND, "eplusout.bnd"); (DXF, "eplusout.dxf");
    (EIO, "eplusout.eio"); (MDD, "eplusout.mdd"); (MTD, "eplusout.mtd");
    (RDD, "eplusout.rdd"); (SHD, "eplusout.shd"); (ERR, "eplusout.err");
    (DL_IN, "eplusout.delightin"); (DL_OUT, "eplusout.delightout") ].

Section Dispatch.

Variables (thresh_dict : ThreshDict E).
Variables (case_result_dir_1 case_result_dir_2 out_dir : string).

(** we aren't using the summary csv files of the diff engines *)
Definition path_to_math_diff_log : string := "".
Definition path_to_table_diff_log : string := "".

Definition math_block (kf : MathKind * string) : M DSt unit :=
  let (k, f) := kf in
  b <- on_st (both_files_exist case_result_dir_1 case_result_dir_2 f) ;;
  if b then
    on_st (emit (DiffCall (MathFile k) (join case_result_dir_1 f)
                          (join case_result_dir_2 f))) ;;;
    sev <- on_st (call (math_diff E thresh_dict
                          (join case_result_dir_1 f)
                          (join case_result_dir_2 f)
                          (join out_dir (f ++ ".absdiff.csv"))
                          (join out_dir (f ++ ".percdiff.csv"))
                          (join out_dir (f ++ ".diffsummary.csv"))
                          path_to_math_diff_log)) ;;
    update_entry (add_math_differences sev k)
  else ret tt.

Definition table_block : M DSt unit :=
  let f := table_file in
  b <- on_st (both_files_exist case_result_dir_1 case_result_dir_2 f) ;;
  if b then
    on_st (emit (DiffCall TableFile (join case_result_dir_1 f)
                          (join case_result_dir_2 f))) ;;;
    sev <- on_st (call (table_diff E thresh_dict
                          (join case_result_dir_1 f)
                          (join case_result_dir_2 f)
                          (join out_dir (f ++ ".absdiff.htm"))
                          (join out_dir (f ++ ".percdiff.htm"))
                          (join out_dir (f ++ ".summarydiff.htm"))
                          path_to_table_diff_log)) ;;
    update_entry (add_table_differences sev)
  else ret tt.

Definition text_block (kf : TextKind * string) : M DSt unit :=
  let (k, f) := kf in
  b <- on_st (both_files_exist case_result_dir_1 case_result_dir_2 f) ;;
  if b then
    on_st (emit (DiffCall (TextFile k) (join case_result_dir_1 f)
                          (join case_result_dir_2 f))) ;;;
    o <- on_st (diff_text_files (join case_result_dir_1 f)
                                (join case_result_dir_2 f)
                                (join out_dir (f ++ ".diff"))) ;;
    update_entry (add_text_differences o k)
  else ret tt.

(** The sixteen blocks, in the order of the source. *)
Definition dispatch_diffs : M DSt unit :=
  for_each math_files math_block ;;;
  table_block ;;;
  for_each text_files text_block.

End Dispatch.

Definition read_end_status (case_result_dir : string) : M St (Status * Q) :=
  let end_path := join case_result_dir "eplusout.end" in
  ex <- ask (os_path_exists E end_path) ;;
  if ex then process_end_file end_path else ret (STATUS_MISSING, 0%Q).

(** What follows the reading of the two end files. *)
Definition process_diffs_with_statuses (self : SuiteRunner)
    (case_result_dir_1 case_result_dir_2 : string)
    (status_case1 : Status) (runtime_case1 : Q)
    (status_case2 : Status) (runtime_case2 : Q) : M DSt unit :=
  let out_dir := case_result_dir_1 in
  this_entry <- get_entry ;;
  (* one quick check here for expect-fatal tests *)
  if String.eqb (basename this_entry) "EMSTestMathAndKill"
     && (Status_eqb status_case1 STATUS_FATAL
         && Status_eqb status_case2 STATUS_FATAL)
  then
    update_entry (add_summary_result
      {| simulation_status_case1 := STATUS_SUCCESS;
         run_time_seconds_case1 := runtime_case1;
         simulation_status_case2 := STATUS_SUCCESS;
         run_time_seconds_case2 := runtime_case2 |}) ;;;
    on_st (my_print
      "EMSTestMathAndKill Fatal-ed as expected, continuing with no diff checking on it")
  else
    update_entry (add_summary_result
      {| simulation_status_case1 := status_case1;
         run_time_seconds_case1 := runtime_case1;
         simulation_status_case2 := status_case2;
         run_time_seconds_case2 := runtime_case2 |}) ;;;
    let diffs :=
      thresh_dict <- on_st (ask_result (load_ThreshDict E (thresh_dict_file self))) ;;
      dispatch_diffs thresh_dict case_result_dir_1 case_result_dir_2 out_dir in
    match end_status_decision status_case1 status_case2 with
    | Some PROCEED =>
        on_st (my_print (decision_message PROCEED (basename this_entry))) ;;;
        diffs
    | Some d => on_st (my_print (decision_message d (basename this_entry)))
    | None => diffs
    end.

Definition process_diffs_for_one_case (self : SuiteRunner) (ci_mode : bool)
  : M DSt unit :=
  this_entry <- get_entry ;;
  let case_result_dir_1 :=
    if ci_mode then build_dir (build_tree_a self)
    else join3 (build_dir (build_tree_a self)) (test_output_dir self)
               (basename this_entry) in
  let case_result_dir_2 :=
    if ci_mode then build_dir (build_tree_b self)
    else join3 (build_dir (build_tree_b self)) (test_output_dir self)
               (basename this_entry) in
  r1 <- on_st (read_end_status case_result_dir_1) ;;
  r2 <- on_st (read_end_status case_result_dir_2) ;;
  process_diffs_with_statuses self case_result_dir_1 case_result_dir_2
    (fst r1) (snd r1) (fst r2) (snd r2).

(** *** [diff_logs_for_build] *)

Definition unexpected_error_message (name : string) : string :=
  "Unexpected error processing diffs for " ++ name
  ++ ", could indicate an E+ crash caused corrupted files".

(** One turn of the loop: the [try] with its [except] and [finally]. *)
Definition diff_one_entry (self : SuiteRunner) (this_entry : TestEntry)
    (completed_structure : CompletedStructure)
  : M St (TestEntry * CompletedStructure) :=
  fun s =>
    match process_diffs_for_one_case self false (this_entry, s) with
    | ((this_entry', s'), r) =>
        try_finally
          (try_except
             (_ <- lift_result r ;;
              ret (this_entry', add_test_entry this_entry' completed_structure))
             (fun e =>
                my_print (unexpected_error_message (basename this_entry')) ;;;
                my_print ("Message: " ++ str_of_exn e) ;;;
                ret (this_entry', completed_structure)))
          (my_diffcompleted (basename this_entry'))
          s'
    end.

Fixpoint diff_entries (self : SuiteRunner) (entries : list TestEntry)
    (completed_structure : CompletedStructure)
  : M St (list TestEntry * CompletedStructure) :=
  match entries with
  | [] => ret ([], completed_structure)
  | this_entry :: rest =>
      r <- diff_one_entry self this_entry completed_structure ;;
      rs <- diff_entries self rest (snd r) ;;
      ret (fst r :: fst rs, snd rs)
  end.

(** Returns the entries as the loop leaves them, with the completed
    structure. *)
Definition diff_logs_for_build (self : SuiteRunner) (entries : list TestEntry)
  : M St (list TestEntry * CompletedStructure) :=
  diff_entries self entries {| entries_by_file := [] |}.

(** *** [run_build]: staging of one entry *)

Definition newline : string := String "010" EmptyString.

(** The data sets an input calls for are brought into the run directory;
    the text comes back with the paths to them rewritten. *)
Definition stage_datasets (build_tree : BuildTree)
    (test_run_directory idf_text : string) : M St string :=
  idf_text <-
    (if PyStr.contains "Window5DataFile.dat" idf_text then
       call (os_mkdir E (join test_run_directory "datasets")) ;;;
       call (shutil_copy E (join (data_sets_dir build_tree) "Window5DataFile.dat")
                           (join test_run_directory "datasets")) ;;;
       ret (PyStr.replace "..\datasets\Window5DataFile.dat"
                          "datasets/Window5DataFile.dat" idf_text)
     else ret idf_text) ;;
  idf_text <-
    (if PyStr.contains "DataSets\TDV" idf_text
        || PyStr.contains "DataSets\\TDV" idf_text then
       call (os_mkdir E (join test_run_directory "datasets")) ;;;
       call (os_mkdir E (join3 test_run_directory "datasets" "TDV")) ;;;
       let tdv_dir := join (data_sets_dir build_tree) "TDV" in
       src_files <- ask_result (os_listdir E tdv_dir) ;;
       for_each src_files (fun file_name =>
         let full_file_name := join tdv_dir file_name in
         is_file <- ask (os_path_isfile E full_file_name) ;;
         if is_file
         then call (shutil_copy E full_file_name
                                  (join3 test_run_directory "datasets" "TDV"))
         else ret tt) ;;;
       ret (PyStr.replace "..\datasets\TDV\TDV_2008_kBtu_CTZ06.csv"
                          (join3 "datasets" "TDV" "TDV_2008_kBtu_CTZ06.csv")
                          idf_text)
     else ret idf_text) ;;
  (if PyStr.contains "HybridZoneModel_TemperatureData.csv" idf_text then
     call (shutil_copy E
             (join (test_files_dir build_tree) "HybridZoneModel_TemperatureData.csv")
             (join test_run_directory "HybridZoneModel_TemperatureData.csv"))
   else ret tt) ;;;
  ret idf_text.

(** The branch taken when the [.idf] exists.  The result is
    [Some parametric_file], or [None] when the loop goes on to the next entry
    ([continue]). *)
Definition stage_idf (self : SuiteRunner) (build_tree : BuildTree)
    (this_entry : TestEntry) (test_run_directory idf_path : string)
  : M St (option bool) :=
  (* copy the idf into the test directory, renaming to in.idf *)
  call (shutil_copy E idf_path (join test_run_directory ep_in_filename)) ;;;
  idf_text <- ask_result (read_text E (join test_run_directory ep_in_filename)) ;;
  idf_text <- stage_datasets build_tree test_run_directory idf_text ;;
  let idf_text :=
    if PyStr.contains "report variable dictionary" idf_text
    then PyStr.replace "report variable dictionary" "" idf_text
    else idf_text in
  let parametric_file := PyStr.contains "Parametric:" idf_text in
  if PyStr.contains "ExternalInterface:" idf_text then
    my_print "Skipping an FMU based file as this is not set up to run yet" ;;;
    ret None
  else
    (* rewrite the idf with the (potentially) modified idf text *)
    call (write_text E
            (join (join3 (build_dir build_tree) (test_output_dir self)
                         (basename this_entry)) ep_in_filename)
            (idf_text ++ newline)) ;;;
    ret (Some parametric_file).

(** The branch taken when only the [.imf] exists. *)
Definition stage_imf (self : SuiteRunner) (build_tree : BuildTree)
    (this_entry : TestEntry) (imf_path : string) : M St unit :=
  let case_dir := join3 (build_dir build_tree) (test_output_dir self)
                        (basename this_entry) in
  call (shutil_copy E imf_path (join case_dir "in.imf")) ;;;
  (* find the rest of the imf files and copy them into the test directory *)
  source_files <- ask_result (os_listdir E (test_files_dir build_tree)) ;;
  for_each source_files (fun file_name =>
    if String.eqb (PyStr.last_chars 4 file_name) ".imf" then
      call (shutil_copy E (join (test_files_dir build_tree) file_name) case_dir)
    else ret tt).

(** The [else] branch: the input exists in neither form. *)
Definition stage_missing (self : SuiteRunner) (this_entry : TestEntry)
    (idf_path imf_path : string) : M St unit :=
  my_print "Input file doesn't exist in either idf or imf form:" ;;;
  my_print ("   IDF: " ++ idf_path) ;;;
  my_print ("   IMF: " ++ imf_path) ;;;
  my_casecompleted
    {| run_directory := test_output_dir self;
       case_name := basename this_entry;
       run_success := false;
       muffle_err_msg := false;
       name_of_thread := "" |}.

(** [if this_entry.epw:] is the truth value of the attribute. *)
Definition epw_given (this_entry : TestEntry) : option string :=
  match epw this_entry with
  | Some w => if PyStr.nonempty w then Some w else None
  | None => None
  end.

(** What follows the three branches: side files, weather file, the job. *)
Definition stage_rest (self : SuiteRunner) (build_tree : BuildTree)
    (this_entry : TestEntry) (test_run_directory : string)
    (parametric_file : bool) : M St Task :=
  let case_dir := join3 (build_dir build_tree) (test_output_dir self)
                        (basename this_entry) in
  let rvi := (join (test_files_dir build_tree) (basename this_entry) ++ ".rvi")%string in
  rvi_exists <- ask (os_path_exists E rvi) ;;
  (if rvi_exists then call (shutil_copy E rvi (join case_dir "in.rvi"))
   else ret tt) ;;;
  let mvi := (join (test_files_dir build_tree) (basename this_entry) ++ ".mvi")%string in
  mvi_exists <- ask (os_path_exists E mvi) ;;
  (if mvi_exists then call (shutil_copy E mvi (join case_dir "in.mvi"))
   else ret tt) ;;;
  let default_epw :=
    join3 (source_dir build_tree) "weather" default_weather_filename in
  epw_path <-
    match epw_given this_entry with
    | Some w =>
        let epw_path := join (weather_dir build_tree) (w ++ ".epw") in
        epw_exists <- ask (os_path_exists E epw_path) ;;
        if epw_exists then ret epw_path
        else
          my_print ("For case " ++ basename this_entry
                    ++ ", weather file did not exist at " ++ epw_path
                    ++ ", using a default one!") ;;;
          ret default_epw
    | None => ret default_epw
    end ;;
  ret {| task_build_tree := build_tree;
         task_basename := basename this_entry;
         task_run_directory := test_run_directory;
         task_run_type := force_run_type self;
         task_reporting_freq := min_reporting_freq self;
         task_parametric := parametric_file;
         task_epw_path := epw_path |}.

Definition test_run_directory_of (self : SuiteRunner) (build_tree : BuildTree)
    (this_entry : TestEntry) : string :=
  join3 (build_dir build_tree) (test_output_dir self) (basename this_entry).

Definition idf_base_of (build_tree : BuildTree) (this_entry : TestEntry)
  : string :=
  PyStr.strip (join (test_files_dir build_tree) (basename this_entry)).

(** first remove the previous test directory for this file and make it anew *)
Definition fresh_run_directory (test_run_directory : string) : M St unit :=
  ex <- ask (os_path_exists E test_run_directory) ;;
  (if ex then call (shutil_rmtree E test_run_directory) else ret tt) ;;;
  call (os_mkdir E test_run_directory).

(** One turn of the loop over the entries: the job to append, or [None]
    when the turn ends in [continue]. *)
Definition stage_entry (self : SuiteRunner) (build_tree : BuildTree)
    (this_entry : TestEntry) : M St (option Task) :=
  let test_run_directory := test_run_directory_of self build_tree this_entry in
  fresh_run_directory test_run_directory ;;;
  let idf_base := idf_base_of build_tree this_entry in
  let idf_path := (idf_base ++ ".idf")%string in
  let imf_path := (idf_base ++ ".imf")%string in
  idf_exists <- ask (os_path_exists E idf_path) ;;
  staged <-
    (if idf_exists then
       stage_idf self build_tree this_entry test_run_directory idf_path
     else
       imf_exists <- ask (os_path_exists E imf_path) ;;
       if imf_exists then
         stage_imf self build_tree this_entry imf_path ;;; ret (Some false)
       else
         (* if the file doesn't exist, just move along *)
         stage_missing self this_entry idf_path imf_path ;;; ret None) ;;
  match staged with
  | None => ret None
  | Some parametric_file =>
      task <- stage_rest self build_tree this_entry test_run_directory
                         parametric_file ;;
      ret (Some task)
  end.

(** The loop over all entries: the job list [energy_plus_runs]. *)
Fixpoint stage_entries (self : SuiteRunner) (build_tree : BuildTree)
    (entries : list TestEntry) : M St (list Task) :=
  match entries with
  | [] => ret []
  | this_entry :: rest =>
      job <- stage_entry self build_tree this_entry ;;
      energy_plus_runs <- stage_entries self build_tree rest ;;
      ret (match job with
           | Some task => task :: energy_plus_runs
           | None => energy_plus_runs
           end)
  end.

(** *** Cancellation, [run_build] and [run_test_suite]

    [interrupt_please] is called from another thread.  [interrupt_at] is
    when: [Some k] sets the flag once the runner has made [k] calls to the
    outside since it reset the flag at the start of [run_test_suite], [None]
    never sets it. *)

Section Cancellation.

Variable interrupt_at : option nat.

Definition flag_at (now : nat) : bool :=
  match interrupt_at with
  | Some k => k <=? now
  | None => false
  end.

(** reading [self.id_like_to_stop_now] *)
Definition id_like_to_stop_now : M St bool :=
  fun s => (s, Ok (flag_at (clock s))).

(** The in-process loop over the jobs; [return] on a set flag. *)
Fixpoint run_in_process (energy_plus_runs : list Task) : M St unit :=
  match energy_plus_runs with
  | [] => ret tt
  | task :: rest =>
      stop <- id_like_to_stop_now ;;
      if stop then ret tt   (* self.my_cancelled() is called in parent function *)
      else
        emit (Executed task) ;;;
        r <- call (execute_energyplus E task) ;;
        my_casecompleted r ;;;
        run_in_process rest
  end.

Definition run_build (self : SuiteRunner) (entries : list TestEntry)
    (build_tree : BuildTree) : M St unit :=
  energy_plus_runs <- stage_entries self build_tree entries ;;
  run_in_process energy_plus_runs.

Definition prepare_dir_structure (b_a b_b : BuildTree) (d_test : string)
  : M St unit :=
  ex_a <- ask (os_path_exists E (join (build_dir b_a) d_test)) ;;
  (if ex_a then ret tt else call (os_mkdir E (join (build_dir b_a) d_test))) ;;;
  ex_b <- ask (os_path_exists E (join (build_dir b_b) d_test)) ;;
  (if ex_b then ret tt else call (os_mkdir E (join (build_dir b_b) d_test))) ;;;
  my_print ("Created test directories at <build-dir>/" ++ d_test).

Definition tab : string := String "009" EmptyString.

(** What [run_test_suite] does once the simulations are over. *)
Definition finish_suite (self : SuiteRunner) (entries : list TestEntry)
  : M St (option (list TestEntry * CompletedStructure)) :=
  my_simulationscomplete ;;;
  r <- diff_logs_for_build self entries ;;
  let response := snd r in
  try_except
    (my_print "Writing runtime summary file" ;;;
     call (to_runtime_summary E response
             (join3 (build_dir (build_tree_a self)) (test_output_dir self)
                    "run_times.csv")) ;;;
     my_print "Runtime summary written successfully")
    (fun this_exception =>
       my_print ("Could not write runtime summary file: "
                 ++ str_of_exn this_exception)) ;;;
  try_except
    (my_print "Writing simulation results summary file" ;;;
     call (to_json_summary E response
             (join3 (build_dir (build_tree_a self)) (test_output_dir self)
                    "test_results.json")) ;;;
     my_print "Results summary written successfully")
    (fun this_exception =>
       my_print ("Could not write results summary file: "
                 ++ str_of_exn this_exception)) ;;;
  my_print "Test suite complete for directories:" ;;;
  my_print (tab ++ build_dir (build_tree_a self)) ;;;
  my_print (tab ++ build_dir (build_tree_b self)) ;;;
  my_print "Test suite complete" ;;;
  my_alldone response ;;;
  ret (Some r).

(** [run_build] for build b, when asked for, and the flag check after it. *)
Definition run_suite_b (self : SuiteRunner) (entries : list TestEntry)
  : M St (option (list TestEntry * CompletedStructure)) :=
  if run_case_b self then
    run_build self entries (build_tree_b self) ;;;
    stop <- id_like_to_stop_now ;;
    if stop then my_cancelled ;;; ret None
    else finish_suite self entries
  else finish_suite self entries.

(** The body of [run_test_suite], after the flag is reset. *)
Definition run_test_suite_body (self : SuiteRunner) (entries : list TestEntry)
  : M St (option (list TestEntry * CompletedStructure)) :=
  prepare_dir_structure (build_tree_a self) (build_tree_b self)
                        (test_output_dir self) ;;;
  stop <- id_like_to_stop_now ;;
  if stop then my_cancelled ;;; ret None
  else
    let num_builds := 2 in
    my_starting num_builds (List.length entries) ;;;
    if run_case_a self then
      run_build self entries (build_tree_a self) ;;;
      stop <- id_like_to_stop_now ;;
      if stop then my_cancelled ;;; ret None
      else run_suite_b self entries
    else run_suite_b self entries.

(** The state in which [run_test_suite] starts: the flag has just been
    reset and nothing has been done yet. *)
Definition initial_state (w : World E) : St :=
  {| world := w; clock := 0; events := [] |}.

Definition run_test_suite (self : SuiteRunner) (entries : list TestEntry)
    (w : World E) : St * Result (option (list TestEntry * CompletedStructure)) :=
  run_test_suite_body self entries (initial_state w).

End Cancellation.

End Runner.

Arguments St : clear implicits.
Arguments DSt : clear implicits.

(* ================================================================= *)
(** ** An in-memory instance of the collaborators

    A small file system to run the embedding on: a path is a file with
    its text or a directory, the simulation writes its end file and the
    numeric diff fails on a file that starts with [corrupt]. *)

Module MemFS.

Inductive node : Type := File (text : string) | Dir.

Definition fs : Type := list (string * node).

Fixpoint lookup (p : string) (w : fs) : option node :=
  match w with
  | [] => None
  | (q, n) :: r => if String.eqb p q then Some n else lookup p r
  end.

Definition exists_ (p : string) (w : fs) : bool :=
  match lookup p w with Some _ => true | None => false end.

Definition isfile (p : string) (w : fs) : bool :=
  match lookup p w with Some (File _) => true | _ => false end.

Definition put (p : string) (n : node) (w : fs) : fs := (p, n) :: w.

Definition mkdir (p : string) (w : fs) : fs * Result unit :=
  if exists_ p w then (w, Raise (OtherError ("File exists: " ++ p)))
  else (put p Dir w, Ok tt).

Definition rmtree (p : string) (w : fs) : fs * Result unit :=
  (filter (fun e => negb (String.eqb (fst e) p
                          || String.prefix (p ++ "/") (fst e))) w, Ok tt).

Definition read (p : string) (w : fs) : Result string :=
  match lookup p w with
  | Some (File t) => Ok t
  | _ => Raise (OtherError ("No such file: " ++ p))
  end.

Definition copy (src dst : string) (w : fs) : fs * Result unit :=
  match read src w with
  | Ok t => (put dst (File t) w, Ok tt)
  | Raise e => (w, Raise e)
  end.

Definition write (p text : string) (w : fs) : fs * Result unit :=
  (put p (File text) w, Ok tt).

(** the lines of a text, each with its line end *)
Fixpoint lines_of (cur s : string) : list string :=
  match s with
  | EmptyString => if PyStr.nonempty cur then [cur] else []
  | String c t =>
      if Ascii.eqb c "010"
      then (cur ++ String c EmptyString)%string :: lines_of "" t
      else lines_of (cur ++ String c EmptyString) t
  end.

Definition read_lines (p : string) (w : fs) : Result (list string) :=
  match read p w with
  | Ok t => Ok (lines_of "" t)
  | Raise e => Raise e
  end.

Definition listdir (p : string) (w : fs) : Result (list string) :=
  if exists_ p w then Ok [] else Raise (OtherError ("No such directory: " ++ p)).

Definition udiff (a b : list string) : list string :=
  map (String "-") a ++ map (String "+") b.

Definition numeric_diff (_ : unit) (a b o1 o2 o3 log : string) (w : fs)
  : fs * Result Severity :=
  match read a w, read b w with
  | Ok ta, Ok tb =>
      if String.prefix "corrupt" ta then (w, Raise (OtherError "bad csv header"))
      else if String.eqb ta tb then (w, Ok SevNone)
      else (put o3 (File "big") w, Ok SevBig)
  | Raise e, _ | _, Raise e => (w, Raise e)
  end.

Definition end_text : string :=
  "EnergyPlus Completed Successfully-- 0 Warning; 0 Severe Errors; Elapsed Time=00hr 00min  1.42sec".

Definition execute (t : Task) (w : fs) : fs * Result TestCaseCompleted :=
  (put (join (task_run_directory t) "eplusout.end") (File end_text) w,
   Ok {| run_directory := task_run_directory t;
         case_name := task_basename t;
         run_success := true;
         muffle_err_msg := false;
         name_of_thread := "" |}).

Definition summary (_ : CompletedStructure) (p : string) (w : fs)
  : fs * Result unit := write p "summary" w.

Definition ext : Ext :=
  {| World := fs;
     ThreshDict := unit;
     os_path_exists := exists_;
     os_path_isfile := isfile;
     os_listdir := listdir;
     os_mkdir := mkdir;
     shutil_rmtree := rmtree;
     shutil_copy := copy;
     read_text := read;
     readlines := read_lines;
     write_text := write;
     unified_diff := udiff;
     load_ThreshDict := fun _ _ => Ok tt;
     math_diff := numeric_diff;
     table_diff := numeric_diff;
     execute_energyplus := execute;
     to_runtime_summary := summary;
     to_json_summary := summary |}.

Definition tree (dir : string) : BuildTree :=
  {| build_dir := dir;
     test_files_dir := "/tests";
     source_dir := "/src";
     weather_dir := "/weather";
     data_sets_dir := "/datasets" |}.

Definition runner : SuiteRunner :=
  {| force_run_type := NONE;
     min_reporting_freq := "Hourly";
     build_tree_a := tree "/a";
     run_case_a := true;
     build_tree_b := tree "/b";
     run_case_b := true;
     thresh_dict_file := "/math_diff.config";
     test_output_dir := "Tests" |}.

Definition audit_a : string := " Processing".

Definition audit_b : string :=
  "Program Version,EnergyPlus 9.2
 Processing".

Definition fmu_text : string :=
  "ExternalInterface:FunctionalMockupUnitImport,a.fmu;".

(** a disk with the two build directories and two input files *)
Definition disk : fs :=
  [ ("/a", Dir); ("/b", Dir); ("/tests", Dir);
    ("/tests/SimpleTest.idf", File "Version,9.2;");
    ("/tests/Fmu.idf", File fmu_text) ].

(** the results of one case in both builds: the same output, a meter
    file that cannot be read as numbers, an audit file on one side only *)
Definition diff_disk : fs :=
  [ ("/a/Tests/Case/eplusout.end", File end_text);
    ("/b/Tests/Case/eplusout.end", File end_text);
    ("/a/Tests/Case/eplusout.csv", File "Date,Value");
    ("/b/Tests/Case/eplusout.csv", File "Date,Value");
    ("/a/Tests/Case/eplusmtr.csv", File "corrupt");
    ("/b/Tests/Case/eplusmtr.csv", File "Date,Meter");
    ("/a/Tests/Case/eplusout.audit", File audit_a) ].

(** two audit files that differ in a version line only *)
Definition audit_disk : fs := [ ("/a/eplusout.audit", File audit_a); ("/b/eplusout.audit", File audit_b) ].

End MemFS.

(* ================================================================= *)
(** ** The decision of section 4.2, in the words of the specification *)

(** The table of section 4.2, row by row; a one-sided crash is read on
    either side. *)
Definition section_4_2_table (status_a status_b : Status) : Decision :=
  match status_a, status_b with
  | STATUS_SUCCESS, STATUS_SUCCESS => PROCEED
  | STATUS_FATAL, STATUS_FATAL => SKIP_BOTH_FATAL
  | STATUS_SUCCESS, STATUS_FATAL | STATUS_FATAL, STATUS_SUCCESS => SKIP_ONE_FATAL
  | STATUS_MISSING, STATUS_MISSING => SKIP_BOTH_MISSING
  | STATUS_MISSING, _ | _, STATUS_MISSING => SKIP_ONE_MISSING
  | _, _ => SKIP_UNKNOWN
  end.

(** What the source decides: a missing end file first, then the number
    of successes, a status that is not a success counting as a failure. *)
Definition decision_by_counts (status_a status_b : Status) : Decision :=
  match status_a, status_b with
  | STATUS_MISSING, STATUS_MISSING => SKIP_BOTH_MISSING
  | STATUS_MISSING, _ | _, STATUS_MISSING => SKIP_ONE_MISSING
  | STATUS_SUCCESS, STATUS_SUCCESS => PROCEED
  | STATUS_SUCCESS, _ | _, STATUS_SUCCESS => SKIP_ONE_FATAL
  | _, _ => SKIP_BOTH_FATAL
  end.

(** The state after one notification. *)
Definition after_emit {E : Ext} (ev : Event) (s : St E) : St E :=
  {| world := world s; clock := S (clock s);
     events := events s ++ [(clock s, ev)] |}.

Definition summary_of (a : Status) (ra : Q) (b : Status) (rb : Q)
  : EndErrSummary :=
  {| simulation_status_case1 := a; run_time_seconds_case1 := ra;
     simulation_status_case2 := b; run_time_seconds_case2 := rb |}.

(** A success marker with the duration of the specification's example. *)
Definition elapsed_two_minutes : string :=
  "EnergyPlus Completed Successfully-- 0 Warning; 0 Severe Errors; Elapsed Time=00hr 02min  3.45sec".


(** The state after [n] calls that leave the world and the trace as they
    are. *)
Definition after_asks {E : Ext} (n : nat) (s : St E) : St E :=
  {| world := world s; clock := n + clock s; events := events s |}.

(** The marker of an input that needs an FMU, and what lies between its
    first and its last character. *)
Definition fmu_marker : string := "ExternalInterface:".
Definition fmu_marker_inside : string := "xternalInterface".

(** The text [stage_datasets] comes back with. *)
Definition text_for_datasets (idf_text : string) : string :=
  let idf_text :=
    if PyStr.contains "Window5DataFile.dat" idf_text
    then PyStr.replace "..\datasets\Window5DataFile.dat"
                       "datasets/Window5DataFile.dat" idf_text
    else idf_text in
  if PyStr.contains "DataSets\TDV" idf_text
     || PyStr.contains "DataSets\\TDV" idf_text
  then PyStr.replace "..\datasets\TDV\TDV_2008_kBtu_CTZ06.csv"
                     (join3 "datasets" "TDV" "TDV_2008_kBtu_CTZ06.csv") idf_text
  else idf_text.

(** A computation that notifies nobody. *)
Definition silent {E : Ext} {A} (m : M (St E) A) : Prop :=
  forall s s' r, m s = (s', r) -> events s' = events s.

(** *** The sixteen blocks of the dispatcher, by artifact kind *)

Definition file_of_kind (k : FileKind) : string :=
  match k with
  | MathFile ESO => "eplusout.csv"
  | MathFile MTR => "eplusmtr.csv"
  | MathFile ZSZ => "epluszsz.csv"
  | MathFile SSZ => "eplusssz.csv"
  | TableFile => "eplustbl.htm"
  | TextFile AUD => "eplusout.audit"
  | TextFile BND => "eplusout.bnd"
  | TextFile DXF => "eplusout.dxf"
  | TextFile EIO => "eplusout.eio"
  | TextFile MDD => "eplusout.mdd"
  | TextFile MTD => "eplusout.mtd"
  | TextFile RDD => "eplusout.rdd"
  | TextFile SHD => "eplusout.shd"
  | TextFile ERR => "eplusout.err"
  | TextFile DL_IN => "eplusout.delightin"
  | TextFile DL_OUT => "eplusout.delightout"
  end.

Definition all_kinds : list FileKind :=
  map MathFile [ESO; MTR; ZSZ; SSZ]
  ++ [TableFile]
  ++ map TextFile [AUD; BND; DXF; EIO; MDD; MTD; RDD; SHD; ERR; DL_IN; DL_OUT].

Definition diff_block {E : Ext} (thresh_dict : ThreshDict E)
    (case_result_dir_1 case_result_dir_2 out_dir : string) (k : FileKind)
  : M (DSt E) unit :=
  match k with
  | MathFile m =>
      math_block thresh_dict case_result_dir_1 case_result_dir_2 out_dir
                 (m, file_of_kind k)
  | TableFile =>
      table_block thresh_dict case_result_dir_1 case_result_dir_2 out_dir
  | TextFile t =>
      text_block case_result_dir_1 case_result_dir_2 out_dir (t, file_of_kind k)
  end.

Definition is_print_or_diff_call (ev : Event) : bool :=
  match ev with
  | Print _ | DiffCall _ _ _ => true
  | _ => false
  end.

Definition is_call_of (k : FileKind) (ev : Event) : bool :=
  match ev with
  | DiffCall k' _ _ => FileKind_eqb k k'
  | _ => false
  end.

(** how many times the diff call of kind [k] appears in a trace *)
Definition calls_of (k : FileKind) (evs : list Event) : nat :=
  List.length (filter (is_call_of k) evs).

Definition occurrences (k : FileKind) (l : list FileKind) : nat :=
  List.length (filter (FileKind_eqb k) l).

(** A computation on an entry that keeps its name, attaches at most [nr]
    records of kind [k], makes at most [nc] diff calls of kind [k] and
    otherwise only prints. *)
Definition dispatch_bound {E : Ext} {A} (k : FileKind) (nc nr : nat)
    (m : M (DSt E) A) : Prop :=
  forall e s e' s' r, m (e, s) = ((e', s'), r) ->
    basename e' = basename e
    /\ records_of_kind k e' <= records_of_kind k e + nr
    /\ exists evs, events s' = events s ++ evs
                   /\ forallb is_print_or_diff_call (map snd evs) = true
                   /\ calls_of k (map snd evs) <= nc.

Definition is_diff_completed (ev : Event) : bool :=
  match ev with DiffCompleted _ => true | _ => false end.

(** The state in which one turn of [diff_logs_for_build] ends: after the
    two printed lines of the [except] clause when the diffs raised, and after
    the notification of the [finally] clause in both cases. *)
Definition after_diff_turn {E : Ext} (name : string) (r : Result unit) (s : St E)
  : St E :=
  match r with
  | Ok _ => after_emit (DiffCompleted name) s
  | Raise e =>
      after_emit (DiffCompleted name)
        (after_emit (Print ("Message: " ++ str_of_exn e))
           (after_emit (Print (unexpected_error_message name)) s))
  end.

(** an entry of the suite as it is before the run *)
Definition fresh_entry (case : string * option string) : TestEntry :=
  new_TestEntry (fst case) (snd case).

Definition is_diff_phase_event (ev : Event) : bool :=
  match ev with
  | Print _ | DiffCall _ _ _ | DiffCompleted _ => true
  | _ => false
  end.

(** *** Classes of events, for the properties of a whole run *)

Definition is_cancelled (ev : Event) : bool :=
  match ev with Cancelled => true | _ => false end.

Definition is_all_done (ev : Event) : bool :=
  match ev with AllDone _ => true | _ => false end.

Definition is_simulations_complete (ev : Event) : bool :=
  match ev with SimulationsComplete => true | _ => false end.

(** an event that neither ends a run nor starts a simulation *)
Definition is_plain (ev : Event) : bool :=
  match ev with
  | Cancelled | AllDone _ | SimulationsComplete | Executed _ => false
  | _ => true
  end.

Definition plain (te : nat * Event) : Prop := is_plain (snd te) = true.

(** an event of a build phase: plain, or a simulation started at a time
    when the flag was not set *)
Definition build_event (interrupt_at : option nat) (te : nat * Event)
  : Prop :=
  match snd te with
  | Executed _ => flag_at interrupt_at (fst te) = false
  | ev => is_plain ev = true
  end.

(** A computation whose new events all satisfy [P]. *)
Definition emits {E : Ext} {A} (P : nat * Event -> Prop) (m : M (St E) A) : Prop :=
  forall s s' r, m s = (s', r) ->
    exists evs, events s' = events s ++ evs /\ Forall P evs.

(** The three ways a run ends, with [pre] the events before it:
    cancelled, complete, or aborted by an exception. *)
Definition run_shape {E : Ext} (interrupt_at : option nat) (a_build_runs : bool)
    (pre : list (nat * Event))
    (out : St E * Result (option (list TestEntry * CompletedStructure))) : Prop :=
  (snd out = Ok None
   /\ exists evs c, events (fst out) = pre ++ evs ++ [(c, Cancelled)]
                    /\ Forall (build_event interrupt_at) evs
                    /\ flag_at interrupt_at c = true)
  \/ (exists res evs1 evs2 t c,
        snd out = Ok (Some res)
        /\ events (fst out)
           = pre ++ evs1 ++ (t, SimulationsComplete) :: evs2 ++ [(c, AllDone (snd res))]
        /\ Forall (build_event interrupt_at) evs1
        /\ Forall plain evs2
        /\ (a_build_runs = true -> flag_at interrupt_at t = false))
  \/ (exists e evs,
        snd out = Raise e
        /\ events (fst out) = pre ++ evs
        /\ Forall (build_event interrupt_at) evs).

(** *** The shape of a well-formed elapsed-time stamp *)

(** [n] blanks *)
Fixpoint spaces (n : nat) : string :=
  match n with
  | O => EmptyString
  | S k => String " " (spaces k)
  end.

(** a piece of the stamp: no blank, no equals sign, no line break in it *)
Definition stamp_piece (s : string) : Prop :=
  PyStr.index_of " " s = None
  /\ PyStr.index_of "=" s = None
  /\ PyStr.index_of "010" s = None.

(** [label=HHhr MMmin  SS.SSsec], with [pad] the blanks before the
    seconds *)
Definition stamped (label hh mm pad sec : string) : string :=
  label ++ "=" ++ hh ++ "hr " ++ mm ++ "min " ++ pad ++ sec ++ "sec".

(** *** Order of the diff calls *)

(** [l1] is [l2] with some of its elements left out, the others in
    their order. *)
Inductive subsequence {A : Type} : list A -> list A -> Prop :=
| subsequence_nil : subsequence [] []
| subsequence_skip x l1 l2 : subsequence l1 l2 -> subsequence l1 (x :: l2)
| subsequence_take x l1 l2 : subsequence l1 l2 -> subsequence (x :: l1) (x :: l2).

(** the call the dispatcher makes for the artifact of kind [k] *)
Definition diff_call_of (case_result_dir_1 case_result_dir_2 : string)
    (k : FileKind) : Event :=
  DiffCall k (join case_result_dir_1 (file_of_kind k))
             (join case_result_dir_2 (file_of_kind k)).

(** *** Classes of events, for the jobs of a build *)

Definition is_print (ev : Event) : bool :=
  match ev with Print _ => true | _ => false end.

Definition is_executed (ev : Event) : bool :=
  match ev with Executed _ => true | _ => false end.

Definition is_case_completed (ev : Event) : bool :=
  match ev with CaseCompleted _ => true | _ => false end.

Definition printed (te : nat * Event) : Prop := is_print (snd te) = true.

(** a printed line, or the notification of a case that failed *)
Definition is_print_or_failed (ev : Event) : bool :=
  match ev with
  | Print _ => true
  | CaseCompleted c => negb (run_success c)
  | _ => false
  end.

(** how many events of a class there are among [evs] *)
Definition count_of (f : Event -> bool) (evs : list (nat * Event)) : nat :=
  List.length (filter f (map snd evs)).

(** [task] is the job of [this_entry] in the build [build_tree] *)
Definition job_of (self : SuiteRunner) (build_tree : BuildTree)
    (this_entry : TestEntry) (task : Task) : Prop :=
  task_build_tree task = build_tree
  /\ task_basename task = basename this_entry
  /\ task_run_directory task
     = join3 (build_dir build_tree) (test_output_dir self) (basename this_entry)
  /\ task_run_type task = force_run_type self
  /\ task_reporting_freq task = min_reporting_freq self.

(** the notifications of one simulation: its start and its completion *)
Definition events_of_run (p : Task * TestCaseCompleted) : list Event :=
  [Executed (fst p); CaseCompleted (snd p)].

(** a simulation started for the job of an entry in the build
    [build_tree]; any other event *)
Definition starts_job_in (self : SuiteRunner) (entries : list TestEntry)
    (build_tree : BuildTree) (te : nat * Event) : Prop :=
  match snd te with
  | Executed task => exists e, In e entries /\ job_of self build_tree e task
  | _ => True
  end.

(** the same for a run: the build is one of the two builds of the
    suite, and it is one the suite was asked to run *)
Definition starts_job_of_suite (self : SuiteRunner) (entries : list TestEntry)
    (te : nat * Event) : Prop :=
  match snd te with
  | Executed task =>
      exists e, In e entries
                /\ ((run_case_a self = true
                     /\ job_of self (build_tree_a self) e task)
                    \/ (run_case_b self = true
                        /\ job_of self (build_tree_b self) e task))
  | _ => True
  end.

Definition not_executed (te : nat * Event) : Prop := is_executed (snd te) = false.

(* ================================================================= *)
(** ** JSON values

    What [json.loads] returns and [json.dumps] takes, with the two
    operations [load_settings] applies to it. *)

#[warnings="-register-all"]
Inductive json : Type :=
| JNull
| JBool (b : bool)
| JNumber (q : Q)
| JString (s : string)
| JArray (items : list json)
| JObject (members : list (string * json)).

Fixpoint lookup_member (k : string) (members : list (string * json))
  : option json :=
  match members with
  | [] => None
  | (k', v) :: rest => if String.eqb k k' then Some v else lookup_member k rest
  end.

(** [k in j], for a string [k] *)
Definition json_contains (k : string) (j : json) : Result bool :=
  match j with
  | JObject members =>
      Ok (match lookup_member k members with Some _ => true | None => false end)
  | JArray items =>
      Ok (existsb (fun x => match x with
                            | JString s => String.eqb s k
                            | _ => false
                            end) items)
  | JString s => Ok (PyStr.contains k s)
  | JNull | JBool _ | JNumber _ =>
      Raise (OtherError "TypeError: argument is not iterable")
  end.

(** [j[k]], for a string [k] *)
Definition json_getitem (j : json) (k : string) : Result json :=
  match j with
  | JObject members =>
      match lookup_member k members with
      | Some v => Ok v
      | None => Raise (OtherError ("KeyError: " ++ k))
      end
  | JArray _ => Raise (OtherError "TypeError: list indices must be integers or slices, not str")
  | JString _ => Raise (OtherError "TypeError: string indices must be integers")
  | JNull | JBool _ | JNumber _ =>
      Raise (OtherError "TypeError: object is not subscriptable")
  end.

(** the truth value of a value *)
Definition json_truth (j : json) : bool :=
  match j with
  | JNull => false
  | JBool b => b
  | JNumber q => negb (Qeq_bool q 0)
  | JString s => PyStr.nonempty s
  | JArray items => match items with [] => false | _ => true end
  | JObject members => match members with [] => false | _ => true end
  end.

(** [j == k], for a string [k] *)
Definition json_is_string (k : string) (j : json) : bool :=
  match j with JString s => String.eqb s k | _ => false end.

(* ================================================================= *)
(** ** The window: progress bar, status line and log

    [RegressionGUI] of [main_window.py], as far as the handlers of the
    runner's notifications, the log, the selection of input files and the
    settings file go.  A widget is kept as what it shows: the fraction of the
    progress bar, the messages pushed on the status bar, the rows of a list
    store, the label of the run button, the value of the spin button.  A
    dialog is shown and closed and leaves nothing behind.  The tree of results
    that [all_done_callback_handler] fills is a [Gtk.TreeStore] over lists of
    [CompletedStructure], neither among the sources; it is left out, and
    filling it is taken not to raise. *)

(** a row of [idf_list_store]: the columns [RUN], [IDF] and [EPW] of
    [IDFListViewColumnIndex] *)
Record IdfRow : Type := {
  row_run : bool;
  row_idf : string;
  row_epw : string
}.

(** [current_progress_value] and [progress_maximum_value] are [None]
    until a handler sets them.  [clock_reads] counts the calls of
    [datetime.now()] made for the log.  [file_list_num_files] is the value of
    the spin button, [master_data_file] the attribute of that name of
    [file_list_builder_configuration].  The attributes a settings file is
    read into are kept as the values read; of the two run flags the truth
    value is kept.  [window_force_run_type] is the window's
    [force_run_type]. *)
Record RegressionGUI : Type := {
  idf_list_store : list IdfRow;
  log_store : list (string * string);
  progress : Q;
  status_bar : list string;
  current_progress_value : option Q;
  progress_maximum_value : option Q;
  case_1_run : bool;
  case_2_run : bool;
  btn_run_suite : string;
  test_suite_is_running : bool;
  clock_reads : nat;
  idf_files_have_been_built : bool;
  currently_saving : bool;
  file_list_num_files : Q;
  master_data_file : json;
  try_to_restore_files : json;
  case_1_type : json;
  case_1_dir : json;
  case_2_type : json;
  case_2_dir : json;
  window_force_run_type : ForceRunType;
  report_frequency : json;
  num_threads_to_run : json
}.

(** [self.progress.set_fraction(x)] *)
Definition set_fraction (x : Q) (g : RegressionGUI)
  : RegressionGUI :=
  {| idf_list_store := idf_list_store g; log_store := log_store g;
     progress := x; status_bar := status_bar g;
     current_progress_value := current_progress_value g;
     progress_maximum_value := progress_maximum_value g;
     case_1_run := case_1_run g; case_2_run := case_2_run g;
     btn_run_suite := btn_run_suite g;
     test_suite_is_running := test_suite_is_running g;
     clock_reads := clock_reads g;
     idf_files_have_been_built := idf_files_have_been_built g;
     currently_saving := currently_saving g;
     file_list_num_files := file_list_num_files g;
     master_data_file := master_data_file g;
     try_to_restore_files := try_to_restore_files g;
     case_1_type := case_1_type g; case_1_dir := case_1_dir g;
     case_2_type := case_2_type g; case_2_dir := case_2_dir g;
     window_force_run_type := window_force_run_type g;
     report_frequency := report_frequency g;
     num_threads_to_run := num_threads_to_run g |}.

(** [self.status_bar.push(self.status_bar_context_id, msg)] *)
Definition status_bar_push (msg : string) (g : RegressionGUI)
  : RegressionGUI :=
  {| idf_list_store := idf_list_store g; log_store := log_store g;
     progress := progress g; status_bar := status_bar g ++ [msg];
     current_progress_value := current_progress_value g;
     progress_maximum_value := progress_maximum_value g;
     case_1_run := case_1_run g; case_2_run := case_2_run g;
     btn_run_suite := btn_run_suite g;
     test_suite_is_running := test_suite_is_running g;
     clock_reads := clock_reads g;
     idf_files_have_been_built := idf_files_have_been_built g;
     currently_saving := currently_saving g;
     file_list_num_files := file_list_num_files g;
     master_data_file := master_data_file g;
     try_to_restore_files := try_to_restore_files g;
     case_1_type := case_1_type g; case_1_dir := case_1_dir g;
     case_2_type := case_2_type g; case_2_dir := case_2_dir g;
     window_force_run_type := window_force_run_type g;
     report_frequency := report_frequency g;
     num_threads_to_run := num_threads_to_run g |}.

Definition set_current_progress_value (x : option Q) (g : RegressionGUI)
  : RegressionGUI :=
  {| idf_list_store := idf_list_store g; log_store := log_store g;
     progress := progress g; status_bar := status_bar g;
     current_progress_value := x;
     progress_maximum_value := progress_maximum_value g;
     case_1_run := case_1_run g; case_2_run := case_2_run g;
     btn_run_suite := btn_run_suite g;
     test_suite_is_running := test_suite_is_running g;
     clock_reads := clock_reads g;
     idf_files_have_been_built := idf_files_have_been_built g;
     currently_saving := currently_saving g;
     file_list_num_files := file_list_num_files g;
     master_data_file := master_data_file g;
     try_to_restore_files := try_to_restore_files g;
     case_1_type := case_1_type g; case_1_dir := case_1_dir g;
     case_2_type := case_2_type g; case_2_dir := case_2_dir g;
     window_force_run_type := window_force_run_type g;
     report_frequency := report_frequency g;
     num_threads_to_run := num_threads_to_run g |}.

Definition set_progress_maximum_value (x : option Q) (g : RegressionGUI)
  : RegressionGUI :=
  {| idf_list_store := idf_list_store g; log_store := log_store g;
     progress := progress g; status_bar := status_bar g;
     current_progress_value := current_progress_value g;
     progress_maximum_value := x; case_1_run := case_1_run g;
     case_2_run := case_2_run g; btn_run_suite := btn_run_suite g;
     test_suite_is_running := test_suite_is_running g;
     clock_reads := clock_reads g;
     idf_files_have_been_built := idf_files_have_been_built g;
     currently_saving := currently_saving g;
     file_list_num_files := file_list_num_files g;
     master_data_file := master_data_file g;
     try_to_restore_files := try_to_restore_files g;
     case_1_type := case_1_type g; case_1_dir := case_1_dir g;
     case_2_type := case_2_type g; case_2_dir := case_2_dir g;
     window_force_run_type := window_force_run_type g;
     report_frequency := report_frequency g;
     num_threads_to_run := num_threads_to_run g |}.

(** [self.btn_run_suite.set_label(label)] and
    [self.test_suite_is_running = running] *)
Definition set_run_button (label : string) (running : bool) (g : RegressionGUI)
  : RegressionGUI :=
  {| idf_list_store := idf_list_store g; log_store := log_store g;
     progress := progress g; status_bar := status_bar g;
     current_progress_value := current_progress_value g;
     progress_maximum_value := progress_maximum_value g;
     case_1_run := case_1_run g; case_2_run := case_2_run g;
     btn_run_suite := label; test_suite_is_running := running;
     clock_reads := clock_reads g;
     idf_files_have_been_built := idf_files_have_been_built g;
     currently_saving := currently_saving g;
     file_list_num_files := file_list_num_files g;
     master_data_file := master_data_file g;
     try_to_restore_files := try_to_restore_files g;
     case_1_type := case_1_type g; case_1_dir := case_1_dir g;
     case_2_type := case_2_type g; case_2_dir := case_2_dir g;
     window_force_run_type := window_force_run_type g;
     report_frequency := report_frequency g;
     num_threads_to_run := num_threads_to_run g |}.

Definition set_idf_list_store (rows : list IdfRow) (g : RegressionGUI)
  : RegressionGUI :=
  {| idf_list_store := rows; log_store := log_store g;
     progress := progress g; status_bar := status_bar g;
     current_progress_value := current_progress_value g;
     progress_maximum_value := progress_maximum_value g;
     case_1_run := case_1_run g; case_2_run := case_2_run g;
     btn_run_suite := btn_run_suite g;
     test_suite_is_running := test_suite_is_running g;
     clock_reads := clock_reads g;
     idf_files_have_been_built := idf_files_have_been_built g;
     currently_saving := currently_saving g;
     file_list_num_files := file_list_num_files g;
     master_data_file := master_data_file g;
     try_to_restore_files := try_to_restore_files g;
     case_1_type := case_1_type g; case_1_dir := case_1_dir g;
     case_2_type := case_2_type g; case_2_dir := case_2_dir g;
     window_force_run_type := window_force_run_type g;
     report_frequency := report_frequency g;
     num_threads_to_run := num_threads_to_run g |}.

Definition set_currently_saving (b : bool) (g : RegressionGUI)
  : RegressionGUI :=
  {| idf_list_store := idf_list_store g; log_store := log_store g;
     progress := progress g; status_bar := status_bar g;
     current_progress_value := current_progress_value g;
     progress_maximum_value := progress_maximum_value g;
     case_1_run := case_1_run g; case_2_run := case_2_run g;
     btn_run_suite := btn_run_suite g;
     test_suite_is_running := test_suite_is_running g;
     clock_reads := clock_reads g;
     idf_files_have_been_built := idf_files_have_been_built g;
     currently_saving := b; file_list_num_files := file_list_num_files g;
     master_data_file := master_data_file g;
     try_to_restore_files := try_to_restore_files g;
     case_1_type := case_1_type g; case_1_dir := case_1_dir g;
     case_2_type := case_2_type g; case_2_dir := case_2_dir g;
     window_force_run_type := window_force_run_type g;
     report_frequency := report_frequency g;
     num_threads_to_run := num_threads_to_run g |}.

(** [self.file_list_num_files.set_value(x)]: the spin button keeps the
    value within its range, [set_range(0, 1000)] *)
Definition set_file_list_num_files (x : Q) (g : RegressionGUI)
  : RegressionGUI :=
  {| idf_list_store := idf_list_store g; log_store := log_store g;
     progress := progress g; status_bar := status_bar g;
     current_progress_value := current_progress_value g;
     progress_maximum_value := progress_maximum_value g;
     case_1_run := case_1_run g; case_2_run := case_2_run g;
     btn_run_suite := btn_run_suite g;
     test_suite_is_running := test_suite_is_running g;
     clock_reads := clock_reads g;
     idf_files_have_been_built := idf_files_have_been_built g;
     currently_saving := currently_saving g;
     file_list_num_files := if Qle_bool x 0 then 0%Q
                            else if Qle_bool 1000 x then 1000%Q else x;
     master_data_file := master_data_file g;
     try_to_restore_files := try_to_restore_files g;
     case_1_type := case_1_type g; case_1_dir := case_1_dir g;
     case_2_type := case_2_type g; case_2_dir := case_2_dir g;
     window_force_run_type := window_force_run_type g;
     report_frequency := report_frequency g;
     num_threads_to_run := num_threads_to_run g |}.

Definition set_master_data_file (x : json) (g : RegressionGUI)
  : RegressionGUI :=
  {| idf_list_store := idf_list_store g; log_store := log_store g;
     progress := progress g; status_bar := status_bar g;
     current_progress_value := current_progress_value g;
     progress_maximum_value := progress_maximum_value g;
     case_1_run := case_1_run g; case_2_run := case_2_run g;
     btn_run_suite := btn_run_suite g;
     test_suite_is_running := test_suite_is_running g;
     clock_reads := clock_reads g;
     idf_files_have_been_built := idf_files_have_been_built g;
     currently_saving := currently_saving g;
     file_list_num_files := file_list_num_files g; master_data_file := x;
     try_to_restore_files := try_to_restore_files g;
     case_1_type := case_1_type g; case_1_dir := case_1_dir g;
     case_2_type := case_2_type g; case_2_dir := case_2_dir g;
     window_force_run_type := window_force_run_type g;
     report_frequency := report_frequency g;
     num_threads_to_run := num_threads_to_run g |}.

Definition set_try_to_restore_files (x : json) (g : RegressionGUI)
  : RegressionGUI :=
  {| idf_list_store := idf_list_store g; log_store := log_store g;
     progress := progress g; status_bar := status_bar g;
     current_progress_value := current_progress_value g;
     progress_maximum_value := progress_maximum_value g;
     case_1_run := case_1_run g; case_2_run := case_2_run g;
     btn_run_suite := btn_run_suite g;
     test_suite_is_running := test_suite_is_running g;
     clock_reads := clock_reads g;
     idf_files_have_been_built := idf_files_have_been_built g;
     currently_saving := currently_saving g;
     file_list_num_files := file_list_num_files g;
     master_data_file := master_data_file g; try_to_restore_files := x;
     case_1_type := case_1_type g; case_1_dir := case_1_dir g;
     case_2_type := case_2_type g; case_2_dir := case_2_dir g;
     window_force_run_type := window_force_run_type g;
     report_frequency := report_frequency g;
     num_threads_to_run := num_threads_to_run g |}.

Definition set_case_1_run (x : bool) (g : RegressionGUI)
  : RegressionGUI :=
  {| idf_list_store := idf_list_store g; log_store := log_store g;
     progress := progress g; status_bar := status_bar g;
     current_progress_value := current_progress_value g;
     progress_maximum_value := progress_maximum_value g; case_1_run := x;
     case_2_run := case_2_run g; btn_run_suite := btn_run_suite g;
     test_suite_is_running := test_suite_is_running g;
     clock_reads := clock_reads g;
     idf_files_have_been_built := idf_files_have_been_built g;
     currently_saving := currently_saving g;
     file_list_num_files := file_list_num_files g;
     master_data_file := master_data_file g;
     try_to_restore_files := try_to_restore_files g;
     case_1_type := case_1_type g; case_1_dir := case_1_dir g;
     case_2_type := case_2_type g; case_2_dir := case_2_dir g;
     window_force_run_type := window_force_run_type g;
     report_frequency := report_frequency g;
     num_threads_to_run := num_threads_to_run g |}.

Definition set_case_1_dir (x : json) (g : RegressionGUI)
  : RegressionGUI :=
  {| idf_list_store := idf_list_store g; log_store := log_store g;
     progress := progress g; status_bar := status_bar g;
     current_progress_value := current_progress_value g;
     progress_maximum_value := progress_maximum_value g;
     case_1_run := case_1_run g; case_2_run := case_2_run g;
     btn_run_suite := btn_run_suite g;
     test_suite_is_running := test_suite_is_running g;
     clock_reads := clock_reads g;
     idf_files_have_been_built := idf_files_have_been_built g;
     currently_saving := currently_saving g;
     file_list_num_files := file_list_num_files g;
     master_data_file := master_data_file g;
     try_to_restore_files := try_to_restore_files g;
     case_1_type := case_1_type g; case_1_dir := x;
     case_2_type := case_2_type g; case_2_dir := case_2_dir g;
     window_force_run_type := window_force_run_type g;
     report_frequency := report_frequency g;
     num_threads_to_run := num_threads_to_run g |}.

Definition set_case_1_type (x : json) (g : RegressionGUI)
  : RegressionGUI :=
  {| idf_list_store := idf_list_store g; log_store := log_store g;
     progress := progress g; status_bar := status_bar g;
     current_progress_value := current_progress_value g;
     progress_maximum_value := progress_maximum_value g;
     case_1_run := case_1_run g; case_2_run := case_2_run g;
     btn_run_suite := btn_run_suite g;
     test_suite_is_running := test_suite_is_running g;
     clock_reads := clock_reads g;
     idf_files_have_been_built := idf_files_have_been_built g;
     currently_saving := currently_saving g;
     file_list_num_files := file_list_num_files g;
     master_data_file := master_data_file g;
     try_to_restore_files := try_to_restore_files g; case_1_type := x;
     case_1_dir := case_1_dir g; case_2_type := case_2_type g;
     case_2_dir := case_2_dir g;
     window_force_run_type := window_force_run_type g;
     report_frequency := report_frequency g;
     num_threads_to_run := num_threads_to_run g |}.

Definition set_case_2_run (x : bool) (g : RegressionGUI)
  : RegressionGUI :=
  {| idf_list_store := idf_list_store g; log_store := log_store g;
     progress := progress g; status_bar := status_bar g;
     current_progress_value := current_progress_value g;
     progress_maximum_value := progress_maximum_value g;
     case_1_run := case_1_run g; case_2_run := x;
     btn_run_suite := btn_run_suite g;
     test_suite_is_running := test_suite_is_running g;
     clock_reads := clock_reads g;
     idf_files_have_been_built := idf_files_have_been_built g;
     currently_saving := currently_saving g;
     file_list_num_files := file_list_num_files g;
     master_data_file := master_data_file g;
     try_to_restore_files := try_to_restore_files g;
     case_1_type := case_1_type g; case_1_dir := case_1_dir g;
     case_2_type := case_2_type g; case_2_dir := case_2_dir g;
     window_force_run_type := window_force_run_type g;
     report_frequency := report_frequency g;
     num_threads_to_run := num_threads_to_run g |}.

Definition set_case_2_dir (x : json) (g : RegressionGUI)
  : RegressionGUI :=
  {| idf_list_store := idf_list_store g; log_store := log_store g;
     progress := progress g; status_bar := status_bar g;
     current_progress_value := current_progress_value g;
     progress_maximum_value := progress_maximum_value g;
     case_1_run := case_1_run g; case_2_run := case_2_run g;
     btn_run_suite := btn_run_suite g;
     test_suite_is_running := test_suite_is_running g;
     clock_reads := clock_reads g;
     idf_files_have_been_built := idf_files_have_been_built g;
     currently_saving := currently_saving g;
     file_list_num_files := file_list_num_files g;
     master_data_file := master_data_file g;
     try_to_restore_files := try_to_restore_files g;
     case_1_type := case_1_type g; case_1_dir := case_1_dir g;
     case_2_type := case_2_type g; case_2_dir := x;
     window_force_run_type := window_force_run_type g;
     report_frequency := report_frequency g;
     num_threads_to_run := num_threads_to_run g |}.

Definition set_case_2_type (x : json) (g : RegressionGUI)
  : RegressionGUI :=
  {| idf_list_store := idf_list_store g; log_store := log_store g;
     progress := progress g; status_bar := status_bar g;
     current_progress_value := current_progress_value g;
     progress_maximum_value := progress_maximum_value g;
     case_1_run := case_1_run g; case_2_run := case_2_run g;
     btn_run_suite := btn_run_suite g;
     test_suite_is_running := test_suite_is_running g;
     clock_reads := clock_reads g;
     idf_files_have_been_built := idf_files_have_been_built g;
     currently_saving := currently_saving g;
     file_list_num_files := file_list_num_files g;
     master_data_file := master_data_file g;
     try_to_restore_files := try_to_restore_files g;
     case_1_type := case_1_type g; case_1_dir := case_1_dir g;
     case_2_type := x; case_2_dir := case_2_dir g;
     window_force_run_type := window_force_run_type g;
     report_frequency := report_frequency g;
     num_threads_to_run := num_threads_to_run g |}.

Definition set_window_force_run_type (x : ForceRunType) (g : RegressionGUI)
  : RegressionGUI :=
  {| idf_list_store := idf_list_store g; log_store := log_store g;
     progress := progress g; status_bar := status_bar g;
     current_progress_value := current_progress_value g;
     progress_maximum_value := progress_maximum_value g;
     case_1_run := case_1_run g; case_2_run := case_2_run g;
     btn_run_suite := btn_run_suite g;
     test_suite_is_running := test_suite_is_running g;
     clock_reads := clock_reads g;
     idf_files_have_been_built := idf_files_have_been_built g;
     currently_saving := currently_saving g;
     file_list_num_files := file_list_num_files g;
     master_data_file := master_data_file g;
     try_to_restore_files := try_to_restore_files g;
     case_1_type := case_1_type g; case_1_dir := case_1_dir g;
     case_2_type := case_2_type g; case_2_dir := case_2_dir g;
     window_force_run_type := x; report_frequency := report_frequency g;
     num_threads_to_run := num_threads_to_run g |}.

Definition set_report_frequency (x : json) (g : RegressionGUI)
  : RegressionGUI :=
  {| idf_list_store := idf_list_store g; log_store := log_store g;
     progress := progress g; status_bar := status_bar g;
     current_progress_value := current_progress_value g;
     progress_maximum_value := progress_maximum_value g;
     case_1_run := case_1_run g; case_2_run := case_2_run g;
     btn_run_suite := btn_run_suite g;
     test_suite_is_running := test_suite_is_running g;
     clock_reads := clock_reads g;
     idf_files_have_been_built := idf_files_have_been_built g;
     currently_saving := currently_saving g;
     file_list_num_files := file_list_num_files g;
     master_data_file := master_data_file g;
     try_to_restore_files := try_to_restore_files g;
     case_1_type := case_1_type g; case_1_dir := case_1_dir g;
     case_2_type := case_2_type g; case_2_dir := case_2_dir g;
     window_force_run_type := window_force_run_type g;
     report_frequency := x; num_threads_to_run := num_threads_to_run g |}.

Definition set_num_threads_to_run (x : json) (g : RegressionGUI)
  : RegressionGUI :=
  {| idf_list_store := idf_list_store g; log_store := log_store g;
     progress := progress g; status_bar := status_bar g;
     current_progress_value := current_progress_value g;
     progress_maximum_value := progress_maximum_value g;
     case_1_run := case_1_run g; case_2_run := case_2_run g;
     btn_run_suite := btn_run_suite g;
     test_suite_is_running := test_suite_is_running g;
     clock_reads := clock_reads g;
     idf_files_have_been_built := idf_files_have_been_built g;
     currently_saving := currently_saving g;
     file_list_num_files := file_list_num_files g;
     master_data_file := master_data_file g;
     try_to_restore_files := try_to_restore_files g;
     case_1_type := case_1_type g; case_1_dir := case_1_dir g;
     case_2_type := case_2_type g; case_2_dir := case_2_dir g;
     window_force_run_type := window_force_run_type g;
     report_frequency := report_frequency g; num_threads_to_run := x |}.

Definition log_store_limit : nat := 5000.

Section Window.

(** [str(datetime.now())] at the [n]-th reading of the clock *)
Variable datetime_now : nat -> string.

(** *** [add_log_entry] *)

Definition add_log_entry (message : string) (g : RegressionGUI) : RegressionGUI :=
  let store :=
    if log_store_limit <=? List.length (log_store g)
    then List.tl (log_store g)       (* remove(self.log_store[0].iter) *)
    else log_store g in
  {| idf_list_store := idf_list_store g;
     log_store := store ++ [(datetime_now (clock_reads g), message)];
     progress := progress g; status_bar := status_bar g;
     current_progress_value := current_progress_value g;
     progress_maximum_value := progress_maximum_value g;
     case_1_run := case_1_run g; case_2_run := case_2_run g;
     btn_run_suite := btn_run_suite g;
     test_suite_is_running := test_suite_is_running g;
     clock_reads := S (clock_reads g);
     idf_files_have_been_built := idf_files_have_been_built g;
     currently_saving := currently_saving g;
     file_list_num_files := file_list_num_files g;
     master_data_file := master_data_file g;
     try_to_restore_files := try_to_restore_files g;
     case_1_type := case_1_type g; case_1_dir := case_1_dir g;
     case_2_type := case_2_type g; case_2_dir := case_2_dir g;
     window_force_run_type := window_force_run_type g;
     report_frequency := report_frequency g;
     num_threads_to_run := num_threads_to_run g |}.

(** *** The handlers of the runner's notifications *)

Definition gui_update (f : RegressionGUI -> RegressionGUI)
  : M RegressionGUI unit :=
  fun g => (f g, Ok tt).

Definition print_callback_handler (msg : string) : M RegressionGUI unit :=
  gui_update (fun g => add_log_entry msg (status_bar_push msg g)).

Definition sim_starting_callback_handler
    (number_of_builds number_of_cases_per_build : nat) : M RegressionGUI unit :=
  gui_update (fun g =>
    let g := set_current_progress_value (Some 0%Q) g in
    let multiplier := 0%Q in
    let multiplier := if case_1_run g then (multiplier + 1)%Q else multiplier in
    let multiplier := if case_2_run g then (multiplier + 1)%Q else multiplier in
    (* there will always be a diff step *)
    let multiplier := (multiplier + 1)%Q in
    let g := set_progress_maximum_value
               (Some (inject_Z (Z.of_nat number_of_cases_per_build) * multiplier)%Q)
               g in
    status_bar_push "Simulations running..." (set_fraction 0%Q g)).

(** The two statements with which [case_completed_callback_handler] and
    [diff_completed_callback_handler] begin:
    [self.current_progress_value += 1.0], then
    [self.progress.set_fraction(self.current_progress_value /
    self.progress_maximum_value)].  A value that is still [None] makes the
    operation a [TypeError], a maximum of zero a [ZeroDivisionError]. *)
Definition advance_progress : M RegressionGUI unit :=
  fun g =>
    match current_progress_value g with
    | None =>
        (g, Raise (OtherError
                     "unsupported operand type(s) for +=: 'NoneType' and 'float'"))
    | Some c =>
        let g := set_current_progress_value (Some (c + 1)%Q) g in
        match progress_maximum_value g with
        | None =>
            (g, Raise (OtherError
                         "unsupported operand type(s) for /: 'float' and 'NoneType'"))
        | Some maximum =>
            if Qeq_bool maximum 0
            then (g, Raise (OtherError "float division by zero"))
            else (set_fraction ((c + 1) / maximum)%Q g, Ok tt)
        end
    end.

Definition case_completed_callback_handler
    (test_case_completed_instance : TestCaseCompleted) : M RegressionGUI unit :=
  advance_progress ;;;
  if negb (muffle_err_msg test_case_completed_instance) then
    if run_success test_case_completed_instance then
      print_callback_handler
        ("Completed " ++ run_directory test_case_completed_instance ++ " : "
         ++ case_name test_case_completed_instance ++ ", Success")
    else
      print_callback_handler
        ("Completed " ++ run_directory test_case_completed_instance ++ " : "
         ++ case_name test_case_completed_instance ++ ", Failed")
  else ret tt.

Definition simulations_complete_callback_handler : M RegressionGUI unit :=
  gui_update (status_bar_push "Simulations done; Post-processing...").

Definition diff_completed_callback_handler (case_name : string)
  : M RegressionGUI unit :=
  advance_progress.

(** without the rows of the results tree *)
Definition all_done_callback_handler (results : CompletedStructure)
  : M RegressionGUI unit :=
  gui_update (fun g =>
    set_fraction 1%Q
      (status_bar_push "ALL DONE" (set_run_button "Run Suite" false g))).

Definition cancel_callback_handler : M RegressionGUI unit :=
  gui_update (fun g =>
    add_log_entry "Test suite cancel complete"
      (set_fraction 1%Q
         (status_bar_push "Cancelled" (set_run_button "Run Suite" false g)))).

(** The callbacks [run_button] registers with the runner: each hands
    its arguments to its handler through [GObject.idle_add], so the handlers
    run in the order of the notifications.  The start of a simulation and a
    diff call are no notifications. *)
Definition on_notification (ev : Event) : M RegressionGUI unit :=
  match ev with
  | Print msg => print_callback_handler msg
  | Starting number_of_builds number_of_cases_per_build =>
      sim_starting_callback_handler number_of_builds number_of_cases_per_build
  | CaseCompleted c => case_completed_callback_handler c
  | SimulationsComplete => simulations_complete_callback_handler
  | DiffCompleted case_name => diff_completed_callback_handler case_name
  | AllDone results => all_done_callback_handler results
  | Cancelled => cancel_callback_handler
  | Executed _ | DiffCall _ _ _ => ret tt
  end.

End Window.

(** *** Classes of events, for the progress of a run *)

(** a notification that advances the progress bar *)
Definition is_tick (ev : Event) : bool :=
  match ev with CaseCompleted _ | DiffCompleted _ => true | _ => false end.

Definition is_starting (ev : Event) : bool :=
  match ev with Starting _ _ => true | _ => false end.

(** an event that neither advances the progress bar nor resets it *)
Definition quiet (te : nat * Event) : Prop :=
  is_tick (snd te) = false /\ is_starting (snd te) = false.

(** A computation with at most [n] notifications that advance the
    progress bar and none that resets it. *)
Definition spends {E : Ext} {A} (n : nat) (m : M (St E) A) : Prop :=
  forall s s' r, m s = (s', r) ->
    exists evs, events s' = events s ++ evs
                /\ count_of is_tick evs <= n
                /\ count_of is_starting evs = 0.

(** the steps of the progress bar a run is announced with *)
Definition progress_steps (self : SuiteRunner) (entries : list TestEntry) : nat :=
  List.length entries
  * ((if run_case_a self then 1 else 0) + (if run_case_b self then 1 else 0) + 1).

(** a window no handler has touched yet: the progress values are still
    unset, as [__init__] leaves them *)
Definition new_RegressionGUI (run_1 run_2 : bool) : RegressionGUI :=
  {| idf_list_store := []; log_store := []; progress := 0%Q;
     status_bar := []; current_progress_value := None;
     progress_maximum_value := None; case_1_run := run_1;
     case_2_run := run_2; btn_run_suite := "Run Suite";
     test_suite_is_running := false; clock_reads := 0;
     idf_files_have_been_built := false; currently_saving := false;
     file_list_num_files := 10%Q;
     master_data_file := JString "full_file_set_details.csv";
     try_to_restore_files := JNull; case_1_type := JString "makefile";
     case_1_dir := JString "/home/user/EnergyPlus/repo1/build/";
     case_2_type := JString "makefile";
     case_2_dir := JString "/home/user/EnergyPlus/repo2/build/";
     window_force_run_type := NONE; report_frequency := JString "Hourly";
     num_threads_to_run := JNumber 1%Q |}.

(** The progress values stand at [k] steps out of [m]. *)
Definition progress_at (k m : nat) (g : RegressionGUI) : Prop :=
  exists c maximum,
    current_progress_value g = Some c
    /\ progress_maximum_value g = Some maximum
    /\ (c == inject_Z (Z.of_nat k))%Q
    /\ (maximum == inject_Z (Z.of_nat m))%Q.

(** a fraction the progress bar can show *)
Definition in_range (x : Q) : Prop := (0 <= x)%Q /\ (x <= 1)%Q.

(** the window keeps its two run flags *)
Definition same_run_flags (g g' : RegressionGUI) : Prop :=
  case_1_run g' = case_1_run g /\ case_2_run g' = case_2_run g.

(** *** The log *)

(** the last [n] elements of a list, all of it when it is shorter *)
Definition last_n {A : Type} (n : nat) (l : list A) : list A :=
  skipn (List.length l - n) l.

(** one [add_log_entry] after the other *)
Definition add_log_entries (datetime_now : nat -> string)
    (messages : list string) (g : RegressionGUI) : RegressionGUI :=
  fold_left (fun g message => add_log_entry datetime_now message g) messages g.

(** the messages of the log, oldest first *)
Definition log_messages (g : RegressionGUI) : list string :=
  map snd (log_store g).

(* ================================================================= *)
(** ** The window: selection of input files *)

(** [str(n)], as [%s] and [%i] print a non-negative integer *)
Definition str_of_nat (n : nat) : string :=
  NilZero.string_of_uint (Nat.to_uint n).

(** [idf_entry[IDFListViewColumnIndex.RUN] = b] *)
Definition set_row_run (b : bool) (r : IdfRow) : IdfRow :=
  {| row_run := b; row_idf := row_idf r; row_epw := row_epw r |}.

(** [x in l] for a list of strings *)
Definition str_in (x : string) (l : list string) : bool :=
  existsb (String.eqb x) l.

(** *** [restore_file_selection] *)

Definition restore_file_selection (file_list : list string) (g : RegressionGUI)
  : RegressionGUI :=
  let store := map (set_row_run false) (idf_list_store g) in
  let store :=
    fold_left
      (fun store filename =>
         map (fun idf_entry =>
                if String.eqb (row_idf idf_entry) filename   (* if it matches *)
                then set_row_run true idf_entry
                else idf_entry)
             store)
      file_list store in
  set_idf_list_store store g.

(** *** [update_status_with_num_selected] *)

Definition update_status_with_num_selected (g : RegressionGUI)
  : RegressionGUI * nat :=
  let num_selected :=
    fold_left (fun num_selected this_file =>
                 if row_run this_file then num_selected + 1 else num_selected)
              (idf_list_store g) 0 in
  (status_bar_push (str_of_nat num_selected ++ " IDFs selected now") g,
   num_selected).

(** *** [save_settings]: the names written under [selectedfiles] *)

Definition selectedfiles (g : RegressionGUI) : list string :=
  fold_left (fun selected idf_entry =>
               if row_run idf_entry then selected ++ [row_idf idf_entry]
               else selected)
            (idf_list_store g) [].

Section Selection.

Variable datetime_now : nat -> string.

(** *** [idf_selection_from_list_worker]

    The warning dialog about names that are not in the list is shown and
    closed; of the diagnostic check the log entry stays. *)
Definition idf_selection_from_list_worker (files_to_select : list string)
    (g : RegressionGUI) : RegressionGUI * nat :=
  (* do a diagnostic check *)
  let file_names_in_list_store := map row_idf (idf_list_store g) in
  let files_entered_not_available :=
    fold_left (fun missing this_file =>
                 if negb (str_in this_file file_names_in_list_store)
                 then missing ++ [this_file] else missing)
              files_to_select [] in
  let g :=
    if 0 <? List.length files_entered_not_available then
      let num_missing := List.length files_entered_not_available in
      let word := if num_missing =? 1 then "was" else "were" in
      add_log_entry datetime_now
        ("Warning: " ++ str_of_nat num_missing ++ " files typed in " ++ word
         ++ " not available for selection") g
    else g in
  (* deselect them all first *)
  let store :=
    map (fun this_file =>
           if str_in (row_idf this_file) files_to_select
           then set_row_run true this_file
           else set_row_run false this_file)
        (idf_list_store g) in
  update_status_with_num_selected (set_idf_list_store store g).

End Selection.

(** two rows of the same name, one of them checked *)
Definition rows_of_one_name : list IdfRow :=
  [ {| row_run := true; row_idf := "1ZoneUncontrolled"; row_epw := "Denver" |};
    {| row_run := false; row_idf := "1ZoneUncontrolled"; row_epw := "Chicago" |} ].

(** the notification that ends a run: all done, or cancelled *)
Definition is_ending (ev : Event) : bool :=
  match ev with AllDone _ | Cancelled => true | _ => false end.

(** the run button shows that a suite is running *)
Definition shown_running (g : RegressionGUI) : bool * string :=
  (test_suite_is_running g, btn_run_suite g).

(** The window as [run_button] leaves it once the work thread is
    started. *)
Definition suite_started (g : RegressionGUI) : RegressionGUI :=
  set_run_button "Cancel Suite" true g.

(** a disk whose only input names a data set that is not there *)
Definition disk_without_data_set : MemFS.fs :=
  [ ("/a", MemFS.Dir); ("/b", MemFS.Dir); ("/tests", MemFS.Dir);
    ("/tests/Window.idf", MemFS.File "Construction:WindowDataFile, Window5DataFile.dat;") ].

(** *** The list of input files at start-up *)

(** What [rebuild_idf_list] reads of an entry of the verified list; the
    builder of the list is not among the sources. *)
Record VerifiedFile : Type := {
  filename : string;
  external_interface : bool;
  has_weather_file : bool;
  weatherfilename : string
}.

Definition missing_weather_file_key : string := "<no_weather_file>".

(** The rows [rebuild_idf_list] fills the cleared list store with: an
    input is checked unless it needs an external interface. *)
Definition rows_of_verified_files (verified_idf_files : list VerifiedFile)
  : list IdfRow :=
  map (fun file_a =>
         {| row_run := negb (external_interface file_a);
            row_idf := filename file_a;
            row_epw := if has_weather_file file_a then weatherfilename file_a
                       else missing_weather_file_key |})
      verified_idf_files.

(** What [for filename in j] goes through, as far as a row name can be
    equal to it: the strings among the items of a list, the keys of an object,
    the characters of a string. *)
Definition iterated_names (j : json) : Result (list string) :=
  match j with
  | JArray items =>
      Ok (flat_map (fun x => match x with JString s => [s] | _ => [] end) items)
  | JObject members => Ok (map fst members)
  | JString s =>
      Ok (map (fun c => String c EmptyString) (list_ascii_of_string s))
  | JNull | JBool _ | JNumber _ =>
      Raise (OtherError "TypeError: object is not iterable")
  end.

(** The end of [__init__]: after the list has been built, the selection
    named in the settings is restored, [if self.try_to_restore_files].  When
    the value cannot be gone through, the rows have been unchecked already. *)
Definition restore_at_startup : M RegressionGUI unit :=
  fun g =>
    if json_truth (try_to_restore_files g) then
      match iterated_names (try_to_restore_files g) with
      | Ok file_list => (restore_file_selection file_list g, Ok tt)
      | Raise e =>
          (set_idf_list_store (map (set_row_run false) (idf_list_store g)) g,
           Raise e)
      end
    else (g, Ok tt).

(** an event of the phase before the diffs: a printed line, the
    announcement of the run, the start or the completion of a case *)
Definition is_build_kind (ev : Event) : bool :=
  match ev with
  | Print _ | Starting _ _ | CaseCompleted _ | Executed _ => true
  | _ => false
  end.

Definition build_kind (te : nat * Event) : Prop := is_build_kind (snd te) = true.

(** a disk with an input that names both the window data set and the
    TDV data set, after an input that can be staged *)
Definition disk_with_two_data_sets : MemFS.fs :=
  [ ("/a", MemFS.Dir); ("/b", MemFS.Dir); ("/tests", MemFS.Dir);
    ("/datasets/Window5DataFile.dat", MemFS.File "Window5 Glazing System");
    ("/tests/SimpleTest.idf", MemFS.File "Version,9.2;");
    ("/tests/TwoSets.idf",
     MemFS.File "Window5DataFile.dat; Schedule:File, DataSets\TDV\TDV_2008_kBtu_CTZ06.csv;") ].

(* ================================================================= *)
(** ** The window: settings file *)

(** The files of the user and what the window calls on besides:
    [os.path.exists], reading the settings file and [json.loads] of its
    content ([None] for a [JSONDecodeError]), [json.dumps] and writing,
    [os.path.expanduser("~")], and [int] on a string. *)
Record Desk : Type := {
  Files : Type;
  file_exists : string -> Files -> bool;
  read_settings : string -> Files -> Result (option json);
  write_settings : string -> json -> Files -> Files * Result unit;
  home : string;
  int_of_string : string -> Result Z
}.

(** [int(j)]: a number is cut off towards zero *)
Definition python_int (X : Desk) (j : json) : Result Z :=
  match j with
  | JNumber q => Ok (Z.quot (Qnum q) (Z.pos (Qden q)))
  | JBool b => Ok (if b then 1%Z else 0%Z)
  | JString s => int_of_string X s
  | JNull | JArray _ | JObject _ =>
      Raise (OtherError "TypeError: int() argument must be a string or a number")
  end.

Definition settings_file (X : Desk) : string :=
  join (home X) ".saved-epsuite-settings".

(** [if k in j: body(j[k])] *)
Definition when_key (k : string) (j : json) (body : json -> M RegressionGUI unit)
  : M RegressionGUI unit :=
  present <- lift_result (json_contains k j) ;;
  if present then
    v <- lift_result (json_getitem j k) ;;
    body v
  else ret tt.

(** *** [load_settings], not from the menu *)

(** what [load_settings] does with the object read *)
Definition apply_settings (X : Desk) (project_tree : json) : M RegressionGUI unit :=
  when_key "idfselection" project_tree (fun idf_select_data =>
    when_key "masterfile" idf_select_data (fun v =>
      gui_update (set_master_data_file v)) ;;;
    when_key "selectedfiles" idf_select_data (fun v =>
      gui_update (set_try_to_restore_files v)) ;;;
    when_key "randomnumber" idf_select_data (fun v =>
      n <- lift_result (python_int X v) ;;
      gui_update (set_file_list_num_files (inject_Z n)))) ;;;
  when_key "suiteoptions" project_tree (fun suite_data =>
    when_key "case_a" suite_data (fun case_a =>
      v <- lift_result (json_getitem case_a "selected") ;;
      gui_update (set_case_1_run (json_truth v)) ;;;
      v <- lift_result (json_getitem case_a "build_directory") ;;
      gui_update (set_case_1_dir v) ;;;
      v <- lift_result (json_getitem case_a "build_type") ;;
      gui_update (set_case_1_type v)) ;;;
    when_key "case_b" suite_data (fun case_b =>
      v <- lift_result (json_getitem case_b "selected") ;;
      gui_update (set_case_2_run (json_truth v)) ;;;
      v <- lift_result (json_getitem case_b "build_directory") ;;
      gui_update (set_case_2_dir v) ;;;
      v <- lift_result (json_getitem case_b "build_type") ;;
      gui_update (set_case_2_type v)) ;;;
    when_key "runconfig" suite_data (fun run_config_option =>
      if json_is_string "NONE" run_config_option
      then gui_update (set_window_force_run_type NONE)
      else if json_is_string "DDONLY" run_config_option
      then gui_update (set_window_force_run_type DD)
      else if json_is_string "ANNUAL" run_config_option
      then gui_update (set_window_force_run_type ANNUAL)
      else ret tt) ;;;
    when_key "reportfreq" suite_data (fun v =>
      gui_update (set_report_frequency v)) ;;;
    when_key "numthreads" suite_data (fun v =>
      gui_update (set_num_threads_to_run v))).

Definition load_settings (X : Desk) : M (RegressionGUI * Files X) unit :=
  fun gf =>
    let (g, fs) := gf in
    if negb (file_exists X (settings_file X) fs) then
      (* abort early because there isn't an auto-saved file *)
      ((g, fs), Ok tt)
    else
      match read_settings X (settings_file X) fs with
      | Raise e => ((g, fs), Raise e)
      | Ok None => ((g, fs), Ok tt)   (* a message is printed *)
      | Ok (Some project_tree) =>
          let (g', r) := apply_settings X project_tree g in ((g', fs), r)
      end.

(** *** [save_settings], not from the menu *)

Definition output_object (g : RegressionGUI) : json :=
  JObject
    [ ("idfselection",
       JObject [ ("masterfile", master_data_file g);
                 ("selectedfiles", JArray (map JString (selectedfiles g)));
                 ("randomnumber", JNumber (file_list_num_files g)) ]);
      ("suiteoptions",
       JObject [ ("case_a",
                  JObject [ ("build_type", case_1_type g);
                            ("selected", JBool (case_1_run g));
                            ("build_directory", case_1_dir g) ]);
                 ("case_b",
                  JObject [ ("build_type", case_2_type g);
                            ("selected", JBool (case_2_run g));
                            ("build_directory", case_2_dir g) ]);
                 ("runconfig",
                  JString match window_force_run_type g with
                          | NONE => "NONE"
                          | DD => "DDONLY"
                          | ANNUAL => "ANNUAL"
                          end);
                 ("reportfreq", report_frequency g);
                 ("numthreads", num_threads_to_run g) ]) ].

(** The result is [true] for the [True] the function returns after a
    save, [false] for the [None] of a save refused. *)
Definition save_settings (X : Desk) : M (RegressionGUI * Files X) bool :=
  fun gf =>
    let (g, fs) := gf in
    if currently_saving g then
      ((status_bar_push
          "Attempted a (perhaps auto-) save while another (perhaps auto-) save was in progress; try again now"
          g, fs), Ok false)
    else
      (* now trigger the flag *)
      let g := set_currently_saving true g in
      let (fs', r) := write_settings X (settings_file X) (output_object g) fs in
      match r with
      | Ok _ =>
          (* reset the flag *)
          ((set_currently_saving false g, fs'), Ok true)
      | Raise e => ((g, fs'), Raise e)
      end.

(** the attributes a settings file holds are those of [g] *)
Definition settings_of (g g' : RegressionGUI) : Prop :=
  master_data_file g' = master_data_file g
  /\ try_to_restore_files g' = JArray (map JString (selectedfiles g))
  /\ file_list_num_files g' = file_list_num_files g
  /\ (case_1_run g', case_1_dir g', case_1_type g')
     = (case_1_run g, case_1_dir g, case_1_type g)
  /\ (case_2_run g', case_2_dir g', case_2_type g')
     = (case_2_run g, case_2_dir g, case_2_type g)
  /\ window_force_run_type g' = window_force_run_type g
  /\ report_frequency g' = report_frequency g
  /\ num_threads_to_run g' = num_threads_to_run g.

(** what a settings file does not hold is as in [g] *)
Definition rest_of (g g' : RegressionGUI) : Prop :=
  idf_list_store g' = idf_list_store g
  /\ log_store g' = log_store g
  /\ status_bar g' = status_bar g
  /\ progress g' = progress g
  /\ (current_progress_value g', progress_maximum_value g')
     = (current_progress_value g, progress_maximum_value g)
  /\ (test_suite_is_running g', btn_run_suite g')
     = (test_suite_is_running g, btn_run_suite g)
  /\ currently_saving g' = currently_saving g
  /\ idf_files_have_been_built g' = idf_files_have_been_built g.

(** *** An instance: one settings file, kept as the object written *)

Definition one_file_desk : Desk :=
  {| Files := option json;
     file_exists := fun _ fs => match fs with Some _ => true | None => false end;
     read_settings := fun p fs =>
       match fs with
       | Some j => Ok (Some j)
       | None => Raise (OtherError ("No such file: " ++ p))
       end;
     write_settings := fun _ j _ => (Some j, Ok tt);
     home := "/home/user";
     int_of_string := fun _ => Raise (ValueError "invalid literal for int()") |}.

(** the same with a home directory that cannot be written to *)
Definition read_only_desk : Desk :=
  {| Files := option json;
     file_exists := fun _ fs => match fs with Some _ => true | None => false end;
     read_settings := fun p fs =>
       match fs with
       | Some j => Ok (Some j)
       | None => Raise (OtherError ("No such file: " ++ p))
       end;
     write_settings := fun p _ fs => (fs, Raise (OtherError ("Permission denied: " ++ p)));
     home := "/home/user";
     int_of_string := fun _ => Raise (ValueError "invalid literal for int()") |}.

(* ================================================================= *)
(** ** The window: selecting all files, or some at random *)

Section SelectionButtons.

Variable datetime_now : nat -> string.

(** [warning_dialog(message, do_log_entry)]: the dialog is shown and
    closed, the log entry stays. *)
Definition warning_dialog (message : string) (do_log_entry : bool)
    (g : RegressionGUI) : RegressionGUI :=
  if do_log_entry then add_log_entry datetime_now ("Warning: " ++ message) g
  else g.

Definition warning_not_yet_built (g : RegressionGUI) : RegressionGUI :=
  warning_dialog
    "File selection and/or test suite operations can't be performed until master list is built"
    true g.

(** *** [idf_selection_all] *)

Definition idf_selection_all (selection : bool) (g : RegressionGUI)
  : RegressionGUI :=
  if negb (idf_files_have_been_built g) then warning_not_yet_built g
  else
    fst (update_status_with_num_selected
           (set_idf_list_store
              (map (set_row_run selection) (idf_list_store g)) g)).

(** [store[i][0] = True], for an index within the list *)
Fixpoint check_at (i : nat) (store : list IdfRow) : list IdfRow :=
  match store, i with
  | [], _ => []
  | r :: rest, O => set_row_run true r :: rest
  | r :: rest, S i' => r :: check_at i' rest
  end.

(** [self.idf_list_store[i][0] = True] *)
Definition check_row (i : nat) : M RegressionGUI unit :=
  fun g =>
    if i <? List.length (idf_list_store g)
    then (set_idf_list_store (check_at i (idf_list_store g)) g, Ok tt)
    else (g, Raise (IndexError "list index out of range")).

(** *** [idf_selection_random]

    [random_sample n k] is [random.sample(range(n), k)], with the
    exception it raises when [k] is negative or larger than [n]. *)
Definition idf_selection_random (random_sample : nat -> Z -> Result (list nat))
  : M RegressionGUI unit :=
  fun g =>
    if negb (idf_files_have_been_built g) then (warning_not_yet_built g, Ok tt)
    else
      (* clear them all first *)
      let g := set_idf_list_store
                 (map (set_row_run false) (idf_list_store g)) g in
      let number_to_select :=
        Z.quot (Qnum (file_list_num_files g)) (Z.pos (Qden (file_list_num_files g))) in
      let number_of_idf_files := List.length (idf_list_store g) in
      ((if (Z.of_nat (List.length (idf_list_store g)) <=? number_to_select)%Z
        then (* just take all of them *)
          gui_update (idf_selection_all true)
        else (* down select randomly *)
          indices_to_take <-
            lift_result (random_sample number_of_idf_files number_to_select) ;;
          for_each indices_to_take check_row) ;;;
       gui_update (fun g => fst (update_status_with_num_selected g))) g.

End SelectionButtons.

(** the number of rows checked *)
Definition num_checked (g : RegressionGUI) : nat :=
  List.length (filter row_run (idf_list_store g)).

Definition no_row : IdfRow := {| row_run := false; row_idf := ""; row_epw := "" |}.

(** a window whose list of files has been built, with four rows *)
Definition window_with_four_rows : RegressionGUI :=
  {| idf_list_store :=
       [ {| row_run := true; row_idf := "1ZoneUncontrolled"; row_epw := "Denver" |};
         {| row_run := true; row_idf := "5ZoneAirCooled"; row_epw := "Chicago" |};
         {| row_run := false; row_idf := "RefBldgLargeOffice"; row_epw := "Chicago" |};
         {| row_run := true; row_idf := "WindowTests"; row_epw := "Denver" |} ];
     log_store := []; progress := 0%Q; status_bar := [];
     current_progress_value := None; progress_maximum_value := None;
     case_1_run := true; case_2_run := true;
     btn_run_suite := "Run Suite"; test_suite_is_running := false;
     clock_reads := 0;
     idf_files_have_been_built := true; currently_saving := false;
     file_list_num_files := 2%Q;
     master_data_file := JString "full_file_set_details.csv";
     try_to_restore_files := JNull;
     case_1_type := JString "makefile";
     case_1_dir := JString "/home/user/EnergyPlus/repo1/build/";
     case_2_type := JString "makefile";
     case_2_dir := JString "/home/user/EnergyPlus/repo2/build/";
     window_force_run_type := NONE;
     report_frequency := JString "Hourly";
     num_threads_to_run := JNumber 1%Q |}.

(* ================================================================= *)
(** * Properties *)

(* ================================================================= *)
(** ** Properties of the end-status classifier *)

(** C2.  On the success marker with the duration [00hr 02min  3.45sec]
    the classifier returns SUCCESS with 123.4 seconds, not 123.45: the slice
    [seconds_term[0:(seconds_index - 1)]] stops one character before the
    last digit of the seconds. *)
Theorem process_end_file_drops_last_digit :
  exists t : Q,
    process_end_contents elapsed_two_minutes = Ok (STATUS_SUCCESS, t)
    /\ (t == 1234 # 10)%Q
    /\ ~ (t == 12345 # 100)%Q.
Proof.
  eexists. split; [vm_compute; reflexivity|].
  split; [reflexivity|].
  intro H. vm_compute in H. discriminate H.
Qed.




(* ================================================================= *)
(** ** Properties of the outcome decision *)

Lemma end_status_decision_by_counts (a b : Status) :
  end_status_decision a b = Some (decision_by_counts a b).
Proof. destruct a, b; reflexivity. Qed.

(** C1, as stated, fails: two UNKNOWN statuses are reported as a fatal
    error in both cases, where the table of section 4.2 has the unknown
    combination. *)
Lemma unknown_statuses_reported_as_both_fatal :
  end_status_decision STATUS_UNKNOWN STATUS_UNKNOWN = Some SKIP_BOTH_FATAL
  /\ section_4_2_table STATUS_UNKNOWN STATUS_UNKNOWN = SKIP_UNKNOWN
  /\ end_status_decision STATUS_UNKNOWN STATUS_UNKNOWN
     <> Some (section_4_2_table STATUS_UNKNOWN STATUS_UNKNOWN)
  /\ trace (snd (fst (process_diffs_with_statuses (E := MemFS.ext) MemFS.runner
                        "/a/Tests/Case" "/b/Tests/Case"
                        STATUS_UNKNOWN 0%Q STATUS_UNKNOWN 0%Q
                        (new_TestEntry "Case" None,
                         initial_state (E := MemFS.ext) MemFS.disk))))
     = [Print "Skipping entry because it has a fatal error in both base and mod cases: Case"].
Proof.
  repeat split; try reflexivity. discriminate.
Qed.

(** C1, amended.  The decision follows the number of successes once
    neither end file is missing: two successes go on to the diffs, none is
    reported as a fatal error in both cases and one as a fatal error in one
    case, UNKNOWN counting as a failure; two missing end files are a crash in
    both cases, one a crash in one case; the unknown branch is never taken.
    Every decision but the first returns with the end summary as the only
    change to the entry.  For the case [EMSTestMathAndKill] two FATAL statuses
    are looked at first and recorded as two successes, with no diff. *)
Theorem decision_follows_success_count
    (E : Ext) (self : SuiteRunner) (dir1 dir2 : string)
    (a : Status) (ra : Q) (b : Status) (rb : Q)
    (e : TestEntry) (s : St E) :
  end_status_decision a b = Some (decision_by_counts a b)
  /\ decision_by_counts a b <> SKIP_UNKNOWN
  /\ (decision_by_counts a b = PROCEED <-> a = STATUS_SUCCESS /\ b = STATUS_SUCCESS)
  /\ (basename e = "EMSTestMathAndKill" -> a = STATUS_FATAL -> b = STATUS_FATAL ->
      process_diffs_with_statuses self dir1 dir2 a ra b rb (e, s)
      = ((add_summary_result (summary_of STATUS_SUCCESS ra STATUS_SUCCESS rb) e,
          after_emit (Print "EMSTestMathAndKill Fatal-ed as expected, continuing with no diff checking on it") s),
         Ok tt))
  /\ (basename e <> "EMSTestMathAndKill" \/ a <> STATUS_FATAL \/ b <> STATUS_FATAL ->
      decision_by_counts a b <> PROCEED ->
      process_diffs_with_statuses self dir1 dir2 a ra b rb (e, s)
      = ((add_summary_result (summary_of a ra b rb) e,
          after_emit (Print (decision_message (decision_by_counts a b) (basename e))) s),
         Ok tt))
  /\ (a = STATUS_SUCCESS -> b = STATUS_SUCCESS ->
      process_diffs_with_statuses self dir1 dir2 a ra b rb (e, s)
      = (thresh_dict <- on_st (ask_result (load_ThreshDict E (thresh_dict_file self))) ;;
         dispatch_diffs thresh_dict dir1 dir2 dir1)
          (add_summary_result (summary_of a ra b rb) e,
           after_emit (Print (decision_message PROCEED (basename e))) s)).
Proof.
  split; [apply end_status_decision_by_counts|].
  split; [destruct a, b; discriminate|].
  split; [destruct a, b; simpl; split; try discriminate; try tauto;
          intros [? ?]; discriminate|].
  split; [|split].
  - intros Hn -> ->.
    cbv beta iota zeta delta [process_diffs_with_statuses bind get_entry fst].
    rewrite Hn. reflexivity.
  - intros Hne Hd.
    cbv beta iota zeta delta [process_diffs_with_statuses bind get_entry fst].
    assert (Hg : (String.eqb (basename e) "EMSTestMathAndKill"
                  && (Status_eqb a STATUS_FATAL && Status_eqb b STATUS_FATAL))
                 = false).
    { destruct (String.eqb_spec (basename e) "EMSTestMathAndKill") as [Hn|Hn];
        [|reflexivity].
      destruct a, b; try reflexivity.
      destruct Hne as [H|[H|H]]; congruence. }
    rewrite Hg. rewrite end_status_decision_by_counts.
    destruct a, b; try reflexivity; exfalso; apply Hd; reflexivity.
  - intros -> ->.
    cbv beta iota zeta delta [process_diffs_with_statuses bind get_entry fst].
    rewrite andb_false_r. reflexivity.
Qed.

Lemma decision_follows_success_count_witness :
  process_diffs_with_statuses (E := MemFS.ext) MemFS.runner "/a/Tests/Case"
    "/b/Tests/Case" STATUS_SUCCESS 0%Q STATUS_UNKNOWN 0%Q
    (new_TestEntry "Case" None, initial_state (E := MemFS.ext) MemFS.disk)
  = ((add_summary_result (summary_of STATUS_SUCCESS 0%Q STATUS_UNKNOWN 0%Q)
        (new_TestEntry "Case" None),
      after_emit (Print (decision_message SKIP_ONE_FATAL "Case"))
        (initial_state (E := MemFS.ext) MemFS.disk)),
     Ok tt).
Proof.
  apply (decision_follows_success_count MemFS.ext MemFS.runner "/a/Tests/Case"
           "/b/Tests/Case" STATUS_SUCCESS 0%Q STATUS_UNKNOWN 0%Q
           (new_TestEntry "Case" None) (initial_state (E := MemFS.ext) MemFS.disk)).
  - left. simpl. discriminate.
  - simpl. discriminate.
Defined.

(* ================================================================= *)
(** ** Properties of the text diff *)

Lemma lines_eqb_eq (a b : list string) : lines_eqb a b = true <-> a = b.
Proof.
  revert b. induction a as [|x a IH]; intros [|y b]; simpl; split;
    try discriminate; try reflexivity.
  - intros H. apply andb_true_iff in H. destruct H as [Hx Hr].
    apply String.eqb_eq in Hx. apply IH in Hr. congruence.
  - intros H. injection H as -> ->. apply andb_true_iff. split.
    + apply String.eqb_refl.
    + apply IH. reflexivity.
Qed.

(** A line is kept exactly when none of the listed strings is in it. *)
Lemma cleaned_keeps (txt : list string) (line : string) :
  In line (cleaned txt)
  <-> In line txt /\ forall x, In x skip_strings -> PyStr.contains x line = false.
Proof.
  unfold cleaned. rewrite filter_In. split; intros [Hin H]; split; auto.
  - intros x Hx. destruct (PyStr.contains x line) eqn:Hc; [|reflexivity].
    apply negb_true_iff in H.
    assert (existsb (fun x => PyStr.contains x line) skip_strings = true)
      by (apply existsb_exists; exists x; auto).
    congruence.
  - apply negb_true_iff. destruct (existsb _ skip_strings) eqn:He; [|reflexivity].
    apply existsb_exists in He. destruct He as [x [Hx Hc]].
    rewrite (H x Hx) in Hc. discriminate.
Qed.



(* ================================================================= *)
(** ** Laws of the monad *)

Lemma bind_ret_r {S A} (m : M S A) (s : S) : bind m ret s = m s.
Proof. unfold bind, ret. destruct (m s) as [s' [a|e]]; reflexivity. Qed.

Lemma bind_assoc {S A B C} (m : M S A) (f : A -> M S B) (g : B -> M S C) (s : S) :
  bind (bind m f) g s = bind m (fun a => bind (f a) g) s.
Proof. unfold bind. destruct (m s) as [s' [a|e]]; reflexivity. Qed.

Lemma bind_ext {S A B} (m : M S A) (f g : A -> M S B) (s : S) :
  (forall a s', f a s' = g a s') -> bind m f s = bind m g s.
Proof.
  intros H. unfold bind. destruct (m s) as [s' [a|e]]; [apply H|reflexivity].
Qed.

Lemma bind_ok {S A B} (m : M S A) (k : A -> M S B) (s s' : S) (a : A) :
  m s = (s', Ok a) -> bind m k s = k a s'.
Proof. intros H. unfold bind. rewrite H. reflexivity. Qed.

Lemma bind_raise {S A B} (m : M S A) (k : A -> M S B) (s s' : S) (e : exn) :
  m s = (s', Raise e) -> bind m k s = (s', Raise e).
Proof. intros H. unfold bind. rewrite H. reflexivity. Qed.

(* ================================================================= *)
(** ** Properties of the staging loop of [run_build] *)

(** Making the run directory notifies nobody. *)
Lemma fresh_run_directory_silent (E : Ext) (dir : string) (s s' : St E) r :
  fresh_run_directory dir s = (s', r) -> events s' = events s.
Proof.
  unfold fresh_run_directory, bind, ask, call, ret. simpl.
  destruct (os_path_exists E dir (world s)); simpl.
  - destruct (shutil_rmtree E dir (world s)) as [w [u|e]]; simpl.
    + destruct (os_mkdir E dir w) as [w' r']. intros H. injection H as <- _.
      reflexivity.
    + intros H. injection H as <- _. reflexivity.
  - destruct (os_mkdir E dir (world s)) as [w' r']. intros H.
    injection H as <- _. reflexivity.
Qed.

(** An entry that yields no job leaves the job list to the others. *)
Lemma stage_entries_skip (E : Ext) self build_tree this_entry rest (s s' : St E) :
  stage_entry self build_tree this_entry s = (s', Ok None) ->
  stage_entries self build_tree (this_entry :: rest) s
  = stage_entries self build_tree rest s'.
Proof.
  intros H. simpl. rewrite (bind_ok _ _ _ _ _ H). apply bind_ret_r.
Qed.

Lemma run_build_skip (E : Ext) interrupt_at self build_tree this_entry rest
    (s s' : St E) :
  stage_entry self build_tree this_entry s = (s', Ok None) ->
  run_build interrupt_at self (this_entry :: rest) build_tree s
  = run_build interrupt_at self rest build_tree s'.
Proof.
  intros H. unfold run_build. unfold bind at 1.
  rewrite (stage_entries_skip _ _ _ _ _ _ _ H). reflexivity.
Qed.

(** C9.  Once its run directory is made, an entry whose input exists
    neither as [.idf] nor as [.imf] is notified as a failed case, after three
    printed lines, and yields no job: nothing is raised, the file system is
    not touched again, and [run_build] goes on with the other entries, so the
    simulation is never run for it. *)
Theorem missing_input_is_failed_case
    (E : Ext) (self : SuiteRunner) (build_tree : BuildTree)
    (this_entry : TestEntry) (rest : list TestEntry) (s s1 : St E)
    (Hdir : fresh_run_directory (test_run_directory_of self build_tree this_entry) s
            = (s1, Ok tt))
    (Hidf : os_path_exists E (idf_base_of build_tree this_entry ++ ".idf") (world s1)
            = false)
    (Himf : os_path_exists E (idf_base_of build_tree this_entry ++ ".imf") (world s1)
            = false) :
  let failed := {| run_directory := test_output_dir self;
                   case_name := basename this_entry;
                   run_success := false;
                   muffle_err_msg := false;
                   name_of_thread := "" |} in
  let notified :=
    [ Print "Input file doesn't exist in either idf or imf form:";
      Print ("   IDF: " ++ idf_base_of build_tree this_entry ++ ".idf");
      Print ("   IMF: " ++ idf_base_of build_tree this_entry ++ ".imf");
      CaseCompleted failed ] in
  exists s' : St E,
    stage_entry self build_tree this_entry s = (s', Ok None)
    /\ trace s' = trace s ++ notified
    /\ world s' = world s1
    /\ stage_entries self build_tree (this_entry :: rest) s
       = stage_entries self build_tree rest s'
    /\ forall interrupt_at,
         run_build interrupt_at self (this_entry :: rest) build_tree s
         = run_build interrupt_at self rest build_tree s'.
Proof.
  intros failed notified.
  pose proof (fresh_run_directory_silent _ _ _ _ _ Hdir) as Hev.
  eexists.
  assert (Hstage : stage_entry self build_tree this_entry s
    = (after_emit (CaseCompleted failed)
         (after_emit (Print ("   IMF: " ++ idf_base_of build_tree this_entry ++ ".imf"))
            (after_emit (Print ("   IDF: " ++ idf_base_of build_tree this_entry ++ ".idf"))
               (after_emit (Print "Input file doesn't exist in either idf or imf form:")
                  (after_asks 2 s1)))), Ok None)).
  { unfold stage_entry. rewrite (bind_ok _ _ _ _ _ Hdir).
    unfold bind, ask, stage_missing, my_print, my_casecompleted, emit, ret,
      after_emit, after_asks. simpl.
    rewrite Hidf. simpl. rewrite Himf. simpl. reflexivity. }
  split; [exact Hstage|].
  split.
  { unfold trace, after_emit, after_asks. simpl. rewrite Hev.
    rewrite !map_app. simpl. rewrite <- !app_assoc. reflexivity. }
  split; [reflexivity|].
  split.
  - apply stage_entries_skip. exact Hstage.
  - intros interrupt_at. apply run_build_skip. exact Hstage.
Qed.

Lemma missing_input_is_failed_case_witness :
  exists s' : St MemFS.ext,
    stage_entry MemFS.runner (MemFS.tree "/a") (new_TestEntry "Nope" None)
      (initial_state (E := MemFS.ext) MemFS.disk) = (s', Ok None)
    /\ trace s'
       = [ Print "Input file doesn't exist in either idf or imf form:";
           Print "   IDF: /tests/Nope.idf";
           Print "   IMF: /tests/Nope.imf";
           CaseCompleted {| run_directory := "Tests"; case_name := "Nope";
                            run_success := false; muffle_err_msg := false;
                            name_of_thread := "" |} ].
Proof.
  destruct (missing_input_is_failed_case MemFS.ext MemFS.runner (MemFS.tree "/a")
              (new_TestEntry "Nope" None) []
              (initial_state (E := MemFS.ext) MemFS.disk)
              (fst (fresh_run_directory (E := MemFS.ext) "/a/Tests/Nope"
                      (initial_state (E := MemFS.ext) MemFS.disk)))
              eq_refl eq_refl eq_refl) as [s' [H1 [H2 _]]].
  exists s'. split; [exact H1 | exact H2].
Defined.

(* ================================================================= *)
(** ** Facts about the string operations *)

Section StringFacts.

Local Open Scope string_scope.

Lemma prefix_split (p s : string) :
  String.prefix p s = true -> exists t, s = p ++ t.
Proof.
  revert s. induction p as [|c p IH]; intros s H.
  - exists s. reflexivity.
  - destruct s as [|d s]; simpl in H; [discriminate|].
    destruct (ascii_dec c d) as [->|]; [|discriminate].
    destruct (IH s H) as [t ->]. exists t. reflexivity.
Qed.

Lemma prefix_append (p t : string) : String.prefix p (p ++ t) = true.
Proof.
  induction p as [|c p IH]; simpl; [destruct t; reflexivity|].
  destruct (ascii_dec c c); [exact IH|contradiction].
Qed.

Lemma append_assoc (a b c : string) : (a ++ b) ++ c = a ++ (b ++ c).
Proof. induction a; simpl; congruence. Qed.

Lemma prefix_app_l (p u w : string) :
  String.prefix p u = true -> String.prefix p (u ++ w) = true.
Proof.
  intros H. destruct (prefix_split _ _ H) as [t ->].
  rewrite append_assoc. apply prefix_append.
Qed.

Lemma contains_nil (needle : string) :
  PyStr.contains needle "" = if String.prefix needle "" then true else false.
Proof. reflexivity. Qed.

Lemma contains_cons (needle : string) (c : ascii) (s : string) :
  PyStr.contains needle (String c s)
  = if String.prefix needle (String c s) then true else PyStr.contains needle s.
Proof. reflexivity. Qed.

Lemma contains_split (needle s : string) :
  PyStr.contains needle s = true -> exists a b, s = a ++ needle ++ b.
Proof.
  induction s as [|c s IH].
  - rewrite contains_nil.
    destruct (String.prefix needle "") eqn:Hp; [|intros; discriminate].
    intros _. destruct (prefix_split _ _ Hp) as [t Ht]. exists "", t. exact Ht.
  - rewrite contains_cons.
    destruct (String.prefix needle (String c s)) eqn:Hp.
    + intros _. destruct (prefix_split _ _ Hp) as [t Ht]. exists "", t. exact Ht.
    + intros H. destruct (IH H) as [a [b ->]]. exists (String c a), b. reflexivity.
Qed.

Lemma contains_app (needle a b : string) :
  PyStr.contains needle (a ++ needle ++ b) = true.
Proof.
  induction a as [|c a IH].
  - change ("" ++ needle ++ b) with (needle ++ b).
    assert (H := prefix_append needle b).
    destruct (needle ++ b).
    + rewrite contains_nil, H. reflexivity.
    + rewrite contains_cons, H. reflexivity.
  - change (String c a ++ needle ++ b) with (String c (a ++ needle ++ b)).
    rewrite contains_cons.
    destruct (String.prefix needle (String c (a ++ needle ++ b))); [reflexivity|].
    exact IH.
Qed.

Lemma length_append (a b : string) :
  String.length (a ++ b) = String.length a + String.length b.
Proof. induction a; simpl; congruence. Qed.

Lemma length_drop (n : nat) (s : string) :
  String.length (PyStr.drop n s) = String.length s - n.
Proof.
  revert s. induction n as [|n IH]; intros [|c s]; simpl; auto.
Qed.

Lemma drop_append (n : nat) (u w : string) :
  n <= String.length u -> PyStr.drop n (u ++ w) = PyStr.drop n u ++ w.
Proof.
  revert u. induction n as [|n IH]; intros u H.
  - reflexivity.
  - destruct u as [|x u]; simpl in H; [lia|].
    simpl. apply IH. lia.
Qed.

Variables (old new : string).
Hypothesis old_nonempty : PyStr.nonempty old = true.

Lemma replace_from_cons (k : nat) (c : ascii) (s : string) :
  PyStr.replace_from (S k) old new (String c s)
  = if String.prefix old (String c s)
    then new ++ PyStr.replace_from k old new (PyStr.drop (String.length old) (String c s))
    else String c (PyStr.replace_from k old new s).
Proof. reflexivity. Qed.

Lemma replace_from_fuel (f1 f2 : nat) (s : string) :
  String.length s <= f1 -> String.length s <= f2 ->
  PyStr.replace_from f1 old new s = PyStr.replace_from f2 old new s.
Proof.
  revert f2 s. induction f1 as [|f1 IH]; intros f2 s H1 H2.
  - destruct s; simpl in H1; [|lia]. destruct f2; reflexivity.
  - destruct f2 as [|f2].
    + destruct s; simpl in H2; [|lia]. reflexivity.
    + destruct s as [|c s]; [reflexivity|]. rewrite !replace_from_cons.
      destruct (String.prefix old (String c s)).
      * f_equal. apply IH; rewrite length_drop; simpl in *;
          destruct old; simpl in *; try discriminate; lia.
      * f_equal. apply IH; simpl in *; lia.
Qed.

Lemma replace_cons (c : ascii) (s : string) :
  PyStr.replace old new (String c s)
  = if String.prefix old (String c s)
    then new ++ PyStr.replace old new (PyStr.drop (String.length old) (String c s))
    else String c (PyStr.replace old new s).
Proof.
  unfold PyStr.replace. simpl String.length. rewrite replace_from_cons.
  destruct (String.prefix old (String c s)).
  - f_equal. apply replace_from_fuel.
    + rewrite length_drop. simpl. destruct old; simpl in *; try discriminate; lia.
    + lia.
  - reflexivity.
Qed.

(** A character that is not in [old] is never part of a replaced piece:
    the replacement works on both sides of it separately. *)
Variable c : ascii.
Hypothesis c_not_in_old : PyStr.index_of c old = None.

Lemma prefix_before_char (p u v : string) :
  PyStr.index_of c p = None ->
  String.prefix p (u ++ String c v) = true ->
  String.prefix p u = true /\ String.length p <= String.length u.
Proof.
  revert u. induction p as [|d p IH]; intros u Hc H.
  - split; [destruct u; reflexivity | simpl; lia].
  - simpl in Hc. destruct (Ascii.eqb d c) eqn:Hdc; [discriminate|].
    destruct (PyStr.index_of c p) eqn:Hp; [discriminate|].
    destruct u as [|x u]; simpl in H.
    + destruct (ascii_dec d c) as [->|]; [|discriminate].
      rewrite Ascii.eqb_refl in Hdc. discriminate.
    + destruct (ascii_dec d x) as [->|]; [|discriminate].
      destruct (IH u eq_refl H) as [H1 H2]. split.
      * simpl. destruct (ascii_dec x x); [exact H1|contradiction].
      * simpl. lia.
Qed.

Lemma prefix_at_char (v : string) : String.prefix old (String c v) = false.
Proof.
  destruct (String.prefix old (String c v)) eqn:H; [|reflexivity].
  destruct (prefix_before_char old "" v c_not_in_old H) as [_ Hl].
  destruct old; simpl in *; try discriminate; lia.
Qed.

Lemma replace_around_char (a b : string) :
  PyStr.replace old new (a ++ String c b)
  = PyStr.replace old new a ++ String c (PyStr.replace old new b).
Proof.
  remember (String.length a) as n eqn:Hn. revert a Hn.
  induction n as [n IH] using lt_wf_ind. intros a Hn.
  destruct a as [|x a].
  - simpl. rewrite replace_cons, prefix_at_char. reflexivity.
  - change (String x a ++ String c b) with (String x (a ++ String c b)).
    rewrite !replace_cons.
    destruct (String.prefix old (String x (a ++ String c b))) eqn:Hp.
    + destruct (prefix_before_char old (String x a) b c_not_in_old Hp) as [Hp' Hl].
      rewrite Hp'.
      change (String x (a ++ String c b)) with (String x a ++ String c b).
      rewrite drop_append by exact Hl.
      rewrite (IH (String.length (PyStr.drop (String.length old) (String x a)))).
      * rewrite append_assoc. reflexivity.
      * rewrite length_drop. subst n. destruct old; simpl in *; try discriminate; lia.
      * reflexivity.
    + assert (Hp' : String.prefix old (String x a) = false).
      { destruct (String.prefix old (String x a)) eqn:Hq; [|reflexivity].
        pose proof (prefix_app_l old (String x a) (String c b) Hq) as Hq'.
        simpl in Hq'. simpl in Hp. congruence. }
      rewrite Hp'. simpl. f_equal. apply (IH (String.length a)).
      * subst n. simpl. lia.
      * reflexivity.
Qed.

End StringFacts.

(** A replacement whose [old] has neither of the two outer characters of
    the marker and does not occur inside it keeps every occurrence of the
    marker. *)
Lemma replace_keeps_fmu_marker (old new s : string) :
  PyStr.nonempty old = true ->
  PyStr.index_of "E" old = None ->
  PyStr.index_of ":" old = None ->
  PyStr.replace old new fmu_marker_inside = fmu_marker_inside ->
  PyStr.contains fmu_marker s = true ->
  PyStr.contains fmu_marker (PyStr.replace old new s) = true.
Proof.
  intros Hne HE Hc Hin H.
  destruct (contains_split _ _ H) as [a [b ->]].
  change (fmu_marker ++ b)%string
    with (String "E" (fmu_marker_inside ++ String ":" b))%string.
  rewrite (replace_around_char old new Hne "E" HE).
  rewrite (replace_around_char old new Hne ":" Hc).
  rewrite Hin.
  change (String "E" (fmu_marker_inside ++ String ":" (PyStr.replace old new b)))%string
    with (fmu_marker ++ PyStr.replace old new b)%string.
  apply contains_app.
Qed.

(* ================================================================= *)
(** ** Silent computations *)

Section Silent.

Context {E : Ext}.

Lemma silent_ret {A} (a : A) : silent (E := E) (ret a).
Proof. intros s s' r H. injection H as <- _. reflexivity. Qed.

Lemma silent_bind {A B} (m : M (St E) A) (k : A -> M (St E) B) :
  silent m -> (forall a, silent (k a)) -> silent (bind m k).
Proof.
  intros Hm Hk s s' r. unfold bind.
  destruct (m s) as [s1 [a|e]] eqn:H1.
  - intros H2. rewrite (Hk a _ _ _ H2). exact (Hm _ _ _ H1).
  - intros H2. injection H2 as <- _. exact (Hm _ _ _ H1).
Qed.

Lemma silent_ask {A} (f : World E -> A) : silent (ask f).
Proof. intros s s' r H. injection H as <- _. reflexivity. Qed.

Lemma silent_ask_result {A} (f : World E -> Result A) : silent (ask_result f).
Proof. intros s s' r H. injection H as <- _. reflexivity. Qed.

Lemma silent_call {A} (f : World E -> World E * Result A) : silent (call f).
Proof.
  intros s s' r. unfold call. destruct (f (world s)) as [w r'].
  intros H. injection H as <- _. reflexivity.
Qed.

Lemma silent_for_each {A} (l : list A) (body : A -> M (St E) unit) :
  (forall a, silent (body a)) -> silent (for_each l body).
Proof.
  intros Hb. induction l as [|x l IH]; simpl.
  - apply silent_ret.
  - apply silent_bind; [apply Hb | intros _; exact IH].
Qed.

Lemma silent_if {A} (b : bool) (m1 m2 : M (St E) A) :
  silent m1 -> silent m2 -> silent (if b then m1 else m2).
Proof. destruct b; auto. Qed.

End Silent.

Create HintDb silent_db.
#[export] Hint Resolve silent_ret silent_ask silent_ask_result silent_call
  silent_if : silent_db.

Ltac silent_step :=
  first [ apply silent_bind; [|intro]
        | apply silent_for_each; intro
        | apply silent_if
        | apply silent_ret | apply silent_ask | apply silent_ask_result
        | apply silent_call ].

(** Bringing the data sets of an input notifies nobody, and the text
    comes back with its paths rewritten. *)
Lemma stage_datasets_silent (E : Ext) build_tree dir text :
  silent (E := E) (stage_datasets build_tree dir text).
Proof. unfold stage_datasets. repeat silent_step. Qed.

Lemma stage_datasets_text (E : Ext) build_tree dir text (s s' : St E) text' :
  stage_datasets build_tree dir text s = (s', Ok text') ->
  text' = text_for_datasets text.
Proof.
  unfold stage_datasets, text_for_datasets.
  set (w5 := PyStr.contains "Window5DataFile.dat" text).
  set (t1 := PyStr.replace "..\datasets\Window5DataFile.dat"
                           "datasets/Window5DataFile.dat" text).
  intros H.
  unfold bind at 1 in H.
  destruct ((if w5 then _ else ret text) s) as [s1 [x1|e1]] eqn:H1;
    [|discriminate].
  assert (Hx1 : x1 = if w5 then t1 else text).
  { destruct w5.
    - unfold bind in H1.
      destruct (call _ s) as [sa [?|?]]; [|discriminate].
      destruct (call _ sa) as [sb [?|?]]; [|discriminate].
      unfold ret in H1. congruence.
    - unfold ret in H1. congruence. }
  subst x1.
  set (t2 := if w5 then t1 else text) in *.
  unfold bind at 1 in H.
  destruct ((if PyStr.contains "DataSets\TDV" t2 || PyStr.contains "DataSets\\TDV" t2
             then _ else ret t2) s1) as [s2 [x2|e2]] eqn:H2; [|discriminate].
  assert (Hx2 : x2 = if PyStr.contains "DataSets\TDV" t2
                        || PyStr.contains "DataSets\\TDV" t2
                     then PyStr.replace "..\datasets\TDV\TDV_2008_kBtu_CTZ06.csv"
                            (join3 "datasets" "TDV" "TDV_2008_kBtu_CTZ06.csv") t2
                     else t2).
  { destruct (PyStr.contains "DataSets\TDV" t2 || PyStr.contains "DataSets\\TDV" t2).
    - unfold bind in H2.
      destruct (call _ s1) as [sa [?|?]]; [|discriminate].
      destruct (call _ sa) as [sb [?|?]]; [|discriminate].
      destruct (ask_result _ sb) as [sc [?|?]]; [|discriminate].
      destruct (for_each _ _ sc) as [sd [?|?]]; [|discriminate].
      unfold ret in H2. congruence.
    - unfold ret in H2. congruence. }
  subst x2.
  unfold bind in H.
  match type of H with
  | (let (_, _) := ?m ?s in _) = _ => destruct (m s) as [s3 [?|?]]
  end; [|discriminate].
  unfold ret in H. congruence.
Qed.

(** None of the rewritings of the input text removes the FMU marker. *)
Lemma text_for_datasets_keeps_fmu_marker (text : string) :
  PyStr.contains fmu_marker text = true ->
  PyStr.contains fmu_marker (text_for_datasets text) = true.
Proof.
  intros H. unfold text_for_datasets.
  set (t1 := if PyStr.contains "Window5DataFile.dat" text then _ else text).
  assert (H1 : PyStr.contains fmu_marker t1 = true).
  { subst t1. destruct (PyStr.contains "Window5DataFile.dat" text); [|exact H].
    apply replace_keeps_fmu_marker; auto. }
  destruct (PyStr.contains "DataSets\TDV" t1 || PyStr.contains "DataSets\\TDV" t1);
    [|exact H1].
  apply replace_keeps_fmu_marker; auto.
Qed.



(* ================================================================= *)
(** ** Bounds on what the dispatcher attaches and calls *)

Section DispatchBound.

Context {E : Ext}.
Variable k : FileKind.

Lemma silent_trace {A} (m : M (St E) A) s s' r :
  silent m -> m s = (s', r) -> trace s' = trace s.
Proof. intros Hm H. unfold trace. rewrite (Hm _ _ _ H). reflexivity. Qed.

Lemma trace_of_events (s s' : St E) evs :
  events s' = events s ++ evs -> trace s' = trace s ++ map snd evs.
Proof. intros H. unfold trace. rewrite H, map_app. reflexivity. Qed.

Lemma dispatch_bound_weaken {A} nc nr nc' nr' (m : M (DSt E) A) :
  nc <= nc' -> nr <= nr' -> dispatch_bound (E := E) k nc nr m -> dispatch_bound (E := E) k nc' nr' m.
Proof.
  intros Hc Hr Hm e s e' s' r H.
  destruct (Hm _ _ _ _ _ H) as [Hb [Hrec [evs [Ht [Hp Hcalls]]]]].
  split; [exact Hb|]. split; [lia|]. exists evs. repeat split; auto. lia.
Qed.

Lemma dispatch_bound_ret {A} (a : A) :
  dispatch_bound (E := E) k 0 0 (ret a).
Proof.
  intros e s e' s' r H. injection H as <- <- _.
  split; [reflexivity|]. split; [lia|]. exists []. rewrite app_nil_r. auto.
Qed.

Lemma dispatch_bound_bind {A B} nc1 nr1 nc2 nr2
    (m : M (DSt E) A) (f : A -> M (DSt E) B) :
  dispatch_bound (E := E) k nc1 nr1 m -> (forall a, dispatch_bound (E := E) k nc2 nr2 (f a)) ->
  dispatch_bound (E := E) k (nc1 + nc2) (nr1 + nr2) (bind m f).
Proof.
  intros Hm Hf e s e' s' r. unfold bind.
  destruct (m (e, s)) as [[e1 s1] [a|x]] eqn:H1.
  - intros H2.
    destruct (Hm _ _ _ _ _ H1) as [Hb1 [Hr1 [evs1 [Ht1 [Hp1 Hc1]]]]].
    destruct (Hf a _ _ _ _ _ H2) as [Hb2 [Hr2 [evs2 [Ht2 [Hp2 Hc2]]]]].
    split; [congruence|]. split; [lia|].
    exists (evs1 ++ evs2). split; [rewrite Ht2, Ht1, app_assoc; reflexivity|].
    rewrite map_app.
    split; [rewrite forallb_app, Hp1, Hp2; reflexivity|].
    unfold calls_of in *. rewrite filter_app, length_app. lia.
  - intros H2. injection H2 as <- <- _.
    destruct (Hm _ _ _ _ _ H1) as [Hb1 [Hr1 [evs1 [Ht1 [Hp1 Hc1]]]]].
    split; [exact Hb1|]. split; [lia|].
    exists evs1. repeat split; auto. lia.
Qed.

Lemma dispatch_bound_silent {A} (m : M (St E) A) :
  silent m -> dispatch_bound (E := E) k 0 0 (on_st m).
Proof.
  intros Hm e s e' s' r. unfold on_st. simpl.
  destruct (m s) as [s1 r1] eqn:H1. intros H. injection H as <- <- _.
  split; [reflexivity|]. split; [lia|].
  exists []. rewrite app_nil_r. rewrite (Hm _ _ _ H1). auto.
Qed.

Lemma dispatch_bound_print (msg : string) :
  dispatch_bound (E := E) k 0 0 (on_st (my_print msg)).
Proof.
  intros e s e' s' r H. injection H as <- <- _.
  split; [reflexivity|]. split; [lia|].
  exists [(clock s, Print msg)]. simpl. auto.
Qed.

Lemma dispatch_bound_diff_call (k' : FileKind) (a b : string) :
  dispatch_bound (E := E) k (if FileKind_eqb k k' then 1 else 0) 0
    (on_st (emit (DiffCall k' a b))).
Proof.
  intros e s e' s' r H. injection H as <- <- _.
  split; [reflexivity|]. split; [lia|].
  exists [(clock s, DiffCall k' a b)]. simpl.
  repeat split. unfold calls_of. simpl. destruct (FileKind_eqb k k'); simpl; lia.
Qed.

Lemma dispatch_bound_get_entry : dispatch_bound (E := E) k 0 0 get_entry.
Proof.
  intros e s e' s' r H. injection H as <- <- _.
  split; [reflexivity|]. split; [lia|]. exists []. rewrite app_nil_r. auto.
Qed.

Lemma dispatch_bound_update (f : TestEntry -> TestEntry) (n : nat) :
  (forall e, basename (f e) = basename e) ->
  (forall e, records_of_kind k (f e) <= records_of_kind k e + n) ->
  dispatch_bound (E := E) k 0 n (update_entry f).
Proof.
  intros Hb Hr e s e' s' r H. injection H as <- <- _.
  split; [apply Hb|]. split; [apply Hr|]. exists []. rewrite app_nil_r. auto.
Qed.

Lemma dispatch_bound_if {A} (b : bool) nc nr (m1 m2 : M (DSt E) A) :
  dispatch_bound (E := E) k nc nr m1 -> dispatch_bound (E := E) k nc nr m2 ->
  dispatch_bound (E := E) k nc nr (if b then m1 else m2).
Proof. destruct b; auto. Qed.

Lemma dispatch_bound_for_each (l : list FileKind)
    (body : FileKind -> M (DSt E) unit) :
  (forall k', dispatch_bound (E := E) k (if FileKind_eqb k k' then 1 else 0)
                             (if FileKind_eqb k k' then 1 else 0) (body k')) ->
  dispatch_bound (E := E) k (occurrences k l) (occurrences k l) (for_each l body).
Proof.
  intros Hb. induction l as [|k' l IH]; simpl.
  - apply dispatch_bound_ret.
  - unfold occurrences in *. simpl.
    eapply dispatch_bound_weaken;
      [| | apply dispatch_bound_bind; [apply (Hb k') | intros _; exact IH]];
      destruct (FileKind_eqb k k'); simpl; lia.
Qed.

End DispatchBound.

Lemma records_add_summary k s e :
  records_of_kind k (add_summary_result s e) = records_of_kind k e.
Proof. destruct k; reflexivity. Qed.

Lemma records_add_math k sev m e :
  records_of_kind k (add_math_differences sev m e)
  = records_of_kind k e + (if FileKind_eqb k (MathFile m) then 1 else 0).
Proof.
  destruct k as [m'| |t]; simpl; try lia.
  rewrite filter_app, length_app. simpl.
  destruct (MathKind_eqb m' m); simpl; lia.
Qed.

Lemma records_add_table k sev e :
  records_of_kind k (add_table_differences sev e)
  = records_of_kind k e + (if FileKind_eqb k TableFile then 1 else 0).
Proof.
  destruct k as [m'| |t]; simpl; try lia.
  rewrite length_app. simpl. lia.
Qed.

Lemma records_add_text k o t e :
  records_of_kind k (add_text_differences o t e)
  = records_of_kind k e + (if FileKind_eqb k (TextFile t) then 1 else 0).
Proof.
  destruct k as [m'| |t']; simpl; try lia.
  rewrite filter_app, length_app. simpl.
  destruct (TextKind_eqb t' t); simpl; lia.
Qed.

Lemma both_files_exist_silent (E : Ext) a b f :
  silent (E := E) (both_files_exist a b f).
Proof. unfold both_files_exist. repeat silent_step. Qed.

Lemma diff_text_files_silent (E : Ext) a b d :
  silent (E := E) (diff_text_files a b d).
Proof. unfold diff_text_files. repeat silent_step. Qed.

Lemma diff_block_bound (E : Ext) (k : FileKind) td d1 d2 out (k' : FileKind) :
  dispatch_bound (E := E) k (if FileKind_eqb k k' then 1 else 0)
                   (if FileKind_eqb k k' then 1 else 0)
                   (diff_block (E := E) td d1 d2 out k').
Proof.
  set (n := if FileKind_eqb k k' then 1 else 0).
  destruct k' as [m| |t]; unfold diff_block, math_block, table_block, text_block.
  - eapply dispatch_bound_weaken with (nc := 0 + (n + (0 + 0))) (nr := 0 + (0 + (0 + n)));
      [lia | lia |].
    apply dispatch_bound_bind;
      [apply dispatch_bound_silent, both_files_exist_silent|].
    intros b. apply dispatch_bound_if.
    + apply dispatch_bound_bind; [apply dispatch_bound_diff_call|intros _].
      apply dispatch_bound_bind;
        [apply dispatch_bound_silent, silent_call|intros sev].
      apply dispatch_bound_update; [reflexivity|].
      intros e. rewrite records_add_math. subst n. lia.
    + eapply dispatch_bound_weaken; [| |apply dispatch_bound_ret]; lia.
  - eapply dispatch_bound_weaken with (nc := 0 + (n + (0 + 0))) (nr := 0 + (0 + (0 + n)));
      [lia | lia |].
    apply dispatch_bound_bind;
      [apply dispatch_bound_silent, both_files_exist_silent|].
    intros b. apply dispatch_bound_if.
    + apply dispatch_bound_bind; [apply dispatch_bound_diff_call|intros _].
      apply dispatch_bound_bind;
        [apply dispatch_bound_silent, silent_call|intros sev].
      apply dispatch_bound_update; [reflexivity|].
      intros e. rewrite records_add_table. subst n. lia.
    + eapply dispatch_bound_weaken; [| |apply dispatch_bound_ret]; lia.
  - eapply dispatch_bound_weaken with (nc := 0 + (n + (0 + 0))) (nr := 0 + (0 + (0 + n)));
      [lia | lia |].
    apply dispatch_bound_bind;
      [apply dispatch_bound_silent, both_files_exist_silent|].
    intros b. apply dispatch_bound_if.
    + apply dispatch_bound_bind; [apply dispatch_bound_diff_call|intros _].
      apply dispatch_bound_bind;
        [apply dispatch_bound_silent, diff_text_files_silent|intros o].
      apply dispatch_bound_update; [reflexivity|].
      intros e. rewrite records_add_text. subst n. lia.
    + eapply dispatch_bound_weaken; [| |apply dispatch_bound_ret]; lia.
Qed.

(** The dispatcher is its sixteen blocks, one per kind, in order. *)
Lemma for_each_app {S A} (l1 l2 : list A) (body : A -> M S unit) (s : S) :
  for_each (l1 ++ l2) body s = bind (for_each l1 body) (fun _ => for_each l2 body) s.
Proof.
  revert s. induction l1 as [|x l1 IH]; intros s; simpl.
  - reflexivity.
  - rewrite bind_assoc. apply bind_ext. intros _ s'. apply IH.
Qed.

Lemma dispatch_diffs_blocks (E : Ext) td d1 d2 out (es : DSt E) :
  dispatch_diffs td d1 d2 out es = for_each all_kinds (diff_block td d1 d2 out) es.
Proof.
  unfold dispatch_diffs, all_kinds.
  rewrite for_each_app. apply bind_ext. intros _ s1.
  rewrite for_each_app. simpl for_each at 2.
  rewrite bind_assoc. apply bind_ext. intros _ s2.
  unfold ret at 1. unfold bind at 1. reflexivity.
Qed.

Lemma occurrences_all_kinds (k : FileKind) : occurrences k all_kinds = 1.
Proof. destruct k as [[]| |[]]; reflexivity. Qed.

Lemma dispatch_diffs_bound (E : Ext) (k : FileKind) td d1 d2 out :
  dispatch_bound (E := E) k 1 1 (dispatch_diffs (E := E) td d1 d2 out).
Proof.
  intros e s e' s' r H. rewrite dispatch_diffs_blocks in H.
  pose proof (dispatch_bound_for_each k all_kinds (diff_block td d1 d2 out)
                (diff_block_bound E k td d1 d2 out)) as Hb.
  rewrite occurrences_all_kinds in Hb. exact (Hb _ _ _ _ _ H).
Qed.

(** *** One block *)

Lemma both_files_exist_run (E : Ext) a b f (s : St E) :
  exists n, both_files_exist a b f s
    = (after_asks n s,
       Ok (os_path_exists E (join a f) (world s)
           && os_path_exists E (join b f) (world s))).
Proof.
  unfold both_files_exist, bind, ask, ret. simpl.
  destruct (os_path_exists E (join a f) (world s)); simpl.
  - exists 2. destruct (os_path_exists E (join b f) (world s)); reflexivity.
  - exists 1. reflexivity.
Qed.

(** A block whose artifact is missing on a side calls nothing and
    attaches nothing. *)
Lemma diff_block_absent (E : Ext) td d1 d2 out k (e : TestEntry) (s : St E) :
  os_path_exists E (join d1 (file_of_kind k)) (world s)
  && os_path_exists E (join d2 (file_of_kind k)) (world s) = false ->
  exists s', diff_block td d1 d2 out k (e, s) = ((e, s'), Ok tt)
             /\ trace s' = trace s /\ world s' = world s.
Proof.
  intros H.
  destruct (both_files_exist_run E d1 d2 (file_of_kind k) s) as [n Hn].
  rewrite H in Hn.
  exists (after_asks n s).
  split; [|split; reflexivity].
  destruct k as [m| |t]; unfold diff_block, math_block, table_block, text_block;
    unfold bind at 1; unfold on_st at 1; simpl snd;
    (rewrite Hn || (unfold table_file; simpl file_of_kind in Hn; rewrite Hn));
    reflexivity.
Qed.

(** A block whose artifact is on both sides makes its diff call once;
    one record of its kind is attached when the call returns, none when it
    raises. *)
Lemma diff_block_present (E : Ext) td d1 d2 out k (e : TestEntry) (s : St E) :
  os_path_exists E (join d1 (file_of_kind k)) (world s) = true ->
  os_path_exists E (join d2 (file_of_kind k)) (world s) = true ->
  exists e' s' r,
    diff_block td d1 d2 out k (e, s) = ((e', s'), r)
    /\ trace s' = trace s ++ [DiffCall k (join d1 (file_of_kind k))
                                         (join d2 (file_of_kind k))]
    /\ (r = Ok tt -> records_of_kind k e' = records_of_kind k e + 1)
    /\ (forall x, r = Raise x -> e' = e).
Proof.
  intros Ha Hb.
  destruct (both_files_exist_run E d1 d2 (file_of_kind k) s) as [n Hn].
  rewrite Ha, Hb in Hn. simpl in Hn.
  destruct k as [m| |t].
  - unfold diff_block, math_block.
    unfold bind at 1; unfold on_st at 1; simpl snd. rewrite Hn. simpl fst.
    unfold bind at 1. unfold on_st at 1. simpl.
    unfold bind at 1. unfold on_st at 1. unfold call. simpl.
    destruct (math_diff E td _ _ _ _ _ _ (world s)) as [w [sev|x]]; simpl.
    + do 3 eexists. split; [reflexivity|]. split.
      * unfold trace. simpl. rewrite map_app. reflexivity.
      * split; [intros _|intros x H; discriminate].
        unfold records_of_kind. simpl. rewrite filter_app, length_app. simpl.
        destruct m; simpl; lia.
    + do 3 eexists. split; [reflexivity|]. split.
      * unfold trace. simpl. rewrite map_app. reflexivity.
      * split; [intros H; discriminate|reflexivity].
  - unfold diff_block, table_block.
    unfold bind at 1; unfold on_st at 1; simpl snd.
    unfold table_file. simpl file_of_kind in Hn. rewrite Hn. simpl fst.
    unfold bind at 1. unfold on_st at 1. simpl.
    unfold bind at 1. unfold on_st at 1. unfold call. simpl.
    destruct (table_diff E td _ _ _ _ _ _ (world s)) as [w [sev|x]]; simpl.
    + do 3 eexists. split; [reflexivity|]. split.
      * unfold trace. simpl. rewrite map_app. reflexivity.
      * split; [intros _|intros x H; discriminate].
        unfold records_of_kind. simpl. rewrite length_app. simpl. lia.
    + do 3 eexists. split; [reflexivity|]. split.
      * unfold trace. simpl. rewrite map_app. reflexivity.
      * split; [intros H; discriminate|reflexivity].
  - unfold diff_block, text_block.
    unfold bind at 1; unfold on_st at 1; simpl snd. rewrite Hn. simpl fst.
    unfold bind at 1. unfold on_st at 1. simpl.
    unfold bind at 1. unfold on_st at 1. simpl snd. simpl fst.
    match goal with
    | |- context [diff_text_files ?a ?b ?d ?st] =>
        destruct (diff_text_files a b d st) as [s1 [o|x]] eqn:Hd;
        pose proof (silent_trace _ _ _ _ (diff_text_files_silent E a b d) Hd) as Ht
    end; unfold bind, update_entry; simpl.
    + do 3 eexists. split; [reflexivity|]. split.
      * rewrite Ht. unfold trace. simpl. rewrite map_app. reflexivity.
      * split; [intros _|intros x H; discriminate].
        unfold records_of_kind. simpl. rewrite filter_app, length_app. simpl.
        destruct t; simpl; lia.
    + do 3 eexists. split; [reflexivity|]. split.
      * rewrite Ht. unfold trace. simpl. rewrite map_app. reflexivity.
      * split; [intros H; discriminate|reflexivity].
Qed.

(** *** One case, and the loop over the cases *)

Lemma lift_result_silent (E : Ext) {A} (r : Result A) :
  silent (E := E) (lift_result r).
Proof. intros s s' r' H. injection H as <- _. reflexivity. Qed.

Lemma read_end_status_silent (E : Ext) dir : silent (E := E) (read_end_status dir).
Proof.
  unfold read_end_status, process_end_file.
  repeat (silent_step || apply lift_result_silent).
Qed.

Lemma process_diffs_with_statuses_bound (E : Ext) k self d1 d2 a ra b rb :
  dispatch_bound (E := E) k 1 1 (process_diffs_with_statuses self d1 d2 a ra b rb).
Proof.
  unfold process_diffs_with_statuses.
  assert (Hdiffs : dispatch_bound (E := E) k 1 1
            (thresh_dict <- on_st (ask_result (load_ThreshDict E (thresh_dict_file self))) ;;
             dispatch_diffs thresh_dict d1 d2 d1)).
  { apply (dispatch_bound_bind k 0 0 1 1);
      [apply dispatch_bound_silent, silent_ask_result|].
    intros td. apply dispatch_diffs_bound. }
  assert (Hsum : forall s, dispatch_bound (E := E) k 0 0
                             (update_entry (add_summary_result s))).
  { intros s. apply dispatch_bound_update; [reflexivity|].
    intros e. rewrite records_add_summary. lia. }
  apply (dispatch_bound_bind k 0 0 1 1); [apply dispatch_bound_get_entry|].
  intros this_entry. apply dispatch_bound_if.
  - apply (dispatch_bound_weaken k (0 + 0) (0 + 0)); [lia|lia|].
    apply dispatch_bound_bind; [apply Hsum|intros _; apply dispatch_bound_print].
  - apply (dispatch_bound_bind k 0 0 1 1); [apply Hsum|intros _].
    destruct (end_status_decision a b) as [[]|];
      try (apply (dispatch_bound_weaken k 0 0); [lia|lia|];
           apply dispatch_bound_print);
      try exact Hdiffs.
    apply (dispatch_bound_bind k 0 0 1 1);
      [apply dispatch_bound_print|intros _; exact Hdiffs].
Qed.

Lemma process_diffs_for_one_case_bound (E : Ext) k self ci_mode :
  dispatch_bound (E := E) k 1 1 (process_diffs_for_one_case self ci_mode).
Proof.
  unfold process_diffs_for_one_case.
  apply (dispatch_bound_bind k 0 0 1 1); [apply dispatch_bound_get_entry|].
  intros this_entry.
  apply (dispatch_bound_bind k 0 0 1 1);
    [apply dispatch_bound_silent, read_end_status_silent|intros r1].
  apply (dispatch_bound_bind k 0 0 1 1);
    [apply dispatch_bound_silent, read_end_status_silent|intros r2].
  apply process_diffs_with_statuses_bound.
Qed.

(** One turn of the loop never raises: it ends in the state
    [after_diff_turn] with the entry as the diffs left it. *)
Lemma diff_one_entry_run (E : Ext) self this_entry cs (s : St E) :
  exists e' s1 r,
    process_diffs_for_one_case self false (this_entry, s) = ((e', s1), r)
    /\ diff_one_entry self this_entry cs s
       = (after_diff_turn (basename e') r s1,
          Ok (e', match r with Ok _ => add_test_entry e' cs | Raise _ => cs end)).
Proof.
  unfold diff_one_entry.
  destruct (process_diffs_for_one_case self false (this_entry, s))
    as [[e' s1] [[]|x]]; do 3 eexists; (split; [reflexivity|]); reflexivity.
Qed.

Lemma no_diff_completed_among_prints (evs : list Event) :
  forallb is_print_or_diff_call evs = true -> filter is_diff_completed evs = [].
Proof.
  induction evs as [|ev evs IH]; simpl; [reflexivity|].
  intros H. apply andb_true_iff in H. destruct H as [H1 H2].
  destruct ev; simpl in *; try discriminate; auto.
Qed.

Lemma trace_after_emit (E : Ext) ev (s : St E) :
  trace (after_emit ev s) = trace s ++ [ev].
Proof. unfold trace, after_emit. simpl. rewrite map_app. reflexivity. Qed.

Lemma diff_phase_of_prints (evs : list Event) :
  forallb is_print_or_diff_call evs = true ->
  forallb is_diff_phase_event evs = true.
Proof.
  induction evs as [|ev evs IH]; simpl; [reflexivity|].
  intros H. apply andb_true_iff in H. destruct H as [H1 H2].
  rewrite (IH H2). destruct ev; simpl in *; try discriminate; reflexivity.
Qed.

Lemma events_after_diff_turn (E : Ext) name r (s : St E) :
  exists evs, events (after_diff_turn name r s) = events s ++ evs
              /\ filter is_diff_completed (map snd evs) = [DiffCompleted name]
              /\ forallb is_diff_phase_event (map snd evs) = true.
Proof.
  destruct r as [u|x]; simpl.
  - eexists. split; [reflexivity|]. split; reflexivity.
  - eexists. split; [rewrite <- !app_assoc; reflexivity|]. split; reflexivity.
Qed.

(** The loop over the entries: it returns, every entry gets its
    diff-completed notification, in order, and gains at most one record of
    each kind. *)
Lemma diff_entries_run (E : Ext) self entries cs (s : St E) :
  exists s' es' cs' evs,
    diff_entries self entries cs s = (s', Ok (es', cs'))
    /\ events s' = events s ++ evs
    /\ filter is_diff_completed (map snd evs)
       = map DiffCompleted (map basename entries)
    /\ forallb is_diff_phase_event (map snd evs) = true
    /\ Forall2 (fun e e' => basename e' = basename e
                            /\ forall k, records_of_kind k e' <= records_of_kind k e + 1)
               entries es'
    /\ incl (entries_by_file cs') (entries_by_file cs ++ es').
Proof.
  revert cs s. induction entries as [|e entries IH]; intros cs s.
  - exists s, [], cs, []. simpl. rewrite !app_nil_r.
    repeat split; auto. apply incl_refl.
  - destruct (diff_one_entry_run E self e cs s) as [e' [s1 [r [Hp Hone]]]].
    simpl diff_entries. rewrite (bind_ok _ _ _ _ _ Hone). simpl snd. simpl fst.
    set (cs1 := match r with Ok _ => add_test_entry e' cs | Raise _ => cs end).
    destruct (IH cs1 (after_diff_turn (basename e') r s1))
      as [s' [es' [cs' [evs [Hrun [Ht [Hf [Hph [Hall Hincl]]]]]]]]].
    rewrite (bind_ok _ _ _ _ _ Hrun). simpl.
    assert (Hk : forall k, dispatch_bound (E := E) k 1 1
                             (process_diffs_for_one_case self false))
      by (intros k; apply process_diffs_for_one_case_bound).
    destruct (Hk TableFile _ _ _ _ _ Hp) as [Hb [_ [evs0 [Ht0 [Hp0 _]]]]].
    destruct (events_after_diff_turn E (basename e') r s1) as [evs1 [Ht1 [Hf1 Hph1]]].
    exists s', (e' :: es'), cs', (evs0 ++ evs1 ++ evs).
    split; [unfold ret; reflexivity|].
    split; [rewrite Ht, Ht1, Ht0, <- !app_assoc; reflexivity|].
    rewrite !map_app. split.
    { rewrite !filter_app, (no_diff_completed_among_prints _ Hp0), Hf1, Hf, Hb.
      reflexivity. }
    split.
    { rewrite !forallb_app, (diff_phase_of_prints _ Hp0), Hph1, Hph. reflexivity. }
    split.
    { constructor; [|exact Hall]. split; [exact Hb|].
      intros k. destruct (Hk k _ _ _ _ _ Hp) as [_ [Hr _]]. exact Hr. }
    intros x Hx. apply Hincl in Hx. apply in_app_or in Hx.
    destruct Hx as [Hx|Hx].
    + subst cs1. destruct r as [u|x0].
      * unfold add_test_entry in Hx. simpl in Hx. apply in_app_or in Hx.
        destruct Hx as [Hx|[Hx|[]]].
        -- apply in_or_app. left. exact Hx.
        -- apply in_or_app. right. left. exact Hx.
      * apply in_or_app. left. exact Hx.
    + apply in_or_app. right. right. exact Hx.
Qed.

Lemma Forall2_right {A B} (R : A -> B -> Prop) (P : B -> Prop) l l' :
  Forall2 R l l' -> (forall x y, In x l -> R x y -> P y) -> Forall P l'.
Proof.
  induction 1 as [|x y l l' Hxy _ IH]; intros H; constructor.
  - apply (H x y); [left; reflexivity|exact Hxy].
  - apply IH. intros a b Ha. apply H. right. exact Ha.
Qed.

Lemma fresh_entry_no_record k c : records_of_kind k (fresh_entry c) = 0.
Proof. destruct k; reflexivity. Qed.

(* ================================================================= *)
(** ** Properties of the diff dispatcher *)

(** C4.  The dispatcher goes once through the sixteen artifact kinds.
    The diff call of a kind is made only when the artifact exists in both
    result directories; it is made once, and when it returns exactly one
    record of that kind is attached to the entry (none when it raises, which
    ends the dispatch).  So one case gains at most one record of each kind,
    and after [diff_logs_for_build] every entry of a suite holds at most one
    record of each kind. *)
Theorem diff_record_once_per_kind (E : Ext) :
  (forall td d1 d2 out k (e : TestEntry) (s : St E),
     os_path_exists E (join d1 (file_of_kind k)) (world s)
     && os_path_exists E (join d2 (file_of_kind k)) (world s) = false ->
     exists s', diff_block td d1 d2 out k (e, s) = ((e, s'), Ok tt)
                /\ trace s' = trace s /\ world s' = world s)
  /\ (forall td d1 d2 out k (e : TestEntry) (s : St E),
     os_path_exists E (join d1 (file_of_kind k)) (world s) = true ->
     os_path_exists E (join d2 (file_of_kind k)) (world s) = true ->
     exists e' s' r,
       diff_block td d1 d2 out k (e, s) = ((e', s'), r)
       /\ trace s' = trace s ++ [DiffCall k (join d1 (file_of_kind k))
                                            (join d2 (file_of_kind k))]
       /\ (r = Ok tt -> records_of_kind k e' = records_of_kind k e + 1)
       /\ (forall x, r = Raise x -> e' = e))
  /\ (forall td d1 d2 out (es : DSt E),
     dispatch_diffs td d1 d2 out es
     = for_each all_kinds (diff_block td d1 d2 out) es)
  /\ (forall self ci_mode k (e e' : TestEntry) (s s' : St E) r,
     process_diffs_for_one_case self ci_mode (e, s) = ((e', s'), r) ->
     records_of_kind k e' <= records_of_kind k e + 1
     /\ exists evs, trace s' = trace s ++ evs /\ calls_of k evs <= 1)
  /\ (forall self (cases : list (string * option string)) (s : St E),
     exists s' es cs,
       diff_logs_for_build self (map fresh_entry cases) s = (s', Ok (es, cs))
       /\ Forall (fun e => forall k, records_of_kind k e <= 1) es
       /\ Forall (fun e => forall k, records_of_kind k e <= 1) (entries_by_file cs)).
Proof.
  split; [intros; apply diff_block_absent; assumption|].
  split; [intros; apply diff_block_present; assumption|].
  split; [intros; apply dispatch_diffs_blocks|].
  split.
  - intros self ci_mode k e e' s s' r H.
    destruct (process_diffs_for_one_case_bound E k self ci_mode _ _ _ _ _ H)
      as [_ [Hr [evs [Ht [_ Hc]]]]].
    split; [exact Hr|]. exists (map snd evs).
    split; [apply trace_of_events; exact Ht | exact Hc].
  - intros self cases s. unfold diff_logs_for_build.
    destruct (diff_entries_run E self (map fresh_entry cases)
                {| entries_by_file := [] |} s)
      as [s' [es [cs [evs [Hrun [_ [_ [_ [Hall Hincl]]]]]]]]].
    exists s', es, cs. split; [exact Hrun|].
    assert (Hes : Forall (fun e => forall k, records_of_kind k e <= 1) es).
    { apply (Forall2_right _ _ _ _ Hall). intros x y Hx [_ Hy] k.
      apply in_map_iff in Hx. destruct Hx as [c [<- _]].
      specialize (Hy k). rewrite fresh_entry_no_record in Hy. exact Hy. }
    split; [exact Hes|].
    apply Forall_forall. intros x Hx. apply Hincl in Hx. simpl in Hx.
    rewrite Forall_forall in Hes. apply Hes. exact Hx.
Qed.

Lemma diff_record_once_per_kind_witness :
  exists e' s' r,
    diff_block (E := MemFS.ext) tt "/a/Tests/Case" "/b/Tests/Case" "/a/Tests/Case"
      (MathFile ESO)
      (new_TestEntry "Case" None, initial_state (E := MemFS.ext) MemFS.diff_disk)
    = ((e', s'), r)
    /\ trace s' = [DiffCall (MathFile ESO) "/a/Tests/Case/eplusout.csv"
                            "/b/Tests/Case/eplusout.csv"]
    /\ (r = Ok tt -> records_of_kind (MathFile ESO) e' = 1).
Proof.
  destruct (proj1 (proj2 (diff_record_once_per_kind MemFS.ext))
              tt "/a/Tests/Case" "/b/Tests/Case" "/a/Tests/Case" (MathFile ESO)
              (new_TestEntry "Case" None)
              (initial_state (E := MemFS.ext) MemFS.diff_disk)
              eq_refl eq_refl) as [e' [s' [r [H1 [H2 [H3 _]]]]]].
  exists e', s', r. split; [exact H1|]. split; [exact H2|exact H3].
Defined.

(* ================================================================= *)
(** ** Properties of the per-case error boundary *)

(** C8.  An exception raised while the diffs of one entry are processed
    is caught in that turn of the loop: two lines are printed, one with the
    name of the case and one with the message of the exception, the entry
    stays as the diffs left it when the exception was raised and is not added
    to the completed structure, the diff-completed notification is made as for
    any other entry, and the loop goes on with the next entry.  The loop as a
    whole returns for every list of entries and notifies the end of the diffs
    of each of them, in order. *)
Theorem diff_failure_stays_in_its_case (E : Ext) (self : SuiteRunner) :
  (forall (this_entry : TestEntry) (rest : list TestEntry)
          (cs : CompletedStructure) (s : St E),
     exists e' s1 r,
       process_diffs_for_one_case self false (this_entry, s) = ((e', s1), r)
       /\ basename e' = basename this_entry
       /\ diff_entries self (this_entry :: rest) cs s
          = (rs <- diff_entries self rest
                     (match r with Ok _ => add_test_entry e' cs | Raise _ => cs end) ;;
             ret (e' :: fst rs, snd rs))
              (after_diff_turn (basename this_entry) r s1)
       /\ (forall x, r = Raise x ->
           trace (after_diff_turn (basename this_entry) r s1)
           = trace s1 ++ [ Print (unexpected_error_message (basename this_entry));
                           Print ("Message: " ++ str_of_exn x);
                           DiffCompleted (basename this_entry) ]))
  /\ (forall (entries : list TestEntry) (s : St E),
     exists s' es cs evs,
       diff_logs_for_build self entries s = (s', Ok (es, cs))
       /\ map basename es = map basename entries
       /\ trace s' = trace s ++ evs
       /\ filter is_diff_completed evs = map DiffCompleted (map basename entries)).
Proof.
  split.
  - intros this_entry rest cs s.
    destruct (diff_one_entry_run E self this_entry cs s) as [e' [s1 [r [Hp Hone]]]].
    destruct (process_diffs_for_one_case_bound E TableFile self false _ _ _ _ _ Hp)
      as [Hb _].
    exists e', s1, r. split; [exact Hp|]. split; [exact Hb|].
    rewrite <- Hb. split.
    + simpl diff_entries. rewrite (bind_ok _ _ _ _ _ Hone). reflexivity.
    + intros x ->. simpl. rewrite !trace_after_emit, <- !app_assoc. reflexivity.
  - intros entries s. unfold diff_logs_for_build.
    destruct (diff_entries_run E self entries {| entries_by_file := [] |} s)
      as [s' [es [cs [evs [Hrun [Ht [Hf [_ [Hall _]]]]]]]]].
    exists s', es, cs, (map snd evs). split; [exact Hrun|].
    split; [|split; [apply trace_of_events; exact Ht | exact Hf]].
    clear -Hall. induction Hall as [|x y l l' [Hxy _] _ IH]; simpl; congruence.
Qed.

(** With the meter file of build a unreadable as numbers, the diffs of
    the case stop there: the record of the first csv file stays, the two lines
    are printed and the end of the diffs is notified. *)
Example diff_failure_keeps_partial_records :
  let r := diff_logs_for_build (E := MemFS.ext) MemFS.runner
             [new_TestEntry "Case" None]
             (initial_state (E := MemFS.ext) MemFS.diff_disk) in
  exists summary,
    snd r = Ok ([ {| basename := "Case"; epw := None;
                     summary_result := Some summary;
                     math_diffs := [(ESO, SevNone)];
                     table_diffs := []; text_diffs := [] |} ],
                {| entries_by_file := [] |})
  /\ trace (fst r)
     = [ Print "Processing (Diffs) : Case";
         DiffCall (MathFile ESO) "/a/Tests/Case/eplusout.csv"
                  "/b/Tests/Case/eplusout.csv";
         DiffCall (MathFile MTR) "/a/Tests/Case/eplusmtr.csv"
                  "/b/Tests/Case/eplusmtr.csv";
         Print "Unexpected error processing diffs for Case, could indicate an E+ crash caused corrupted files";
         Print "Message: bad csv header";
         DiffCompleted "Case" ].
Proof.
  eexists. split; vm_compute; reflexivity.
Qed.

(* ================================================================= *)
(** ** What a computation emits *)

Section Emits.

Context {E : Ext}.
Variable P : nat * Event -> Prop.

Lemma emits_silent {A} (m : M (St E) A) : silent m -> emits (E := E) P m.
Proof.
  intros Hm s s' r H. exists []. rewrite app_nil_r.
  split; [exact (Hm _ _ _ H)|constructor].
Qed.

Lemma emits_ret {A} (a : A) : emits (E := E) P (ret a).
Proof. apply emits_silent, silent_ret. Qed.

Lemma emits_bind {A B} (m : M (St E) A) (k : A -> M (St E) B) :
  emits (E := E) P m -> (forall a, emits (E := E) P (k a)) -> emits (E := E) P (bind m k).
Proof.
  intros Hm Hk s s' r. unfold bind.
  destruct (m s) as [s1 [a|x]] eqn:H1; intros H2.
  - destruct (Hm _ _ _ H1) as [evs1 [E1 F1]].
    destruct (Hk a _ _ _ H2) as [evs2 [E2 F2]].
    exists (evs1 ++ evs2). split; [rewrite E2, E1, app_assoc; reflexivity|].
    apply Forall_app. split; assumption.
  - injection H2 as <- _. exact (Hm _ _ _ H1).
Qed.

Lemma emits_emit (ev : Event) : (forall t, P (t, ev)) -> emits (E := E) P (emit ev).
Proof.
  intros H s s' r H1. injection H1 as <- _.
  exists [(clock s, ev)]. split; [reflexivity|]. constructor; [apply H|constructor].
Qed.

Lemma emits_if {A} (b : bool) (m1 m2 : M (St E) A) :
  emits (E := E) P m1 -> emits (E := E) P m2 -> emits (E := E) P (if b then m1 else m2).
Proof. destruct b; auto. Qed.

Lemma emits_try_except {A} (m : M (St E) A) (h : exn -> M (St E) A) :
  emits (E := E) P m -> (forall e, emits (E := E) P (h e)) -> emits (E := E) P (try_except m h).
Proof.
  intros Hm Hh s s' r. unfold try_except.
  destruct (m s) as [s1 [a|x]] eqn:H1; intros H2.
  - injection H2 as <- _. exact (Hm _ _ _ H1).
  - destruct (Hm _ _ _ H1) as [evs1 [E1 F1]].
    destruct (Hh x _ _ _ H2) as [evs2 [E2 F2]].
    exists (evs1 ++ evs2). split; [rewrite E2, E1, app_assoc; reflexivity|].
    apply Forall_app. split; assumption.
Qed.

End Emits.

Lemma emits_weaken (E : Ext) {A} (P Q : nat * Event -> Prop) (m : M (St E) A) :
  (forall te, P te -> Q te) -> emits P m -> emits Q m.
Proof.
  intros HPQ Hm s s' r H. destruct (Hm _ _ _ H) as [evs [He Hf]].
  exists evs. split; [exact He|]. eapply Forall_impl; eauto.
Qed.

Lemma plain_is_build_event interrupt_at te : plain te -> build_event interrupt_at te.
Proof.
  unfold plain, build_event. destruct te as [t ev]. simpl.
  destruct ev; simpl; auto; discriminate.
Qed.

Ltac emits_step :=
  first [ apply emits_bind; [|intro]
        | apply emits_if
        | apply emits_emit; intro; reflexivity
        | apply emits_silent; repeat silent_step ].

(* ================================================================= *)
(** ** The phases of a run *)

Lemma stage_idf_plain (E : Ext) self bt e dir idf_path :
  emits (E := E) plain (stage_idf self bt e dir idf_path).
Proof.
  unfold stage_idf, my_print.
  apply emits_bind; [apply emits_silent, silent_call|intros _].
  apply emits_bind; [apply emits_silent, silent_ask_result|intros text].
  apply emits_bind; [apply emits_silent, stage_datasets_silent|intros text'].
  repeat emits_step.
Qed.

Lemma stage_entry_plain (E : Ext) self bt e :
  emits (E := E) plain (stage_entry self bt e).
Proof.
  unfold stage_entry.
  apply emits_bind;
    [apply emits_silent; intros s s' r H;
     exact (fresh_run_directory_silent _ _ _ _ _ H)|intros _].
  apply emits_bind; [apply emits_silent, silent_ask|intros idf_exists].
  apply emits_bind.
  - apply emits_if; [apply stage_idf_plain|].
    apply emits_bind; [apply emits_silent, silent_ask|intros imf_exists].
    apply emits_if.
    + unfold stage_imf. repeat emits_step.
    + unfold stage_missing, my_print, my_casecompleted. repeat emits_step.
  - intros [parametric_file|]; [|apply emits_ret].
    unfold stage_rest, my_print.
    apply emits_bind; [|intros task; apply emits_ret].
    apply emits_bind; [apply emits_silent, silent_ask|intros ?].
    apply emits_bind; [apply emits_silent; repeat silent_step|intros _].
    apply emits_bind; [apply emits_silent, silent_ask|intros ?].
    apply emits_bind; [apply emits_silent; repeat silent_step|intros _].
    apply emits_bind; [|intros ?; apply emits_ret].
    destruct (epw_given e); repeat emits_step.
Qed.

Lemma stage_entries_plain (E : Ext) self bt entries :
  emits (E := E) plain (stage_entries self bt entries).
Proof.
  induction entries as [|e entries IH]; simpl; [apply emits_ret|].
  apply emits_bind; [apply stage_entry_plain|intros job].
  apply emits_bind; [exact IH|intros runs; apply emits_ret].
Qed.

(** No simulation is started at a time when the flag is set. *)
Lemma run_in_process_events (E : Ext) interrupt_at tasks :
  emits (E := E) (build_event interrupt_at) (run_in_process interrupt_at tasks).
Proof.
  induction tasks as [|task tasks IH]; simpl; [apply emits_ret|].
  intros s s' r. unfold bind at 1. unfold id_like_to_stop_now at 1.
  destruct (flag_at interrupt_at (clock s)) eqn:Hflag.
  - intros H. injection H as <- _. exists []. rewrite app_nil_r. auto.
  - unfold bind at 1. unfold emit at 1.
    set (s1 := {| world := world s; clock := S (clock s);
                  events := events s ++ [(clock s, Executed task)] |}).
    intros H.
    assert (Hrest : emits (E := E) (build_event interrupt_at)
              (r0 <- call (execute_energyplus E task) ;;
               my_casecompleted r0 ;;; run_in_process interrupt_at tasks)).
    { apply emits_bind; [apply emits_silent, silent_call|intros r0].
      apply emits_bind; [|intros _; exact IH].
      unfold my_casecompleted. apply emits_emit. intros t. reflexivity. }
    destruct (Hrest _ _ _ H) as [evs [He Hf]].
    exists ((clock s, Executed task) :: evs).
    split; [rewrite He; subst s1; simpl; rewrite <- app_assoc; reflexivity|].
    constructor; [exact Hflag|exact Hf].
Qed.

Lemma run_build_events (E : Ext) interrupt_at self entries bt :
  emits (E := E) (build_event interrupt_at) (run_build interrupt_at self entries bt).
Proof.
  unfold run_build. apply emits_bind.
  - eapply emits_weaken; [|apply stage_entries_plain].
    intros te. apply plain_is_build_event.
  - intros tasks. apply run_in_process_events.
Qed.

Lemma prepare_dir_structure_plain (E : Ext) b_a b_b d_test :
  emits (E := E) plain (prepare_dir_structure b_a b_b d_test).
Proof. unfold prepare_dir_structure, my_print. repeat emits_step. Qed.

Lemma diff_phase_is_plain (evs : list (nat * Event)) :
  forallb is_diff_phase_event (map snd evs) = true -> Forall plain evs.
Proof.
  induction evs as [|[t ev] evs IH]; simpl; [constructor|].
  intros H. apply andb_true_iff in H. destruct H as [H1 H2].
  constructor; [|exact (IH H2)].
  unfold plain. simpl. destruct ev; simpl in *; try discriminate; reflexivity.
Qed.

(** Writing one of the two summary files: printed lines only, and an
    exception of the writer ends in a printed line. *)
Lemma summary_step_run (E : Ext) msg1 (f : World E -> World E * Result unit)
    msg2 (failed : exn -> string) (s : St E) :
  exists s' evs,
    try_except (my_print msg1 ;;; call f ;;; my_print msg2)
               (fun e => my_print (failed e)) s = (s', Ok tt)
    /\ events s' = events s ++ evs /\ Forall plain evs.
Proof.
  unfold try_except, bind, my_print, emit, call. simpl.
  destruct (f (world s)) as [w [u|x]]; simpl.
  - do 2 eexists. split; [reflexivity|]. simpl. rewrite <- app_assoc.
    split; [reflexivity|]. repeat constructor.
  - do 2 eexists. split; [reflexivity|]. simpl. rewrite <- app_assoc.
    split; [reflexivity|]. repeat constructor.
Qed.

Lemma emit_run (E : Ext) ev (s : St E) : emit ev s = (after_emit ev s, Ok tt).
Proof. reflexivity. Qed.

Lemma finish_suite_run (E : Ext) self entries (s : St E) :
  exists s' res evs c,
    finish_suite self entries s = (s', Ok (Some res))
    /\ events s' = events s ++ (clock s, SimulationsComplete) :: evs
                               ++ [(c, AllDone (snd res))]
    /\ Forall plain evs.
Proof.
  unfold finish_suite, my_simulationscomplete.
  rewrite (bind_ok _ _ _ _ _ (emit_run E SimulationsComplete s)).
  unfold diff_logs_for_build.
  destruct (diff_entries_run E self entries {| entries_by_file := [] |}
              (after_emit SimulationsComplete s))
    as [s1 [es [cs [evs1 [Hrun [He1 [_ [Hph _]]]]]]]].
  rewrite (bind_ok _ _ _ _ _ Hrun). 
  simpl snd.
  match goal with
  | |- context [try_except (my_print ?m1 ;;; call ?f ;;; my_print ?m2) ?h] =>
      destruct (summary_step_run E m1 f m2
                  (fun e => ("Could not write runtime summary file: " ++ str_of_exn e)%string)
                  s1) as [s2 [evs2 [Hs2 [He2 Hp2]]]]
  end.
  rewrite (bind_ok _ _ _ _ _ Hs2).
  match goal with
  | |- context [try_except (my_print ?m1 ;;; call ?f ;;; my_print ?m2) ?h] =>
      destruct (summary_step_run E m1 f m2
                  (fun e => ("Could not write results summary file: " ++ str_of_exn e)%string)
                  s2) as [s3 [evs3 [Hs3 [He3 Hp3]]]]
  end.
  rewrite (bind_ok _ _ _ _ _ Hs3).
  unfold my_print, my_alldone.
  rewrite (bind_ok _ _ _ _ _ (emit_run E _ _)).
  rewrite (bind_ok _ _ _ _ _ (emit_run E _ _)).
  rewrite (bind_ok _ _ _ _ _ (emit_run E _ _)).
  rewrite (bind_ok _ _ _ _ _ (emit_run E _ _)).
  rewrite (bind_ok _ _ _ _ _ (emit_run E _ _)).
  unfold ret.
  exists (after_emit (AllDone cs)
            (after_emit (Print "Test suite complete")
               (after_emit (Print (tab ++ build_dir (build_tree_b self)))
                  (after_emit (Print (tab ++ build_dir (build_tree_a self)))
                     (after_emit (Print "Test suite complete for directories:") s3))))),
         (es, cs),
         (evs1 ++ evs2 ++ evs3
          ++ [ (clock s3, Print "Test suite complete for directories:");
               (S (clock s3), Print (tab ++ build_dir (build_tree_a self)));
               (S (S (clock s3)), Print (tab ++ build_dir (build_tree_b self)));
               (S (S (S (clock s3))), Print "Test suite complete") ]),
         (S (S (S (S (clock s3))))).
  split; [reflexivity|]. split.
  - unfold after_emit. cbn [events clock snd]. rewrite He3, He2, He1.
    unfold after_emit. cbn [events]. rewrite <- !app_assoc. reflexivity.
  - apply Forall_app. split; [apply diff_phase_is_plain; exact Hph|].
    apply Forall_app. split; [exact Hp2|].
    apply Forall_app. split; [exact Hp3|]. repeat constructor.
Qed.

Lemma run_shape_extend (E : Ext) interrupt_at b pre evs0
    (out : St E * Result (option (list TestEntry * CompletedStructure))) :
  Forall (build_event interrupt_at) evs0 ->
  run_shape interrupt_at b (pre ++ evs0) out -> run_shape interrupt_at b pre out.
Proof.
  intros H0 [[Hr [evs [c [He [Hf Hc]]]]]
            |[[res [evs1 [evs2 [t [c [Hr [He [Hf1 [Hf2 Ht]]]]]]]]]
             |[e [evs [Hr [He Hf]]]]]].
  - left. split; [exact Hr|]. exists (evs0 ++ evs), c.
    split; [rewrite He, <- !app_assoc; reflexivity|].
    split; [apply Forall_app; split; assumption|exact Hc].
  - right. left. exists res, (evs0 ++ evs1), evs2, t, c.
    split; [exact Hr|]. split; [rewrite He, <- !app_assoc; reflexivity|].
    split; [apply Forall_app; split; assumption|]. split; assumption.
  - right. right. exists e, (evs0 ++ evs).
    split; [exact Hr|]. split; [rewrite He, <- !app_assoc; reflexivity|].
    apply Forall_app. split; assumption.
Qed.

Lemma finish_suite_shape (E : Ext) interrupt_at b self entries (s : St E) :
  (b = true -> flag_at interrupt_at (clock s) = false) ->
  run_shape interrupt_at b (events s) (finish_suite self entries s).
Proof.
  intros Hflag.
  destruct (finish_suite_run E self entries s) as [s' [res [evs [c [Hrun [He Hp]]]]]].
  right. left. exists res, [], evs, (clock s), c. rewrite Hrun. simpl.
  repeat split; auto.
Qed.

Lemma cancelled_shape (E : Ext) interrupt_at b (s : St E) :
  flag_at interrupt_at (clock s) = true ->
  run_shape interrupt_at b (events s) ((my_cancelled ;;; ret None) s).
Proof.
  intros Hflag. left. split; [reflexivity|]. exists [], (clock s). simpl. auto.
Qed.

(** A build phase followed by its flag check and by [continue_]. *)
Lemma build_then_check_shape (E : Ext) interrupt_at b self entries bt
    (continue_ : M (St E) (option (list TestEntry * CompletedStructure)))
    (s : St E) :
  (forall s1, flag_at interrupt_at (clock s1) = false ->
              run_shape interrupt_at b (events s1) (continue_ s1)) ->
  run_shape interrupt_at b (events s)
    ((run_build interrupt_at self entries bt ;;;
      stop <- id_like_to_stop_now interrupt_at ;;
      if stop then my_cancelled ;;; ret None else continue_) s).
Proof.
  intros Hcont. unfold bind at 1.
  destruct (run_build interrupt_at self entries bt s) as [s1 [u|x]] eqn:Hb;
    destruct (run_build_events E interrupt_at self entries bt _ _ _ Hb)
      as [evs [He Hf]].
  - apply (run_shape_extend E interrupt_at b (events s) evs); [exact Hf|].
    rewrite <- He. unfold bind at 1. unfold id_like_to_stop_now at 1.
    destruct (flag_at interrupt_at (clock s1)) eqn:Hflag.
    + apply cancelled_shape. exact Hflag.
    + apply Hcont. exact Hflag.
  - right. right. exists x, evs. simpl. auto.
Qed.

Lemma run_suite_b_shape (E : Ext) interrupt_at self entries (s : St E) :
  (run_case_a self = true -> flag_at interrupt_at (clock s) = false) ->
  run_shape interrupt_at (run_case_a self || run_case_b self) (events s)
    (run_suite_b interrupt_at self entries s).
Proof.
  intros Hflag. unfold run_suite_b. destruct (run_case_b self) eqn:Hb.
  - apply build_then_check_shape. intros s1 H1.
    apply finish_suite_shape. intros _. exact H1.
  - apply finish_suite_shape. rewrite orb_false_r. exact Hflag.
Qed.

(** Every run ends in one of the three ways. *)
Lemma run_test_suite_shape (E : Ext) interrupt_at self entries (w : World E) :
  run_shape interrupt_at (run_case_a self || run_case_b self) []
    (run_test_suite interrupt_at self entries w).
Proof.
  unfold run_test_suite, run_test_suite_body.
  change (@nil (nat * Event)) with (events (initial_state w)).
  generalize (initial_state w). intros s.
  unfold bind at 1.
  destruct (prepare_dir_structure _ _ _ s) as [s1 [u|x]] eqn:Hp;
    destruct (prepare_dir_structure_plain E _ _ _ _ _ _ Hp) as [evs [He Hf]];
    assert (Hf' : Forall (build_event interrupt_at) evs)
      by (eapply Forall_impl; [|exact Hf]; intros te; apply plain_is_build_event).
  - apply (run_shape_extend E interrupt_at _ (events s) evs); [exact Hf'|].
    rewrite <- He. unfold bind at 1. unfold id_like_to_stop_now at 1.
    destruct (flag_at interrupt_at (clock s1)) eqn:Hflag.
    + apply cancelled_shape. exact Hflag.
    + unfold my_starting.
      rewrite (bind_ok _ _ _ _ _ (emit_run E _ s1)).
      apply (run_shape_extend E interrupt_at _ (events s1)
               [(clock s1, Starting 2 (List.length entries))]);
        [repeat constructor|].
      change (events s1 ++ [(clock s1, Starting 2 (List.length entries))])
        with (events (after_emit (Starting 2 (List.length entries)) s1)).
      destruct (run_case_a self) eqn:Ha.
      * apply build_then_check_shape. intros s2 H2.
        pose proof (run_suite_b_shape E interrupt_at self entries s2) as H.
        rewrite Ha in H. apply H. intros _. exact H2.
      * pose proof (run_suite_b_shape E interrupt_at self entries
                      (after_emit (Starting 2 (List.length entries)) s1)) as H.
        rewrite Ha in H. apply H. intros H'. discriminate.
  - right. right. exists x, evs. simpl. auto.
Qed.

Lemma build_events_filters interrupt_at (evs : list (nat * Event)) :
  Forall (build_event interrupt_at) evs ->
  filter is_cancelled (map snd evs) = []
  /\ filter is_all_done (map snd evs) = []
  /\ filter is_simulations_complete (map snd evs) = []
  /\ (forall t, ~ In (t, SimulationsComplete) evs)
  /\ (forall t task, In (t, Executed task) evs -> flag_at interrupt_at t = false).
Proof.
  induction 1 as [|[t ev] evs Hev _ IH]; simpl.
  - repeat split; auto. intros t task [].
  - destruct IH as [H1 [H2 [H3 [H4 H5]]]].
    unfold build_event in Hev. simpl in Hev.
    destruct ev; simpl in *; try discriminate; repeat split; auto;
      try (intros u [Heq|Hin]; [discriminate|exact (H4 u Hin)]);
      try (intros u tk [Heq|Hin]; [discriminate|exact (H5 u tk Hin)]).
    intros u tk [Heq|Hin]; [|exact (H5 u tk Hin)].
    injection Heq as <- <-. exact Hev.
Qed.

Lemma plain_events_are_build_events interrupt_at (evs : list (nat * Event)) :
  Forall plain evs -> Forall (build_event interrupt_at) evs.
Proof. apply Forall_impl. intros te. apply plain_is_build_event. Qed.

Lemma plain_events_not_executed (evs : list (nat * Event)) t task :
  Forall plain evs -> ~ In (t, Executed task) evs.
Proof.
  intros H Hin. rewrite Forall_forall in H. specialize (H _ Hin).
  unfold plain in H. simpl in H. discriminate.
Qed.

(* ================================================================= *)
(** ** Properties of cancellation *)


(** the flag, once set, stays set *)
Lemma flag_at_monotone interrupt_at t t' :
  flag_at interrupt_at t = true -> t <= t' -> flag_at interrupt_at t' = true.
Proof.
  unfold flag_at. destruct interrupt_at as [k|]; [|discriminate].
  intros H Hle. apply Nat.leb_le in H. apply Nat.leb_le. lia.
Qed.



(* ================================================================= *)
(** ** More on the end-status classifier *)

Lemma remove_char_append (c : ascii) (a b : string) :
  PyStr.remove_char c (a ++ b) = (PyStr.remove_char c a ++ PyStr.remove_char c b)%string.
Proof.
  induction a as [|d a IH]; simpl; [reflexivity|].
  destruct (Ascii.eqb d c); simpl; rewrite IH; reflexivity.
Qed.

(** X1.  A line break anywhere in the end file changes nothing: the
    classifier reads the text with its line breaks taken out. *)
Theorem process_end_file_ignores_line_breaks (a b : string) :
  process_end_contents (a ++ newline ++ b) = process_end_contents (a ++ b).
Proof.
  unfold process_end_contents. rewrite !remove_char_append. reflexivity.
Qed.

Section SplitFacts.

Local Open Scope string_scope.

Lemma option_map_S_none (x : option nat) : option_map S x = None <-> x = None.
Proof. destruct x; simpl; split; congruence. Qed.

Lemma index_of_append_none (c : ascii) (a b : string) :
  PyStr.index_of c (a ++ b) = None
  <-> PyStr.index_of c a = None /\ PyStr.index_of c b = None.
Proof.
  induction a as [|d a IH]; simpl.
  - split; [intros H; split; [reflexivity|exact H] | intros [_ H]; exact H].
  - destruct (Ascii.eqb d c).
    + split; [discriminate|intros [H _]; discriminate].
    + rewrite !option_map_S_none. exact IH.
Qed.

Lemma split_on_cons (sep c : ascii) (t : string) :
  PyStr.split_on sep (String c t)
  = if Ascii.eqb c sep then "" :: PyStr.split_on sep t
    else match PyStr.split_on sep t with
         | h :: r => String c h :: r
         | [] => [String c ""]
         end.
Proof. reflexivity. Qed.

Lemma split_on_no_sep (sep : ascii) (u : string) :
  PyStr.index_of sep u = None -> PyStr.split_on sep u = [u].
Proof.
  induction u as [|c u IH]; [reflexivity|].
  simpl PyStr.index_of. rewrite split_on_cons.
  destruct (Ascii.eqb c sep); [discriminate|].
  destruct (PyStr.index_of sep u); [discriminate|].
  intros _. rewrite IH; reflexivity.
Qed.

Lemma split_on_at_sep (sep : ascii) (u v : string) :
  PyStr.index_of sep u = None ->
  PyStr.split_on sep (u ++ String sep v) = u :: PyStr.split_on sep v.
Proof.
  induction u as [|c u IH].
  - intros _. simpl append. rewrite split_on_cons, Ascii.eqb_refl. reflexivity.
  - simpl PyStr.index_of. simpl append. rewrite split_on_cons.
    destruct (Ascii.eqb c sep); [discriminate|].
    destruct (PyStr.index_of sep u); [discriminate|].
    intros _. rewrite IH; reflexivity.
Qed.

Lemma split_on_spaces (n : nat) (t : string) :
  PyStr.split_on " " (spaces n ++ t) = (repeat "" n ++ PyStr.split_on " " t)%list.
Proof.
  induction n as [|n IH]; [reflexivity|].
  simpl spaces. simpl append. rewrite split_on_cons. simpl. rewrite IH. reflexivity.
Qed.

Lemma filter_nonempty_blanks (n : nat) (l : list string) :
  filter PyStr.nonempty (repeat "" n ++ l)%list = filter PyStr.nonempty l.
Proof. induction n as [|n IH]; simpl; auto. Qed.

Lemma take_append (n : nat) (a b : string) :
  n <= String.length a -> PyStr.take n (a ++ b) = PyStr.take n a.
Proof.
  revert a. induction n as [|n IH]; intros a H; [reflexivity|].
  destruct a as [|c a]; simpl in H; [lia|].
  simpl. rewrite IH by lia. reflexivity.
Qed.

Lemma take_all (a : string) : PyStr.take (String.length a) a = a.
Proof. induction a as [|c a IH]; simpl; congruence. Qed.

Lemma slice_to_take (n : nat) (s : string) :
  n <= String.length s -> PyStr.slice_to (Z.of_nat n) s = PyStr.take n s.
Proof.
  intros H. unfold PyStr.slice_to.
  destruct (Z.of_nat n <? 0)%Z eqn:Hlt; [apply Z.ltb_lt in Hlt; lia|].
  rewrite Z.min_l by lia. rewrite Nat2Z.id. reflexivity.
Qed.

Lemma index_of_first (c : ascii) (a b : string) :
  PyStr.index_of c a = None ->
  PyStr.index_of c (a ++ String c b) = Some (String.length a).
Proof.
  induction a as [|d a IH]; simpl.
  - intros _. rewrite Ascii.eqb_refl. reflexivity.
  - destruct (Ascii.eqb d c); [discriminate|].
    destruct (PyStr.index_of c a); [discriminate|].
    intros _. rewrite IH; reflexivity.
Qed.

Lemma remove_char_absent (c : ascii) (s : string) :
  PyStr.index_of c s = None -> PyStr.remove_char c s = s.
Proof.
  induction s as [|d s IH]; simpl; [reflexivity|].
  destruct (Ascii.eqb d c); [discriminate|].
  destruct (PyStr.index_of c s); [discriminate|].
  intros _. rewrite IH; reflexivity.
Qed.

Lemma contains_append_l (needle a b : string) :
  PyStr.contains needle a = true -> PyStr.contains needle (a ++ b) = true.
Proof.
  intros H. destruct (contains_split _ _ H) as [x [y ->]].
  rewrite !append_assoc. apply contains_app.
Qed.

End SplitFacts.

Lemma index_of_cons (c d : ascii) (t : string) :
  PyStr.index_of c (String d t)
  = if Ascii.eqb d c then Some 0 else option_map S (PyStr.index_of c t).
Proof. reflexivity. Qed.

Lemma index_of_spaces (c : ascii) (n : nat) :
  Ascii.eqb " " c = false -> PyStr.index_of c (spaces n) = None.
Proof.
  intros H. induction n as [|n IH]; [reflexivity|].
  change (spaces (S n)) with (String " " (spaces n)).
  rewrite index_of_cons, H, IH. reflexivity.
Qed.

Lemma nonempty_append_r (a b : string) :
  PyStr.nonempty b = true -> PyStr.nonempty (a ++ b) = true.
Proof. destruct a; simpl; auto. Qed.

(** The tokens of the time string of a well-formed stamp. *)
Lemma stamp_tokens (hh mm sec : string) (n : nat) :
  stamp_piece hh -> stamp_piece mm -> stamp_piece sec ->
  filter PyStr.nonempty
    (PyStr.split_on " " (hh ++ "hr " ++ mm ++ "min " ++ spaces n ++ sec ++ "sec"))
  = [ (hh ++ "hr")%string; (mm ++ "min")%string; (sec ++ "sec")%string ].
Proof.
  intros [Hh _] [Hm _] [Hs _].
  change (hh ++ "hr " ++ mm ++ "min " ++ spaces n ++ sec ++ "sec")%string
    with (hh ++ ("hr" ++ String " " (mm ++ ("min" ++ String " " (spaces n ++ sec ++ "sec")))))%string.
  rewrite <- (append_assoc hh "hr").
  rewrite split_on_at_sep
    by (apply index_of_append_none; split; [exact Hh|reflexivity]).
  rewrite <- (append_assoc mm "min").
  rewrite split_on_at_sep
    by (apply index_of_append_none; split; [exact Hm|reflexivity]).
  rewrite split_on_spaces.
  rewrite split_on_no_sep
    by (apply index_of_append_none; split; [exact Hs|reflexivity]).
  simpl filter.
  rewrite !nonempty_append_r by reflexivity.
  rewrite filter_nonempty_blanks. simpl filter.
  rewrite nonempty_append_r by reflexivity. reflexivity.
Qed.

(** X2.  For every well-formed stamp after a success marker the classifier
    returns SUCCESS, with the hours and minutes of the stamp and with the
    seconds read from the seconds field short of its last character. *)
Theorem process_end_file_runtime_of_stamp
    (label hh mm sec : string) (n : nat) (hv mv sv : Q)
    (Hlabel : PyStr.index_of "=" label = None /\ PyStr.index_of "010" label = None)
    (Hsuccess : PyStr.contains "Successfully" label = true)
    (Hhh : stamp_piece hh /\ String.length hh = 2)
    (Hmm : stamp_piece mm /\ String.length mm = 2)
    (Hsec : stamp_piece sec /\ PyStr.index_of "s" sec = None
            /\ 1 <= String.length sec)
    (Hhv : float_of hh = Ok hv)
    (Hmv : float_of mm = Ok mv)
    (Hsv : float_of (PyStr.take (String.length sec - 1) sec) = Ok sv) :
  process_end_contents (stamped label hh mm (spaces n) sec)
  = Ok (STATUS_SUCCESS, (hv * 3600 + mv * 60 + sv)%Q).
Proof.
  destruct Hlabel as [Hl_eq Hl_nl].
  destruct Hhh as [Hh Hh2]. destruct Hmm as [Hm Hm2].
  destruct Hsec as [Hs [Hs_s Hs1]].
  pose proof Hh as [_ [Hh_eq Hh_nl]].
  pose proof Hm as [_ [Hm_eq Hm_nl]].
  pose proof Hs as [_ [Hs_eq Hs_nl]].
  set (time_string := (hh ++ "hr " ++ mm ++ "min " ++ spaces n ++ sec ++ "sec")%string).
  assert (Hts : forall c, Ascii.eqb " " c = false ->
                  PyStr.index_of c hh = None -> PyStr.index_of c mm = None ->
                  PyStr.index_of c sec = None ->
                  PyStr.index_of c "hr " = None -> PyStr.index_of c "min " = None ->
                  PyStr.index_of c "sec" = None ->
                  PyStr.index_of c time_string = None).
  { intros c Hc H1 H2 H3 H4 H5 H6. subst time_string.
    repeat (apply index_of_append_none; split); auto.
    apply index_of_spaces. exact Hc. }
  assert (Hts_eq : PyStr.index_of "=" time_string = None)
    by (apply Hts; auto).
  assert (Hts_nl : PyStr.index_of "010" time_string = None)
    by (apply Hts; auto).
  unfold process_end_contents, stamped. fold time_string.
  change (label ++ "=" ++ time_string)%string
    with (label ++ String "=" time_string)%string.
  rewrite remove_char_absent
    by (apply index_of_append_none; split; [exact Hl_nl|];
        simpl; rewrite Hts_nl; reflexivity).
  rewrite (contains_append_l _ _ _ Hsuccess).
  unfold parse_runtime.
  rewrite (split_on_at_sep "=" label time_string Hl_eq).
  rewrite (split_on_no_sep "=" time_string Hts_eq).
  cbn [list_index nth_error rbind].
  subst time_string. rewrite (stamp_tokens hh mm sec n Hh Hm Hs).
  cbn [list_index nth_error rbind].
  change 2%Z with (Z.of_nat 2).
  rewrite !slice_to_take by (rewrite length_append; simpl; lia).
  rewrite <- Hh2 at 1. rewrite take_append by lia. rewrite take_all, Hhv.
  cbn [rbind].
  rewrite <- Hm2 at 1. rewrite take_append by lia. rewrite take_all, Hmv.
  cbn [rbind].
  unfold str_index.
  change (sec ++ "sec")%string with (sec ++ String "s" "ec")%string.
  rewrite (index_of_first "s" sec "ec" Hs_s).
  cbn [rbind].
  replace (Z.of_nat (String.length sec) - 1)%Z
    with (Z.of_nat (String.length sec - 1)) by lia.
  rewrite slice_to_take by (rewrite length_append; lia).
  rewrite take_append by lia. rewrite Hsv.
  reflexivity.
Qed.

Lemma process_end_file_runtime_of_stamp_witness :
  process_end_contents
    (stamped "EnergyPlus Completed Successfully-- 1 Warning; 0 Severe Errors; Elapsed Time"
             "00" "02" (spaces 1) "3.45")
  = Ok (STATUS_SUCCESS, (0 * 3600 + 2 * 60 + (34 # 10))%Q).
Proof.
  apply (process_end_file_runtime_of_stamp
           "EnergyPlus Completed Successfully-- 1 Warning; 0 Severe Errors; Elapsed Time"
           "00" "02" "3.45" 1 0%Q 2%Q (34 # 10)%Q).
  - split; reflexivity.
  - reflexivity.
  - split; [repeat split|reflexivity].
  - split; [repeat split|reflexivity].
  - split; [repeat split|split; [reflexivity|simpl; lia]].
  - reflexivity.
  - reflexivity.
  - reflexivity.
Defined.

(* ================================================================= *)
(** ** More on the text diff *)

(** What the text diff does on two files that can be read. *)
Lemma diff_text_files_run (E : Ext) file_a file_b diff_file (s : St E) txt1 txt2 :
  readlines E file_a (world s) = Ok txt1 ->
  readlines E file_b (world s) = Ok txt2 ->
  diff_text_files file_a file_b diff_file s
  = if lines_eqb (cleaned txt1) (cleaned txt2)
    then (after_asks 2 s, Ok EQUAL)
    else
      let written := write_text E diff_file
        (String.concat "" (unified_diff E (cleaned txt1) (cleaned txt2)))
        (world s) in
      ({| world := fst written; clock := 3 + clock s; events := events s |},
       match snd written with Ok _ => Ok DIFFS | Raise e => Raise e end).
Proof.
  intros Ha Hb.
  unfold diff_text_files, bind, ask_result, call, ret. simpl.
  rewrite Ha. simpl. rewrite Hb.
  destruct (lines_eqb (cleaned txt1) (cleaned txt2)); [reflexivity|].
  simpl. destruct (write_text E diff_file _ (world s)) as [w [u|e]]; reflexivity.
Qed.

Lemma diff_text_files_equal (E : Ext) file_a file_b diff_file (s : St E) txt1 txt2 :
  readlines E file_a (world s) = Ok txt1 ->
  readlines E file_b (world s) = Ok txt2 ->
  (snd (diff_text_files file_a file_b diff_file s) = Ok EQUAL
   <-> cleaned txt1 = cleaned txt2).
Proof.
  intros Ha Hb. rewrite (diff_text_files_run E _ _ _ _ _ _ Ha Hb).
  destruct (lines_eqb (cleaned txt1) (cleaned txt2)) eqn:Heq.
  - apply lines_eqb_eq in Heq. simpl. tauto.
  - simpl. split.
    + destruct (snd (write_text E diff_file _ (world s))); discriminate.
    + intros H. apply lines_eqb_eq in H. congruence.
Qed.

Lemma cleaned_app (a b : list string) : cleaned (a ++ b) = cleaned a ++ cleaned b.
Proof. unfold cleaned. apply filter_app. Qed.

(** X3.  A line with one of the listed strings in it does not count: put
    anywhere into either of the two files, it leaves the outcome of the
    comparison as it was. *)
Theorem diff_text_files_ignores_volatile_line
    (E : Ext) (file_a file_b diff_file : string) (s s' : St E)
    (before after other : list string) (line volatile : string)
    (Hlisted : In volatile skip_strings)
    (Hline : PyStr.contains volatile line = true)
    (Ha : readlines E file_a (world s) = Ok (before ++ after))
    (Ha' : readlines E file_a (world s') = Ok (before ++ line :: after))
    (Hb : readlines E file_b (world s) = Ok other)
    (Hb' : readlines E file_b (world s') = Ok other) :
  cleaned (before ++ line :: after) = cleaned (before ++ after)
  /\ (snd (diff_text_files file_a file_b diff_file s') = Ok EQUAL
      <-> snd (diff_text_files file_a file_b diff_file s) = Ok EQUAL)
  /\ (snd (diff_text_files file_b file_a diff_file s') = Ok EQUAL
      <-> snd (diff_text_files file_b file_a diff_file s) = Ok EQUAL).
Proof.
  assert (Hc : cleaned (before ++ line :: after) = cleaned (before ++ after)).
  { rewrite !cleaned_app. f_equal.
    assert (Hex : existsb (fun x => PyStr.contains x line) skip_strings = true)
      by (apply existsb_exists; exists volatile; auto).
    unfold cleaned. cbn [filter]. rewrite Hex. reflexivity. }
  split; [exact Hc|]. split.
  - rewrite (diff_text_files_equal E _ _ _ _ _ _ Ha' Hb').
    rewrite (diff_text_files_equal E _ _ _ _ _ _ Ha Hb).
    rewrite Hc. tauto.
  - rewrite (diff_text_files_equal E _ _ _ _ _ _ Hb' Ha').
    rewrite (diff_text_files_equal E _ _ _ _ _ _ Hb Ha).
    rewrite Hc. tauto.
Qed.

Lemma diff_text_files_ignores_volatile_line_witness :
  let s := initial_state (E := MemFS.ext)
             [("/a/eplusout.err", MemFS.File " Processing");
              ("/b/eplusout.err", MemFS.File " Processing")] in
  let s' := initial_state (E := MemFS.ext)
              [("/a/eplusout.err", MemFS.File MemFS.audit_b);
               ("/b/eplusout.err", MemFS.File " Processing")] in
  snd (diff_text_files "/a/eplusout.err" "/b/eplusout.err" "/a/eplusout.err.diff" s')
    = Ok EQUAL
  <-> snd (diff_text_files "/a/eplusout.err" "/b/eplusout.err" "/a/eplusout.err.diff" s)
    = Ok EQUAL.
Proof.
  intros s s'.
  apply (diff_text_files_ignores_volatile_line MemFS.ext
           "/a/eplusout.err" "/b/eplusout.err" "/a/eplusout.err.diff" s s'
           [] [" Processing"] [" Processing"]
           "Program Version,EnergyPlus 9.2
" "Program Version,EnergyPlus").
  - simpl. auto.
  - reflexivity.
  - reflexivity.
  - reflexivity.
  - reflexivity.
  - reflexivity.
Defined.

(* ================================================================= *)
(** ** A crashed case *)

Lemma process_end_contents_not_missing (raw : string) (st : Status) (t : Q) :
  process_end_contents raw = Ok (st, t) -> st <> STATUS_MISSING.
Proof.
  unfold process_end_contents.
  destruct (PyStr.contains "Successfully" _).
  - destruct (parse_runtime _); simpl; intros H; inversion H; discriminate.
  - destruct (PyStr.contains "Fatal" _).
    + destruct (parse_runtime _); simpl; intros H; inversion H; discriminate.
    + intros H. inversion H. discriminate.
Qed.

(** What reading the end status of a result directory leaves behind:
    the world and the trace as they were, and MISSING exactly for an absent
    end file. *)
Lemma read_end_status_run (E : Ext) dir (s s' : St E) st t :
  read_end_status dir s = (s', Ok (st, t)) ->
  world s' = world s /\ events s' = events s
  /\ (st = STATUS_MISSING
      <-> os_path_exists E (join dir "eplusout.end") (world s) = false)
  /\ (st = STATUS_MISSING -> t = 0%Q).
Proof.
  unfold read_end_status, process_end_file, bind, ask, ask_result, lift_result, ret.
  cbn [world clock events].
  destruct (os_path_exists E (join dir "eplusout.end") (world s)) eqn:Hex.
  - cbn [world clock events].
    destruct (read_text E (join dir "eplusout.end") (world s)) as [raw|x];
      [|intros H; discriminate].
    intros H. injection H as <- Hr. cbn [world events].
    pose proof (process_end_contents_not_missing _ _ _ Hr) as Hn.
    repeat split; try reflexivity; try (intros; congruence).
  - intros H. injection H as <- <- <-. cbn [world events].
    repeat split; reflexivity.
Qed.

(** X4.  A case counts as crashed in a build exactly when that build's
    run directory holds no end file.  When this is so on either side, the
    case gets its end summary and one printed line and nothing else: no
    threshold file is read and no diff is made. *)
Theorem crash_is_missing_end_file
    (E : Ext) (self : SuiteRunner) (e : TestEntry) (s s1 s2 : St E)
    (a : Status) (ra : Q) (b : Status) (rb : Q)
    (Ha : read_end_status (test_run_directory_of self (build_tree_a self) e) s
          = (s1, Ok (a, ra)))
    (Hb : read_end_status (test_run_directory_of self (build_tree_b self) e) s1
          = (s2, Ok (b, rb))) :
  (a = STATUS_MISSING
   <-> os_path_exists E
         (join (test_run_directory_of self (build_tree_a self) e) "eplusout.end")
         (world s) = false)
  /\ (b = STATUS_MISSING
      <-> os_path_exists E
            (join (test_run_directory_of self (build_tree_b self) e) "eplusout.end")
            (world s) = false)
  /\ (a = STATUS_MISSING \/ b = STATUS_MISSING ->
      exists s' : St E,
        process_diffs_for_one_case self false (e, s)
        = ((add_summary_result (summary_of a ra b rb) e, s'), Ok tt)
        /\ world s' = world s
        /\ trace s'
           = trace s
             ++ [Print (decision_message
                          (if Status_eqb a STATUS_MISSING && Status_eqb b STATUS_MISSING
                           then SKIP_BOTH_MISSING else SKIP_ONE_MISSING)
                          (basename e))]).
Proof.
  destruct (read_end_status_run E _ _ _ _ _ Ha) as [Hw1 [He1 [Hm1 _]]].
  destruct (read_end_status_run E _ _ _ _ _ Hb) as [Hw2 [He2 [Hm2 _]]].
  split; [exact Hm1|]. split; [rewrite <- Hw1; exact Hm2|].
  intros Hmiss.
  exists (after_emit
            (Print (decision_message
                      (if Status_eqb a STATUS_MISSING && Status_eqb b STATUS_MISSING
                       then SKIP_BOTH_MISSING else SKIP_ONE_MISSING) (basename e))) s2).
  split; [|split].
  - unfold process_diffs_for_one_case, test_run_directory_of in *.
    unfold bind at 1. unfold get_entry at 1. cbn [fst].
    unfold bind at 1. unfold on_st at 1. cbn [fst snd]. rewrite Ha.
    unfold bind at 1. unfold on_st at 1. cbn [fst snd]. rewrite Hb.
    cbv beta iota zeta delta [process_diffs_with_statuses bind get_entry fst snd].
    assert (Hg : (String.eqb (basename e) "EMSTestMathAndKill"
                  && (Status_eqb a STATUS_FATAL && Status_eqb b STATUS_FATAL))
                 = false).
    { destruct Hmiss as [-> | ->]; simpl;
        [apply andb_false_r | rewrite !andb_false_r; reflexivity]. }
    rewrite Hg.
    destruct Hmiss as [-> | ->]; [destruct b | destruct a]; reflexivity.
  - unfold after_emit. cbn [world]. congruence.
  - rewrite trace_after_emit. unfold trace. rewrite He2, He1. reflexivity.
Qed.

Lemma crash_is_missing_end_file_witness :
  exists s' : St MemFS.ext,
    process_diffs_for_one_case MemFS.runner false
      (new_TestEntry "Fmu" None, initial_state (E := MemFS.ext) MemFS.disk)
    = ((add_summary_result
          (summary_of STATUS_MISSING 0%Q STATUS_MISSING 0%Q) (new_TestEntry "Fmu" None),
        s'), Ok tt)
    /\ world s' = MemFS.disk
    /\ trace s'
       = [Print "Skipping entry because it failed (crashed) in both base and mod cases: Fmu"].
Proof.
  apply (crash_is_missing_end_file MemFS.ext MemFS.runner (new_TestEntry "Fmu" None)
           (initial_state (E := MemFS.ext) MemFS.disk)
           (after_asks 1 (initial_state (E := MemFS.ext) MemFS.disk))
           (after_asks 2 (initial_state (E := MemFS.ext) MemFS.disk))
           STATUS_MISSING 0%Q STATUS_MISSING 0%Q).
  - reflexivity.
  - reflexivity.
  - left. reflexivity.
Defined.

(* ================================================================= *)
(** ** The order of the diff calls of a case *)

(** One block: nothing when the artifact is missing on a side; else the
    call, and with it one record of the kind, or the exception of the call
    and no record. *)
Lemma diff_block_run (E : Ext) td d1 d2 out k (e : TestEntry) (s : St E) :
  exists e' s' r,
    diff_block td d1 d2 out k (e, s) = ((e', s'), r)
    /\ ((r = Ok tt /\ e' = e /\ trace s' = trace s)
        \/ (trace s' = trace s ++ [diff_call_of d1 d2 k]
            /\ ((r = Ok tt
                 /\ forall k', records_of_kind k' e'
                               = records_of_kind k' e
                                 + (if FileKind_eqb k' k then 1 else 0))
                \/ (exists x, r = Raise x) /\ e' = e))).
Proof.
  destruct (os_path_exists E (join d1 (file_of_kind k)) (world s)
            && os_path_exists E (join d2 (file_of_kind k)) (world s)) eqn:Hex.
  - apply andb_true_iff in Hex. destruct Hex as [Ha Hb].
    destruct (both_files_exist_run E d1 d2 (file_of_kind k) s) as [n Hn].
    rewrite Ha, Hb in Hn. simpl in Hn. unfold diff_call_of.
    destruct k as [m| |t].
    + unfold diff_block, math_block.
      unfold bind at 1; unfold on_st at 1; simpl snd. rewrite Hn. simpl fst.
      unfold bind at 1. unfold on_st at 1. simpl.
      unfold bind at 1. unfold on_st at 1. unfold call. simpl.
      destruct (math_diff E td _ _ _ _ _ _ (world s)) as [w [sev|x]]; simpl.
      * do 3 eexists. split; [reflexivity|]. right. split.
        -- unfold trace. simpl. rewrite map_app. reflexivity.
        -- left. split; [reflexivity|]. intros k'. apply records_add_math.
      * do 3 eexists. split; [reflexivity|]. right. split.
        -- unfold trace. simpl. rewrite map_app. reflexivity.
        -- right. split; [exists x; reflexivity|reflexivity].
    + unfold diff_block, table_block.
      unfold bind at 1; unfold on_st at 1; simpl snd.
      unfold table_file. simpl file_of_kind in Hn. rewrite Hn. simpl fst.
      unfold bind at 1. unfold on_st at 1. simpl.
      unfold bind at 1. unfold on_st at 1. unfold call. simpl.
      destruct (table_diff E td _ _ _ _ _ _ (world s)) as [w [sev|x]]; simpl.
      * do 3 eexists. split; [reflexivity|]. right. split.
        -- unfold trace. simpl. rewrite map_app. reflexivity.
        -- left. split; [reflexivity|]. intros k'. apply records_add_table.
      * do 3 eexists. split; [reflexivity|]. right. split.
        -- unfold trace. simpl. rewrite map_app. reflexivity.
        -- right. split; [exists x; reflexivity|reflexivity].
    + unfold diff_block, text_block.
      unfold bind at 1; unfold on_st at 1; simpl snd. rewrite Hn. simpl fst.
      unfold bind at 1. unfold on_st at 1. simpl.
      unfold bind at 1. unfold on_st at 1. simpl snd. simpl fst.
      match goal with
      | |- context [diff_text_files ?a ?b ?d ?st] =>
          destruct (diff_text_files a b d st) as [s1 [o|x]] eqn:Hd;
          pose proof (silent_trace _ _ _ _ (diff_text_files_silent E a b d) Hd) as Ht
      end; unfold bind, update_entry; simpl.
      * do 3 eexists. split; [reflexivity|]. right. split.
        -- rewrite Ht. unfold trace. simpl. rewrite map_app. reflexivity.
        -- left. split; [reflexivity|]. intros k'. apply records_add_text.
      * do 3 eexists. split; [reflexivity|]. right. split.
        -- rewrite Ht. unfold trace. simpl. rewrite map_app. reflexivity.
        -- right. split; [exists x; reflexivity|reflexivity].
  - destruct (diff_block_absent E td d1 d2 out k e s Hex) as [s' [H [Ht _]]].
    exists e, s', (Ok tt). split; [exact H|]. left. auto.
Qed.

Lemma subsequence_refl_nil {A} (l : list A) : subsequence [] l.
Proof. induction l; constructor; assumption. Qed.

(** The blocks of a list of kinds, one after the other. *)
Lemma diff_blocks_run (E : Ext) td d1 d2 out (l : list FileKind) :
  forall (e : TestEntry) (s : St E),
  exists e' s' r called done,
    for_each l (diff_block td d1 d2 out) (e, s) = ((e', s'), r)
    /\ subsequence called l
    /\ trace s' = trace s ++ map (diff_call_of d1 d2) called
    /\ ((r = Ok tt /\ done = called)
        \/ (exists x k, r = Raise x /\ called = done ++ [k]))
    /\ forall k, records_of_kind k e' = records_of_kind k e + occurrences k done.
Proof.
  induction l as [|k l IH]; intros e s.
  - exists e, s, (Ok tt), [], []. simpl.
    split; [reflexivity|]. split; [constructor|].
    split; [rewrite app_nil_r; reflexivity|].
    split; [left; auto|]. intros k. unfold occurrences. simpl. lia.
  - destruct (diff_block_run E td d1 d2 out k e s) as [e1 [s1 [r1 [Hrun Hcases]]]].
    cbn [for_each]. unfold bind at 1. rewrite Hrun.
    destruct Hcases as [[-> [-> Ht]] | [Ht [[-> Hrec] | [[x ->] ->]]]].
    + destruct (IH e s1) as [e' [s' [r [called [done [H [Hsub [Htr [Hr Hrec]]]]]]]]].
      exists e', s', r, called, done.
      split; [exact H|]. split; [constructor; exact Hsub|].
      split; [rewrite Htr, Ht; reflexivity|]. split; [exact Hr|exact Hrec].
    + destruct (IH e1 s1) as [e' [s' [r [called [done [H [Hsub [Htr [Hr Hrec']]]]]]]]].
      exists e', s', r, (k :: called), (k :: done).
      split; [exact H|]. split; [constructor; exact Hsub|].
      split; [rewrite Htr, Ht, <- app_assoc; reflexivity|].
      split.
      * destruct Hr as [[-> ->] | [x [kf [-> ->]]]]; [left; auto|].
        right. exists x, kf. auto.
      * intros k'. rewrite Hrec', Hrec. unfold occurrences. simpl.
        destruct (FileKind_eqb k' k); simpl; lia.
    + exists e, s1, (Raise x), [k], [].
      split; [reflexivity|]. split; [constructor; apply subsequence_refl_nil|].
      split; [exact Ht|]. split; [right; exists x, k; auto|].
      intros k'. unfold occurrences. simpl. lia.
Qed.

(** X5.  The diff calls of a case are made in the fixed order of the
    artifact kinds, each on the two files of that kind, and every call that
    returns leaves exactly one record of its kind: the case ends with one
    record per call made, or, when a call raises, with one per call before
    it, the failing call being the last. *)
Theorem diff_calls_in_fixed_order
    (E : Ext) (td : ThreshDict E) (d1 d2 out : string)
    (e e' : TestEntry) (s s' : St E) (r : Result unit)
    (H : dispatch_diffs td d1 d2 out (e, s) = ((e', s'), r)) :
  exists called done : list FileKind,
    subsequence called all_kinds
    /\ trace s' = trace s ++ map (diff_call_of d1 d2) called
    /\ ((r = Ok tt /\ done = called)
        \/ (exists x k, r = Raise x /\ called = done ++ [k]))
    /\ forall k, records_of_kind k e' = records_of_kind k e + occurrences k done.
Proof.
  rewrite dispatch_diffs_blocks in H.
  destruct (diff_blocks_run E td d1 d2 out all_kinds e s)
    as [e1 [s1 [r1 [called [done [H1 Hrest]]]]]].
  rewrite H in H1. injection H1 as <- <- <-.
  exists called, done. exact Hrest.
Qed.

Lemma diff_calls_in_fixed_order_witness :
  exists called done : list FileKind,
    subsequence called all_kinds
    /\ trace (snd (fst (dispatch_diffs (E := MemFS.ext) tt "/a/Tests/Case"
                          "/b/Tests/Case" "/a/Tests/Case"
                          (new_TestEntry "Case" None,
                           initial_state (E := MemFS.ext) MemFS.diff_disk))))
       = [] ++ map (diff_call_of "/a/Tests/Case" "/b/Tests/Case") called
    /\ (((Raise (OtherError "bad csv header") : Result unit) = Ok tt
         /\ done = called)
        \/ (exists x k, (Raise (OtherError "bad csv header") : Result unit) = Raise x
                        /\ called = done ++ [k]))
    /\ forall k,
         records_of_kind k
           (fst (fst (dispatch_diffs (E := MemFS.ext) tt "/a/Tests/Case"
                        "/b/Tests/Case" "/a/Tests/Case"
                        (new_TestEntry "Case" None,
                         initial_state (E := MemFS.ext) MemFS.diff_disk))))
         = records_of_kind k (new_TestEntry "Case" None) + occurrences k done.
Proof.
  apply (diff_calls_in_fixed_order MemFS.ext tt "/a/Tests/Case" "/b/Tests/Case"
           "/a/Tests/Case" (new_TestEntry "Case" None) _
           (initial_state (E := MemFS.ext) MemFS.diff_disk) _
           (Raise (OtherError "bad csv header"))).
  vm_compute. reflexivity.
Defined.

(* ================================================================= *)
(** ** The job of an entry *)

(** What [stage_rest] returns, and what it prints on the way. *)
Lemma stage_rest_run
    (E : Ext) (self : SuiteRunner) (build_tree : BuildTree)
    (this_entry : TestEntry) (test_run_directory : string)
    (parametric_file : bool) (s s' : St E) (task : Task)
    (H : stage_rest self build_tree this_entry test_run_directory parametric_file s
         = (s', Ok task)) :
  let default_epw :=
    join3 (source_dir build_tree) "weather" default_weather_filename in
  task_build_tree task = build_tree
  /\ task_basename task = basename this_entry
  /\ task_run_directory task = test_run_directory
  /\ task_run_type task = force_run_type self
  /\ task_reporting_freq task = min_reporting_freq self
  /\ task_parametric task = parametric_file
  /\ match epw_given this_entry with
     | Some w =>
         let epw_path := join (weather_dir build_tree) (w ++ ".epw") in
         if os_path_exists E epw_path (world s')
         then task_epw_path task = epw_path /\ trace s' = trace s
         else task_epw_path task = default_epw
              /\ trace s'
                 = trace s
                   ++ [Print ("For case " ++ basename this_entry
                              ++ ", weather file did not exist at " ++ epw_path
                              ++ ", using a default one!")]
     | None => task_epw_path task = default_epw /\ trace s' = trace s
     end.
Proof.
  intros default_epw. revert H. unfold stage_rest.
  unfold bind at 1. unfold ask at 1.
  set (s1 := {| world := world s; clock := S (clock s); events := events s |}).
  assert (Hs1 : events s1 = events s) by reflexivity.
  clearbody s1.
  unfold bind at 1.
  match goal with
  | |- context [(if ?b then call ?f else ret tt) s1] =>
      destruct ((if b then call f else ret tt) s1) as [s2 [[]|x]] eqn:H2;
      [|intros H; discriminate];
      assert (Hs2 : events s2 = events s1)
        by (destruct b; [exact (silent_call f _ _ _ H2)
                        | injection H2 as <-; reflexivity])
  end.
  unfold bind at 1. unfold ask at 1.
  set (s3 := {| world := world s2; clock := S (clock s2); events := events s2 |}).
  assert (Hs3 : events s3 = events s2) by reflexivity.
  clearbody s3.
  unfold bind at 1.
  match goal with
  | |- context [(if ?b then call ?f else ret tt) s3] =>
      destruct ((if b then call f else ret tt) s3) as [s4 [[]|x]] eqn:H4;
      [|intros H; discriminate];
      assert (Hs4 : events s4 = events s3)
        by (destruct b; [exact (silent_call f _ _ _ H4)
                        | injection H4 as <-; reflexivity])
  end.
  assert (Hev : events s4 = events s) by congruence.
  clear H2 H4 Hs1 Hs2 Hs3 Hs4.
  unfold bind at 1.
  destruct (epw_given this_entry) as [w|].
  - unfold bind at 1. unfold ask at 1. cbn [world clock events].
    destruct (os_path_exists E (join (weather_dir build_tree) (w ++ ".epw"))
                (world s4)) eqn:Hex.
    + unfold ret. intros H. injection H as <- <-. cbn [world].
      rewrite Hex. cbn. unfold trace. cbn [events]. rewrite Hev. auto 10.
    + unfold bind, my_print, emit, ret. cbn [world clock events].
      intros H. injection H as <- <-. cbn [world].
      rewrite Hex. cbn [task_build_tree task_basename task_run_directory
                          task_run_type task_reporting_freq task_parametric
                          task_epw_path].
      unfold trace. cbn [events]. rewrite Hev, map_app. auto 10.
  - unfold ret. intros H. injection H as <- <-. cbn.
    unfold trace. rewrite Hev. auto 10.
Qed.

(** X6.  The job made for an entry carries the entry's name, the run
    directory, the run type and the reporting frequency of the suite.  Its
    weather file is the entry's own, under the weather directory of the build,
    when the entry names one and that file exists; else it is the default one
    of the source tree, and an entry naming a weather file that does not exist
    is reported by one printed line. *)
Theorem job_weather_file
    (E : Ext) (self : SuiteRunner) (build_tree : BuildTree)
    (this_entry : TestEntry) (test_run_directory : string)
    (parametric_file : bool) (s s' : St E) (task : Task)
    (H : stage_rest self build_tree this_entry test_run_directory parametric_file s
         = (s', Ok task)) :
  let default_epw :=
    join3 (source_dir build_tree) "weather" default_weather_filename in
  task_build_tree task = build_tree
  /\ task_basename task = basename this_entry
  /\ task_run_directory task = test_run_directory
  /\ task_run_type task = force_run_type self
  /\ task_reporting_freq task = min_reporting_freq self
  /\ task_parametric task = parametric_file
  /\ match epw_given this_entry with
     | Some w =>
         let epw_path := join (weather_dir build_tree) (w ++ ".epw") in
         if os_path_exists E epw_path (world s')
         then task_epw_path task = epw_path /\ trace s' = trace s
         else task_epw_path task = default_epw
              /\ trace s'
                 = trace s
                   ++ [Print ("For case " ++ basename this_entry
                              ++ ", weather file did not exist at " ++ epw_path
                              ++ ", using a default one!")]
     | None => task_epw_path task = default_epw /\ trace s' = trace s
     end.
Proof.
  exact (stage_rest_run E self build_tree this_entry test_run_directory
           parametric_file s s' task H).
Qed.

Lemma job_weather_file_witness :
  let this_entry := new_TestEntry "SimpleTest" (Some "Denver") in
  let s := initial_state (E := MemFS.ext) MemFS.disk in
  let out := stage_rest MemFS.runner (MemFS.tree "/a") this_entry
               "/a/Tests/SimpleTest" false s in
  exists task,
    snd out = Ok task
    /\ task_epw_path task
       = "/src/weather/USA_IL_Chicago-OHare.Intl.AP.725300_TMY3.epw"
    /\ trace (fst out)
       = [Print "For case SimpleTest, weather file did not exist at /weather/Denver.epw, using a default one!"].
Proof.
  intros this_entry s out.
  exists {| task_build_tree := MemFS.tree "/a";
            task_basename := "SimpleTest";
            task_run_directory := "/a/Tests/SimpleTest";
            task_run_type := NONE;
            task_reporting_freq := "Hourly";
            task_parametric := false;
            task_epw_path :=
              "/src/weather/USA_IL_Chicago-OHare.Intl.AP.725300_TMY3.epw" |}.
  split; [reflexivity|].
  refine (proj2 (proj2 (proj2 (proj2 (proj2 (proj2
            (job_weather_file MemFS.ext MemFS.runner (MemFS.tree "/a") this_entry
               "/a/Tests/SimpleTest" false s (fst out) _ _))))))).
  reflexivity.
Defined.

(* ================================================================= *)
(** ** The job list of a build *)

Lemma count_of_app f (a b : list (nat * Event)) :
  count_of f (a ++ b) = count_of f a + count_of f b.
Proof. unfold count_of. rewrite map_app, filter_app, length_app. reflexivity. Qed.

Lemma count_of_printed f (evs : list (nat * Event)) :
  (forall ev, is_print ev = true -> f ev = false) ->
  Forall printed evs -> count_of f evs = 0.
Proof.
  intros Hf H. induction H as [|[t ev] evs Hp _ IH]; [reflexivity|].
  unfold count_of in *. simpl. rewrite (Hf ev Hp). exact IH.
Qed.

Lemma printed_is_print_or_failed (evs : list (nat * Event)) :
  Forall printed evs -> Forall (fun te => is_print_or_failed (snd te) = true) evs.
Proof.
  apply Forall_impl. intros [t ev]. unfold printed. simpl.
  destruct ev; simpl; intros H; try discriminate; reflexivity.
Qed.

Lemma stage_idf_prints (E : Ext) self bt e dir idf_path :
  emits (E := E) printed (stage_idf self bt e dir idf_path).
Proof.
  unfold stage_idf, my_print.
  apply emits_bind; [apply emits_silent, silent_call|intros _].
  apply emits_bind; [apply emits_silent, silent_ask_result|intros text].
  apply emits_bind; [apply emits_silent, stage_datasets_silent|intros text'].
  repeat emits_step.
Qed.

Lemma stage_imf_silent (E : Ext) self bt e imf_path :
  silent (E := E) (stage_imf self bt e imf_path).
Proof. unfold stage_imf. repeat silent_step. Qed.

Lemma stage_rest_prints (E : Ext) self bt e dir p :
  emits (E := E) printed (stage_rest self bt e dir p).
Proof.
  unfold stage_rest, my_print.
  apply emits_bind; [apply emits_silent, silent_ask|intros ?].
  apply emits_bind; [apply emits_silent; repeat silent_step|intros _].
  apply emits_bind; [apply emits_silent, silent_ask|intros ?].
  apply emits_bind; [apply emits_silent; repeat silent_step|intros _].
  apply emits_bind; [|intros ?; apply emits_ret].
  destruct (epw_given e); repeat emits_step.
Qed.

Lemma stage_rest_job (E : Ext) self bt e p (s s' : St E) task :
  stage_rest self bt e (test_run_directory_of self bt e) p s = (s', Ok task) ->
  job_of self bt e task.
Proof.
  intros H. pose proof (stage_rest_run E _ _ _ _ _ _ _ _ H) as Hr.
  cbv zeta in Hr. unfold job_of, test_run_directory_of in *. tauto.
Qed.

(** The turn of one entry: a job with printed lines only, or no job;
    the turn of an entry whose input is missing ends with the notification of
    a failed case. *)
Lemma stage_entry_run (E : Ext) self bt e (s s' : St E) r :
  stage_entry self bt e s = (s', r) ->
  exists evs,
    events s' = events s ++ evs
    /\ ((Forall printed evs /\ forall task, r = Ok (Some task) -> job_of self bt e task)
        \/ (r = Ok None
            /\ exists l1 l2 l3 c,
                 map snd evs = [Print l1; Print l2; Print l3; CaseCompleted c]
                 /\ run_success c = false /\ case_name c = basename e)).
Proof.
  unfold stage_entry. unfold bind at 1.
  destruct (fresh_run_directory (test_run_directory_of self bt e) s)
    as [s1 [[]|x]] eqn:Hf;
    pose proof (fresh_run_directory_silent _ _ _ _ _ Hf) as He1.
  2:{ intros H. injection H as <- <-. exists []. rewrite app_nil_r.
      split; [exact He1|]. left. split; [constructor|intros t Ht; discriminate]. }
  unfold bind at 1. unfold ask at 1.
  set (s2 := {| world := world s1; clock := S (clock s1); events := events s1 |}).
  assert (He2 : events s2 = events s) by exact He1.
  destruct (os_path_exists E (idf_base_of bt e ++ ".idf") (world s1)).
  - unfold bind at 1.
    destruct (stage_idf self bt e (test_run_directory_of self bt e)
                (idf_base_of bt e ++ ".idf") s2) as [s3 [[p|]|x]] eqn:Hidf;
      destruct (stage_idf_prints E _ _ _ _ _ _ _ _ Hidf) as [evs1 [He3 Hp3]].
    + unfold bind at 1.
      destruct (stage_rest self bt e (test_run_directory_of self bt e) p s3)
        as [s4 [task|x]] eqn:Hrest;
        destruct (stage_rest_prints E _ _ _ _ _ _ _ _ Hrest) as [evs2 [He4 Hp4]];
        intros H; injection H as <- <-; exists (evs1 ++ evs2);
        (split; [rewrite He4, He3, He2, app_assoc; reflexivity|]);
        left; (split; [apply Forall_app; split; assumption|]).
      * intros t Ht. injection Ht as <-. exact (stage_rest_job E _ _ _ _ _ _ _ Hrest).
      * intros t Ht. discriminate.
    + intros H. injection H as <- <-. exists evs1.
      split; [rewrite He3, He2; reflexivity|].
      left. split; [exact Hp3|intros t Ht; discriminate].
    + intros H. injection H as <- <-. exists evs1.
      split; [rewrite He3, He2; reflexivity|].
      left. split; [exact Hp3|intros t Ht; discriminate].
  - unfold bind at 1. unfold bind at 1. unfold ask at 1.
    set (s3 := {| world := world s2; clock := S (clock s2); events := events s2 |}).
    assert (He3 : events s3 = events s) by exact He2.
    destruct (os_path_exists E (idf_base_of bt e ++ ".imf") (world s2)).
    + unfold bind at 1.
      destruct (stage_imf self bt e (idf_base_of bt e ++ ".imf") s3)
        as [s4 [[]|x]] eqn:Himf;
        pose proof (stage_imf_silent E _ _ _ _ _ _ _ Himf) as He4.
      * unfold ret at 1. unfold bind at 1.
        destruct (stage_rest self bt e (test_run_directory_of self bt e) false s4)
          as [s5 [task|x]] eqn:Hrest;
          destruct (stage_rest_prints E _ _ _ _ _ _ _ _ Hrest) as [evs2 [He5 Hp5]];
          intros H; injection H as <- <-; exists evs2;
          (split; [rewrite He5, He4, He3; reflexivity|]);
          left; (split; [exact Hp5|]).
        -- intros t Ht. injection Ht as <-.
           exact (stage_rest_job E _ _ _ _ _ _ _ Hrest).
        -- intros t Ht. discriminate.
      * intros H. injection H as <- <-. exists []. rewrite app_nil_r.
        split; [rewrite He4, He3; reflexivity|].
        left. split; [constructor|intros t Ht; discriminate].
    + unfold stage_missing, my_print, my_casecompleted.
      repeat (unfold bind at 1; rewrite emit_run).
      unfold bind, ret. intros H. injection H as <- <-.
      eexists. split.
      * unfold after_emit. subst s3 s2. cbn [events clock world]. rewrite He1.
        rewrite <- !app_assoc. reflexivity.
      * right. split; [reflexivity|].
        do 4 eexists. split; [reflexivity|]. split; reflexivity.
Qed.

(** what a result of the staging adds to the job list *)
Lemma stage_entries_run (E : Ext) self bt entries :
  forall (s s' : St E) r,
  stage_entries self bt entries s = (s', r) ->
  exists evs,
    events s' = events s ++ evs
    /\ Forall (fun te => is_print_or_failed (snd te) = true) evs
    /\ count_of is_case_completed evs
       + match r with Ok tasks => List.length tasks | Raise _ => 0 end
       <= List.length entries
    /\ forall tasks, r = Ok tasks ->
       exists kept, subsequence kept entries /\ Forall2 (job_of self bt) kept tasks.
Proof.
  induction entries as [|e entries IH]; intros s s' r.
  - simpl. unfold ret. intros H. injection H as <- <-.
    exists []. rewrite app_nil_r. split; [reflexivity|]. split; [constructor|].
    split; [simpl; lia|]. intros tasks Ht. injection Ht as <-.
    exists []. split; constructor.
  - cbn [stage_entries]. unfold bind at 1.
    destruct (stage_entry self bt e s) as [s1 [job|x]] eqn:H1;
      destruct (stage_entry_run E _ _ _ _ _ _ H1) as [evs1 [He1 Hc1]].
    2:{ intros H. injection H as <- <-. exists evs1. split; [exact He1|].
        destruct Hc1 as [[Hp _]|[Hr _]]; [|discriminate].
        split; [apply printed_is_print_or_failed; exact Hp|].
        split; [|intros t Ht; discriminate].
        rewrite (count_of_printed is_case_completed evs1); [simpl; lia| |exact Hp].
        intros ev; destruct ev; simpl; intros; try discriminate; reflexivity. }
    unfold bind at 1.
    destruct (stage_entries self bt entries s1) as [s2 [tasks|x]] eqn:H2;
      destruct (IH _ _ _ H2) as [evs2 [He2 [Hf2 [Hn2 Hk2]]]].
    + unfold ret. intros H. injection H as <- <-.
      exists (evs1 ++ evs2). split; [rewrite He2, He1, app_assoc; reflexivity|].
      destruct (Hk2 tasks eq_refl) as [kept [Hsub Hjobs]].
      destruct Hc1 as [[Hp Hjob]|[Hr [l1 [l2 [l3 [c [Hm [Hc _]]]]]]]].
      * split; [apply Forall_app; split;
                [apply printed_is_print_or_failed; exact Hp|exact Hf2]|].
        rewrite count_of_app.
        rewrite (count_of_printed is_case_completed evs1);
          [| intros ev; destruct ev; simpl; intros; try discriminate; reflexivity
           | exact Hp].
        split.
        -- destruct job; simpl in *; lia.
        -- intros ts Hts. injection Hts as <-. destruct job as [task|].
           ++ exists (e :: kept).
              split; [constructor; exact Hsub|].
              constructor; [apply Hjob; reflexivity|exact Hjobs].
           ++ exists kept. split; [constructor; exact Hsub|exact Hjobs].
      * injection Hr as ->.
        assert (Hcount : count_of is_case_completed evs1 = 1)
          by (unfold count_of; rewrite Hm; reflexivity).
        split.
        -- apply Forall_app. split; [|exact Hf2].
           apply Forall_forall. intros te Hin.
           apply (in_map snd) in Hin. rewrite Hm in Hin. simpl in Hin.
           destruct Hin as [<-|[<-|[<-|[<-|[]]]]]; simpl; try reflexivity.
           rewrite Hc. reflexivity.
        -- rewrite count_of_app, Hcount. split; [simpl in *; lia|].
           intros ts Hts. injection Hts as <-.
           exists kept. split; [constructor; exact Hsub|exact Hjobs].
    + intros H. injection H as <- <-.
      exists (evs1 ++ evs2). split; [rewrite He2, He1, app_assoc; reflexivity|].
      split; [|split; [|intros t Ht; discriminate]].
      * apply Forall_app. split; [|exact Hf2].
        destruct Hc1 as [[Hp _]|[_ [l1 [l2 [l3 [c [Hm [Hc _]]]]]]]];
          [apply printed_is_print_or_failed; exact Hp|].
        apply Forall_forall. intros te Hin.
        apply (in_map snd) in Hin. rewrite Hm in Hin. simpl in Hin.
        destruct Hin as [<-|[<-|[<-|[<-|[]]]]]; simpl; try reflexivity.
        rewrite Hc. reflexivity.
      * rewrite count_of_app.
        assert (count_of is_case_completed evs1 <= 1).
        { destruct Hc1 as [[Hp _]|[_ [l1 [l2 [l3 [c [Hm _]]]]]]].
          - rewrite (count_of_printed is_case_completed evs1); [lia| |exact Hp].
            intros ev; destruct ev; simpl; intros; try discriminate; reflexivity.
          - unfold count_of. rewrite Hm. simpl. lia. }
        simpl in *. lia.
Qed.

(** X7.  The job list of a build follows the list of entries: its jobs
    are those of the entries that were not skipped, in the order of the
    entries, each with the entry's name, its run directory under the build and
    the run type and reporting frequency of the suite.  While the list is made
    only lines are printed and failed cases notified, and the failed cases and
    the jobs together are no more than the entries. *)
Theorem job_list_follows_entries
    (E : Ext) (self : SuiteRunner) (build_tree : BuildTree)
    (entries : list TestEntry) (s s' : St E) (energy_plus_runs : list Task)
    (H : stage_entries self build_tree entries s = (s', Ok energy_plus_runs)) :
  exists (kept : list TestEntry) (evs : list (nat * Event)),
    subsequence kept entries
    /\ Forall2 (job_of self build_tree) kept energy_plus_runs
    /\ events s' = events s ++ evs
    /\ Forall (fun te => is_print_or_failed (snd te) = true) evs
    /\ count_of is_case_completed evs + List.length energy_plus_runs
       <= List.length entries.
Proof.
  destruct (stage_entries_run E self build_tree entries s s' _ H)
    as [evs [He [Hf [Hn Hk]]]].
  destruct (Hk energy_plus_runs eq_refl) as [kept [Hsub Hjobs]].
  exists kept, evs. auto.
Qed.

Lemma job_list_follows_entries_witness :
  let entries := [ new_TestEntry "SimpleTest" None; new_TestEntry "Fmu" None;
                   new_TestEntry "Absent" None ] in
  let energy_plus_runs :=
    [ {| task_build_tree := MemFS.tree "/a";
         task_basename := "SimpleTest";
         task_run_directory := "/a/Tests/SimpleTest";
         task_run_type := NONE;
         task_reporting_freq := "Hourly";
         task_parametric := false;
         task_epw_path :=
           "/src/weather/USA_IL_Chicago-OHare.Intl.AP.725300_TMY3.epw" |} ] in
  let out := stage_entries MemFS.runner (MemFS.tree "/a") entries
               (initial_state (E := MemFS.ext) MemFS.disk) in
  exists (kept : list TestEntry) (evs : list (nat * Event)),
    subsequence kept entries
    /\ Forall2 (job_of MemFS.runner (MemFS.tree "/a")) kept energy_plus_runs
    /\ events (fst out) = [] ++ evs
    /\ Forall (fun te => is_print_or_failed (snd te) = true) evs
    /\ count_of is_case_completed evs + 1 <= 3.
Proof.
  intros entries energy_plus_runs out.
  apply (job_list_follows_entries MemFS.ext MemFS.runner (MemFS.tree "/a") entries
           (initial_state (E := MemFS.ext) MemFS.disk) (fst out) energy_plus_runs).
  vm_compute. reflexivity.
Defined.

(* ================================================================= *)
(** ** The simulations of a build, one after the other *)

Lemma run_in_process_run (E : Ext) interrupt_at energy_plus_runs :
  forall (s s' : St E) r,
  run_in_process interrupt_at energy_plus_runs s = (s', r) ->
  exists (runs : list (Task * TestCaseCompleted)) (tail : list Event)
         (evs : list (nat * Event)),
    events s' = events s ++ evs
    /\ map snd evs = flat_map events_of_run runs ++ tail
    /\ ((r = Ok tt /\ tail = []
         /\ exists rest, energy_plus_runs = map fst runs ++ rest
                         /\ (rest <> [] -> flag_at interrupt_at (clock s') = true))
        \/ (exists x task rest,
              r = Raise x /\ tail = [Executed task]
              /\ energy_plus_runs = map fst runs ++ task :: rest)).
Proof.
  induction energy_plus_runs as [|task tasks IH]; intros s s' r.
  - simpl. unfold ret. intros H. injection H as <- <-.
    exists [], [], []. rewrite app_nil_r. split; [reflexivity|].
    split; [reflexivity|]. left. split; [reflexivity|]. split; [reflexivity|].
    exists []. split; [reflexivity|]. intros Hn. contradiction.
  - cbn [run_in_process]. unfold bind at 1. unfold id_like_to_stop_now at 1.
    destruct (flag_at interrupt_at (clock s)) eqn:Hflag.
    + unfold ret. intros H. injection H as <- <-.
      exists [], [], []. rewrite app_nil_r. split; [reflexivity|].
      split; [reflexivity|]. left. split; [reflexivity|]. split; [reflexivity|].
      exists (task :: tasks). split; [reflexivity|]. intros _. exact Hflag.
    + unfold bind at 1. rewrite emit_run. unfold bind at 1.
      destruct (call (execute_energyplus E task) (after_emit (Executed task) s))
        as [s2 [c|x]] eqn:Hc;
        pose proof (silent_call _ _ _ _ Hc) as He2.
      * unfold bind at 1. unfold my_casecompleted. rewrite emit_run.
        intros H.
        destruct (IH _ _ _ H) as [runs [tail [evs [He [Hm Hr]]]]].
        exists ((task, c) :: runs), tail,
               ((clock s, Executed task) :: (clock s2, CaseCompleted c) :: evs).
        split.
        -- rewrite He. unfold after_emit at 1. cbn [events]. rewrite He2.
           unfold after_emit. cbn [events]. rewrite <- !app_assoc. reflexivity.
        -- split; [cbn [map snd flat_map events_of_run fst app]; rewrite Hm;
                   reflexivity|].
           destruct Hr as [[-> [-> [rest [-> Hrest]]]]
                          | [x [t [rest [-> [-> ->]]]]]].
           ++ left. split; [reflexivity|]. split; [reflexivity|].
              exists rest. split; [reflexivity|exact Hrest].
           ++ right. exists x, t, rest. auto.
      * intros H. injection H as <- <-.
        exists [], [Executed task], [(clock s, Executed task)].
        split; [rewrite He2; reflexivity|]. split; [reflexivity|].
        right. exists x, task, tasks. auto.
Qed.



(* ================================================================= *)
(** ** The simulations of a run *)

Lemma subsequence_incl {A} (l1 l2 : list A) : subsequence l1 l2 -> incl l1 l2.
Proof.
  induction 1 as [|x l1 l2 _ IH|x l1 l2 _ IH]; intros y Hy.
  - exact Hy.
  - right. apply IH. exact Hy.
  - destruct Hy as [<-|Hy]; [left; reflexivity|right; apply IH; exact Hy].
Qed.

Lemma Forall2_in_right {A B} (R : A -> B -> Prop) l l' y :
  Forall2 R l l' -> In y l' -> exists x, In x l /\ R x y.
Proof.
  induction 1 as [|x y' l l' Hxy _ IH]; intros Hin; [contradiction|].
  destruct Hin as [<-|Hin].
  - exists x. split; [left; reflexivity|exact Hxy].
  - destruct (IH Hin) as [x' [Hx' Hr]]. exists x'. split; [right|]; assumption.
Qed.

Lemma executed_in_runs (runs : list (Task * TestCaseCompleted)) tail task :
  In (Executed task) (flat_map events_of_run runs ++ tail) ->
  In task (map fst runs) \/ In (Executed task) tail.
Proof.
  induction runs as [|[t c] runs IH]; simpl; [auto|].
  intros [H|[H|H]].
  - injection H as <-. auto.
  - discriminate.
  - destruct (IH H); auto.
Qed.

Lemma print_or_failed_not_executed (evs : list (nat * Event)) :
  Forall (fun te => is_print_or_failed (snd te) = true) evs ->
  Forall not_executed evs.
Proof.
  apply Forall_impl. intros [t ev]. unfold not_executed. simpl.
  destruct ev; simpl; intros H; try discriminate; reflexivity.
Qed.

Lemma not_executed_starts_job_in self entries bt te :
  not_executed te -> starts_job_in self entries bt te.
Proof.
  destruct te as [t ev]. unfold not_executed, starts_job_in. simpl.
  destruct ev; simpl; intros H; try discriminate; exact I.
Qed.

Lemma not_executed_starts_job_of_suite self entries te :
  not_executed te -> starts_job_of_suite self entries te.
Proof.
  destruct te as [t ev]. unfold not_executed, starts_job_of_suite. simpl.
  destruct ev; simpl; intros H; try discriminate; exact I.
Qed.

Lemma plain_not_executed te : plain te -> not_executed te.
Proof.
  destruct te as [t ev]. unfold plain, not_executed. simpl.
  destruct ev; simpl; intros H; try discriminate; reflexivity.
Qed.

(** The simulations of one build are those of jobs of the entries. *)
Lemma run_build_jobs (E : Ext) interrupt_at self entries bt :
  emits (E := E) (starts_job_in self entries bt)
    (run_build interrupt_at self entries bt).
Proof.
  intros s s' r. unfold run_build. unfold bind at 1.
  destruct (stage_entries self bt entries s) as [s1 [tasks|x]] eqn:H1;
    destruct (stage_entries_run E _ _ _ _ _ _ H1) as [evs1 [He1 [Hf1 [_ Hk1]]]];
    assert (Hj1 : Forall (starts_job_in self entries bt) evs1)
      by (eapply Forall_impl;
          [apply not_executed_starts_job_in
          |apply print_or_failed_not_executed; exact Hf1]).
  - intros H2.
    destruct (run_in_process_run E _ _ _ _ _ H2) as [runs [tail [evs2 [He2 [Hm Hr]]]]].
    destruct (Hk1 tasks eq_refl) as [kept [Hsub Hjobs]].
    exists (evs1 ++ evs2). split; [rewrite He2, He1, app_assoc; reflexivity|].
    apply Forall_app. split; [exact Hj1|].
    apply Forall_forall. intros [t ev] Hin. unfold starts_job_in. cbn [snd].
    destruct ev; try exact I.
    apply (in_map snd) in Hin. cbn [snd] in Hin. rewrite Hm in Hin.
    assert (Htask : In t0 tasks).
    { destruct (executed_in_runs _ _ _ Hin) as [Hi|Hi].
      - destruct Hr as [[_ [_ [rest [-> _]]]] | [x [tk [rest [_ [_ ->]]]]]];
          apply in_or_app; left; exact Hi.
      - destruct Hr as [[_ [-> _]] | [x [tk [rest [_ [-> ->]]]]]];
          [contradiction|].
        destruct Hi as [Hi|[]]. injection Hi as ->.
        apply in_or_app. right. left. reflexivity. }
    destruct (Forall2_in_right _ _ _ _ Hjobs Htask) as [e [He Hjob]].
    exists e. split; [apply (subsequence_incl _ _ Hsub); exact He|exact Hjob].
  - intros H. injection H as <- <-. exists evs1. split; [exact He1|exact Hj1].
Qed.

Lemma id_like_to_stop_now_silent (E : Ext) interrupt_at :
  silent (E := E) (id_like_to_stop_now interrupt_at).
Proof. intros s s' r H. injection H as <- _. reflexivity. Qed.

Lemma finish_suite_not_executed (E : Ext) self entries :
  emits (E := E) not_executed (finish_suite self entries).
Proof.
  intros s s' r H.
  destruct (finish_suite_run E self entries s) as [s1 [res [evs [c [Hrun [He Hp]]]]]].
  rewrite Hrun in H. injection H as <- <-.
  exists ((clock s, SimulationsComplete) :: evs ++ [(c, AllDone (snd res))]).
  split; [exact He|].
  constructor; [reflexivity|]. apply Forall_app. split.
  - eapply Forall_impl; [apply plain_not_executed|exact Hp].
  - constructor; [reflexivity|constructor].
Qed.

Lemma run_test_suite_body_jobs (E : Ext) interrupt_at self entries :
  emits (E := E) (starts_job_of_suite self entries)
    (run_test_suite_body interrupt_at self entries).
Proof.
  assert (Hfin : emits (E := E) (starts_job_of_suite self entries)
                   (finish_suite self entries)).
  { eapply emits_weaken; [|apply finish_suite_not_executed].
    apply not_executed_starts_job_of_suite. }
  assert (Hcancel : emits (E := E) (starts_job_of_suite self entries)
                      (my_cancelled ;;; ret None
                       : M (St E) (option (list TestEntry * CompletedStructure)))).
  { apply emits_bind; [|intros _; apply emits_ret].
    apply emits_emit. intros t. exact I. }
  assert (Hcheck : forall next : M (St E) (option (list TestEntry * CompletedStructure)),
             emits (E := E) (starts_job_of_suite self entries) next ->
             emits (E := E) (starts_job_of_suite self entries)
               (stop <- id_like_to_stop_now interrupt_at ;;
                if stop then my_cancelled ;;; ret None else next)).
  { intros next Hnext.
    apply emits_bind; [apply emits_silent, id_like_to_stop_now_silent|intros stop].
    destruct stop; [exact Hcancel|exact Hnext]. }
  assert (Hb : emits (E := E) (starts_job_of_suite self entries)
                 (run_suite_b interrupt_at self entries)).
  { unfold run_suite_b. destruct (run_case_b self) eqn:Hrb; [|exact Hfin].
    apply emits_bind; [|intros _; apply Hcheck; exact Hfin].
    eapply emits_weaken; [|apply run_build_jobs].
    intros [t ev]. unfold starts_job_in, starts_job_of_suite. cbn [snd].
    destruct ev; auto. intros [e [Hin Hjob]]. exists e. rewrite Hrb. auto. }
  unfold run_test_suite_body.
  apply emits_bind.
  { eapply emits_weaken; [|apply prepare_dir_structure_plain].
    intros te Hp. apply not_executed_starts_job_of_suite, plain_not_executed, Hp. }
  intros _. apply Hcheck.
  apply emits_bind; [apply emits_emit; intros t; exact I|intros _].
  destruct (run_case_a self) eqn:Hra; [|exact Hb].
  apply emits_bind; [|intros _; apply Hcheck; exact Hb].
  eapply emits_weaken; [|apply run_build_jobs].
  intros [t ev]. unfold starts_job_in, starts_job_of_suite. cbn [snd].
  destruct ev; auto. intros [e [Hin Hjob]]. exists e. rewrite Hra. auto.
Qed.

(** X9.  Every simulation a run starts is the job of an entry of the
    suite, in a build the suite was asked to run and in the entry's run
    directory under that build; with neither build asked for, no simulation
    is started at all. *)
Theorem simulations_belong_to_the_suite
    (E : Ext) (interrupt_at : option nat) (self : SuiteRunner)
    (entries : list TestEntry) (w : World E) :
  let out := run_test_suite interrupt_at self entries w in
  (forall t task, In (t, Executed task) (events (fst out)) ->
     exists e, In e entries
               /\ ((run_case_a self = true
                    /\ job_of self (build_tree_a self) e task)
                   \/ (run_case_b self = true
                       /\ job_of self (build_tree_b self) e task)))
  /\ (run_case_a self = false -> run_case_b self = false ->
      filter is_executed (trace (fst out)) = []).
Proof.
  intros out.
  assert (Hall : Forall (starts_job_of_suite self entries) (events (fst out))).
  { unfold out, run_test_suite.
    destruct (run_test_suite_body interrupt_at self entries (initial_state w))
      as [s' r] eqn:Hrun.
    destruct (run_test_suite_body_jobs E _ _ _ _ _ _ Hrun) as [evs [He Hf]].
    cbn [fst]. rewrite He. exact Hf. }
  split.
  - intros t task Hin.
    rewrite Forall_forall in Hall. exact (Hall _ Hin).
  - intros Ha Hb. unfold trace.
    induction Hall as [|[t ev] evs Hj _ IH]; [reflexivity|].
    cbn [map snd filter]. rewrite IH.
    destruct ev; try reflexivity.
    unfold starts_job_of_suite in Hj. cbn [snd] in Hj.
    destruct Hj as [e [_ [[H _]|[H _]]]]; congruence.
Qed.

Lemma simulations_belong_to_the_suite_witness :
  let entries := [new_TestEntry "SimpleTest" None] in
  let out := run_test_suite (E := MemFS.ext) None MemFS.runner entries MemFS.disk in
  let task :=
    {| task_build_tree := MemFS.tree "/b";
       task_basename := "SimpleTest";
       task_run_directory := "/b/Tests/SimpleTest";
       task_run_type := NONE;
       task_reporting_freq := "Hourly";
       task_parametric := false;
       task_epw_path :=
         "/src/weather/USA_IL_Chicago-OHare.Intl.AP.725300_TMY3.epw" |} in
  exists e, In e entries
            /\ ((run_case_a MemFS.runner = true
                 /\ job_of MemFS.runner (build_tree_a MemFS.runner) e task)
                \/ (run_case_b MemFS.runner = true
                    /\ job_of MemFS.runner (build_tree_b MemFS.runner) e task)).
Proof.
  intros entries out task.
  apply (proj1 (simulations_belong_to_the_suite MemFS.ext None MemFS.runner
                  entries MemFS.disk) 25 task).
  vm_compute. tauto.
Defined.

(* ================================================================= *)
(** ** The notifications of a run that advance the progress bar *)

Lemma count_of_none f (evs : list (nat * Event)) :
  Forall (fun te => f (snd te) = false) evs -> count_of f evs = 0.
Proof.
  intros H. induction H as [|[t ev] evs Hf _ IH]; [reflexivity|].
  unfold count_of in *. cbn [map snd filter]. cbn [snd] in Hf. rewrite Hf. exact IH.
Qed.

Lemma quiet_counts (evs : list (nat * Event)) :
  Forall quiet evs -> count_of is_tick evs = 0 /\ count_of is_starting evs = 0.
Proof.
  intros H. split; apply count_of_none; eapply Forall_impl; try exact H;
    intros te [H1 H2]; assumption.
Qed.

Lemma printed_quiet te : printed te -> quiet te.
Proof.
  destruct te as [t ev]. unfold printed, quiet. simpl.
  destruct ev; simpl; intros H; try discriminate; split; reflexivity.
Qed.

Section Spends.

Context {E : Ext}.

Lemma spends_quiet {A} (m : M (St E) A) : emits (E := E) quiet m -> spends 0 m.
Proof.
  intros Hm s s' r H. destruct (Hm _ _ _ H) as [evs [He Hq]].
  exists evs. destruct (quiet_counts evs Hq) as [H1 H2].
  split; [exact He|]. split; [lia|exact H2].
Qed.

Lemma spends_bind {A B} n1 n2 (m : M (St E) A) (k : A -> M (St E) B) :
  spends n1 m -> (forall a, spends n2 (k a)) -> spends (n1 + n2) (bind m k).
Proof.
  intros Hm Hk s s' r. unfold bind.
  destruct (m s) as [s1 [a|x]] eqn:H1; intros H2.
  - destruct (Hm _ _ _ H1) as [evs1 [E1 [T1 S1]]].
    destruct (Hk a _ _ _ H2) as [evs2 [E2 [T2 S2]]].
    exists (evs1 ++ evs2). split; [rewrite E2, E1, app_assoc; reflexivity|].
    rewrite !count_of_app. split; lia.
  - injection H2 as <- _. destruct (Hm _ _ _ H1) as [evs1 [E1 [T1 S1]]].
    exists evs1. split; [exact E1|]. split; [lia|exact S1].
Qed.

Lemma spends_le {A} n n' (m : M (St E) A) : n <= n' -> spends n m -> spends n' m.
Proof.
  intros Hle Hm s s' r H. destruct (Hm _ _ _ H) as [evs [He [Ht Hs]]].
  exists evs. split; [exact He|]. split; [lia|exact Hs].
Qed.

End Spends.

Lemma print_or_failed_counts (evs : list (nat * Event)) :
  Forall (fun te => is_print_or_failed (snd te) = true) evs ->
  count_of is_tick evs = count_of is_case_completed evs
  /\ count_of is_starting evs = 0.
Proof.
  intros H. induction H as [|[t ev] evs Hf _ [IH1 IH2]]; [split; reflexivity|].
  unfold count_of in *. cbn [map snd filter]. cbn [snd] in Hf.
  destruct ev; simpl in *; try discriminate; rewrite ?IH1; auto.
Qed.

Lemma runs_counts (runs : list (Task * TestCaseCompleted)) (tail : list Event) :
  tail = [] \/ (exists task, tail = [Executed task]) ->
  List.length (filter is_tick (flat_map events_of_run runs ++ tail))
  = List.length runs
  /\ filter is_starting (flat_map events_of_run runs ++ tail) = [].
Proof.
  intros Htail. induction runs as [|[t c] runs [IH1 IH2]].
  - destruct Htail as [->|[task ->]]; split; reflexivity.
  - cbn [flat_map events_of_run fst snd app filter is_tick is_starting List.length].
    rewrite IH1, IH2. split; reflexivity.
Qed.

Lemma diff_phase_counts (l : list Event) :
  forallb is_diff_phase_event l = true ->
  filter is_tick l = filter is_diff_completed l /\ filter is_starting l = [].
Proof.
  induction l as [|ev l IH]; [split; reflexivity|].
  cbn [forallb]. intros H. apply andb_true_iff in H. destruct H as [H1 H2].
  destruct (IH H2) as [IH1 IH2].
  destruct ev; simpl in *; try discriminate; rewrite ?IH1, ?IH2; auto.
Qed.

(** One build: at most one case-completed notification per entry. *)
Lemma run_build_spends (E : Ext) interrupt_at self entries bt :
  spends (E := E) (List.length entries) (run_build interrupt_at self entries bt).
Proof.
  intros s s' r. unfold run_build. unfold bind at 1.
  destruct (stage_entries self bt entries s) as [s1 [tasks|x]] eqn:H1;
    destruct (stage_entries_run E _ _ _ _ _ _ H1) as [evs1 [He1 [Hf1 [Hn1 _]]]];
    destruct (print_or_failed_counts evs1 Hf1) as [Ht1 Hs1].
  - intros H2.
    destruct (run_in_process_run E _ _ _ _ _ H2) as [runs [tail [evs2 [He2 [Hm Hr]]]]].
    assert (Htail : tail = [] \/ (exists task, tail = [Executed task])).
    { destruct Hr as [[_ [-> _]] | [x [t [rest [_ [-> _]]]]]]; eauto. }
    destruct (runs_counts runs tail Htail) as [Ht2 Hs2].
    assert (Hlen : List.length runs <= List.length tasks).
    { destruct Hr as [[_ [_ [rest [-> _]]]] | [x [t [rest [_ [_ ->]]]]]];
        rewrite length_app, length_map; lia. }
    exists (evs1 ++ evs2). split; [rewrite He2, He1, app_assoc; reflexivity|].
    rewrite !count_of_app. unfold count_of at 2 4. rewrite Hm, Ht2, Hs2.
    cbn [List.length]. split; lia.
  - intros H. injection H as <- <-. exists evs1. split; [exact He1|].
    simpl in Hn1. split; lia.
Qed.

(** The diffs: one diff-completed notification per entry. *)
Lemma diff_logs_for_build_spends (E : Ext) self entries :
  spends (E := E) (List.length entries) (diff_logs_for_build self entries).
Proof.
  intros s s' r H. unfold diff_logs_for_build in H.
  destruct (diff_entries_run E self entries {| entries_by_file := [] |} s)
    as [s1 [es [cs [evs [Hrun [He [Hdc [Hph _]]]]]]]].
  rewrite Hrun in H. injection H as <- _.
  destruct (diff_phase_counts _ Hph) as [Ht Hs].
  exists evs. split; [exact He|]. unfold count_of. rewrite Ht, Hs, Hdc.
  rewrite !length_map. split; [lia|reflexivity].
Qed.

Ltac quiet_step :=
  first [ apply emits_bind; [|intro]
        | apply emits_try_except; [|intro]
        | apply emits_if
        | apply emits_emit; intro; split; reflexivity
        | apply emits_silent; repeat silent_step ].

Lemma finish_suite_spends (E : Ext) self entries :
  spends (E := E) (List.length entries) (finish_suite self entries).
Proof.
  unfold finish_suite.
  apply (spends_le (0 + (List.length entries + 0))); [lia|].
  apply spends_bind.
  { apply spends_quiet. unfold my_simulationscomplete. quiet_step. }
  intros _. apply spends_bind; [apply diff_logs_for_build_spends|intros r].
  apply spends_quiet. unfold my_print, my_alldone. repeat quiet_step.
Qed.

Lemma check_then_spends (E : Ext) interrupt_at n
    (next : M (St E) (option (list TestEntry * CompletedStructure))) :
  spends n next ->
  spends n (stop <- id_like_to_stop_now interrupt_at ;;
            if stop then my_cancelled ;;; ret None else next).
Proof.
  intros Hnext. apply (spends_le (0 + n)); [lia|].
  apply spends_bind.
  { apply spends_quiet, emits_silent, id_like_to_stop_now_silent. }
  intros stop. destruct stop; [|exact Hnext].
  apply (spends_le 0); [lia|]. apply spends_quiet.
  unfold my_cancelled. repeat quiet_step.
Qed.

Lemma run_suite_b_spends (E : Ext) interrupt_at self entries :
  spends (E := E)
    (List.length entries * ((if run_case_b self then 1 else 0) + 1))
    (run_suite_b interrupt_at self entries).
Proof.
  unfold run_suite_b. destruct (run_case_b self).
  - apply (spends_le (List.length entries + List.length entries)); [lia|].
    apply spends_bind; [apply run_build_spends|intros _].
    apply check_then_spends, finish_suite_spends.
  - apply (spends_le (List.length entries)); [lia|]. apply finish_suite_spends.
Qed.

Lemma prepare_dir_structure_prints (E : Ext) b_a b_b d_test :
  emits (E := E) printed (prepare_dir_structure b_a b_b d_test).
Proof. unfold prepare_dir_structure, my_print. repeat emits_step. Qed.

(** A run announces itself once, after lines that are only printed, and
    the notifications that follow advance the progress bar no more often than
    announced. *)
Lemma run_test_suite_body_progress (E : Ext) interrupt_at self entries
    (s s' : St E) r :
  run_test_suite_body interrupt_at self entries s = (s', r) ->
  exists pre post,
    events s' = events s ++ pre ++ post
    /\ Forall quiet pre
    /\ (post = []
        \/ exists t rest,
             post = (t, Starting 2 (List.length entries)) :: rest
             /\ count_of is_tick rest <= progress_steps self entries
             /\ count_of is_starting rest = 0).
Proof.
  unfold run_test_suite_body. unfold bind at 1.
  destruct (prepare_dir_structure _ _ _ s) as [s1 [u|x]] eqn:Hp;
    destruct (prepare_dir_structure_prints E _ _ _ _ _ _ Hp) as [evs [He Hf]];
    assert (Hq : Forall quiet evs)
      by (eapply Forall_impl; [apply printed_quiet|exact Hf]).
  2:{ intros H. injection H as <- <-. exists evs, []. rewrite app_nil_r. auto. }
  unfold bind at 1. unfold id_like_to_stop_now at 1.
  destruct (flag_at interrupt_at (clock s1)).
  - unfold my_cancelled. rewrite (bind_ok _ _ _ _ _ (emit_run E _ s1)).
    unfold ret. intros H. injection H as <- <-.
    exists (evs ++ [(clock s1, Cancelled)]), []. rewrite app_nil_r.
    split; [unfold after_emit; cbn [events]; rewrite He, app_assoc; reflexivity|].
    split; [|left; reflexivity].
    apply Forall_app. split; [exact Hq|]. constructor; [split; reflexivity|constructor].
  - unfold my_starting. rewrite (bind_ok _ _ _ _ _ (emit_run E _ s1)).
    intros H.
    assert (Hrest : spends (E := E) (progress_steps self entries)
              (if run_case_a self
               then run_build interrupt_at self entries (build_tree_a self) ;;;
                    stop <- id_like_to_stop_now interrupt_at ;;
                    if stop then my_cancelled ;;; ret None
                    else run_suite_b interrupt_at self entries
               else run_suite_b interrupt_at self entries)).
    { unfold progress_steps. destruct (run_case_a self).
      - apply (spends_le
                 (List.length entries
                  + List.length entries * ((if run_case_b self then 1 else 0) + 1)));
          [lia|].
        apply spends_bind; [apply run_build_spends|intros _].
        apply check_then_spends, run_suite_b_spends.
      - apply (spends_le
                 (List.length entries * ((if run_case_b self then 1 else 0) + 1)));
          [lia|].
        apply run_suite_b_spends. }
    destruct (Hrest _ _ _ H) as [rest [Her [Ht Hs]]].
    exists evs, ((clock s1, Starting 2 (List.length entries)) :: rest).
    split.
    + rewrite Her. unfold after_emit. cbn [events]. rewrite He, <- !app_assoc.
      reflexivity.
    + split; [exact Hq|]. right. exists (clock s1), rest. auto.
Qed.

(* ================================================================= *)
(** ** The progress bar of the window during a run *)

Section WindowProgress.

Variable datetime_now : nat -> string.

Lemma on_notification_quiet (ev : Event) (g : RegressionGUI) :
  is_tick ev = false -> is_starting ev = false ->
  exists g', (on_notification datetime_now) ev g = (g', Ok tt)
             /\ current_progress_value g' = current_progress_value g
             /\ progress_maximum_value g' = progress_maximum_value g
             /\ same_run_flags g g'
             /\ (progress g' = progress g \/ progress g' = 1%Q).
Proof.
  unfold same_run_flags.
  destruct ev; simpl; intros H1 H2; try discriminate;
    (eexists; split; [reflexivity|]); simpl; auto 10.
Qed.

Lemma advance_progress_run (g : RegressionGUI) c maximum :
  current_progress_value g = Some c ->
  progress_maximum_value g = Some maximum ->
  Qeq_bool maximum 0 = false ->
  advance_progress g
  = (set_fraction ((c + 1) / maximum)%Q
       (set_current_progress_value (Some (c + 1)%Q) g), Ok tt).
Proof.
  intros Hc Hm Hz. unfold advance_progress. rewrite Hc.
  cbn [set_current_progress_value progress_maximum_value]. rewrite Hm, Hz.
  reflexivity.
Qed.

Lemma on_notification_tick (ev : Event) (g : RegressionGUI) c maximum :
  is_tick ev = true ->
  current_progress_value g = Some c ->
  progress_maximum_value g = Some maximum ->
  Qeq_bool maximum 0 = false ->
  exists g', (on_notification datetime_now) ev g = (g', Ok tt)
             /\ current_progress_value g' = Some (c + 1)%Q
             /\ progress_maximum_value g' = Some maximum
             /\ same_run_flags g g'
             /\ progress g' = ((c + 1) / maximum)%Q.
Proof.
  unfold same_run_flags.
  intros Ht Hc Hm Hz. destruct ev; try discriminate; cbn [on_notification].
  - unfold case_completed_callback_handler.
    rewrite (bind_ok _ _ _ _ _ (advance_progress_run g c maximum Hc Hm Hz)).
    destruct (muffle_err_msg c0), (run_success c0); cbn [negb];
      (eexists; split; [reflexivity|]); simpl; auto.
  - unfold diff_completed_callback_handler.
    rewrite (advance_progress_run g c maximum Hc Hm Hz).
    eexists; split; [reflexivity|]. simpl. auto.
Qed.

Lemma on_notification_starting nb nc (g : RegressionGUI) :
  exists g', (on_notification datetime_now) (Starting nb nc) g = (g', Ok tt)
             /\ progress_at 0
                  (nc * ((if case_1_run g then 1 else 0)
                         + (if case_2_run g then 1 else 0) + 1)) g'
             /\ same_run_flags g g'
             /\ progress g' = 0%Q.
Proof.
  cbn [on_notification]. unfold sim_starting_callback_handler, gui_update.
  eexists. split; [reflexivity|]. split; [|split; [split; reflexivity|reflexivity]].
  unfold progress_at. do 2 eexists.
  split; [reflexivity|]. split; [reflexivity|]. split; [reflexivity|].
  cbn [set_current_progress_value case_1_run case_2_run].
  rewrite Nat2Z.inj_mul, inject_Z_mult.
  apply Qmult_comp; [reflexivity|].
  destruct (case_1_run g), (case_2_run g); reflexivity.
Qed.

Lemma in_range_unchanged_or_full (x y : Q) :
  in_range x -> y = x \/ y = 1%Q -> in_range y.
Proof.
  intros Hx [->| ->]; [exact Hx|]. split; [discriminate|apply Qle_refl].
Qed.

(** Notifications that neither advance nor reset the bar. *)
Lemma notify_quiet (evs : list Event) :
  forall g,
  filter is_tick evs = [] -> filter is_starting evs = [] ->
  exists g', for_each evs (on_notification datetime_now) g = (g', Ok tt)
             /\ current_progress_value g' = current_progress_value g
             /\ progress_maximum_value g' = progress_maximum_value g
             /\ same_run_flags g g'
             /\ (progress g' = progress g \/ progress g' = 1%Q).
Proof.
  induction evs as [|ev evs IH]; intros g Ht Hs.
  - exists g. unfold same_run_flags. simpl. auto 10.
  - cbn [filter] in Ht, Hs.
    destruct (is_tick ev) eqn:Htick; [discriminate|].
    destruct (is_starting ev) eqn:Hstart; [discriminate|].
    destruct (on_notification_quiet ev g Htick Hstart)
      as [g1 [H1 [Hc1 [Hm1 [[Ha1 Hb1] Hp1]]]]].
    destruct (IH g1 Ht Hs) as [g2 [H2 [Hc2 [Hm2 [[Ha2 Hb2] Hp2]]]]].
    exists g2. cbn [for_each]. rewrite (bind_ok _ _ _ _ _ H1).
    split; [exact H2|]. unfold same_run_flags.
    repeat split; try congruence.
    destruct Hp2 as [Hp2|Hp2]; [|right; exact Hp2].
    rewrite Hp2. exact Hp1.
Qed.

(** Notifications after the start of a run, as long as the steps
    announced are not exceeded. *)
Lemma notify_ticks (evs : list Event) :
  forall g k m,
  progress_at k m g -> in_range (progress g) ->
  filter is_starting evs = [] ->
  k + List.length (filter is_tick evs) <= m ->
  exists g', for_each evs (on_notification datetime_now) g = (g', Ok tt)
             /\ progress_at (k + List.length (filter is_tick evs)) m g'
             /\ in_range (progress g').
Proof.
  induction evs as [|ev evs IH]; intros g k m Hat Hin Hs Hk.
  - exists g. simpl. rewrite Nat.add_0_r. auto.
  - cbn [filter] in Hs, Hk |- *.
    destruct (is_starting ev) eqn:Hstart; [discriminate|].
    destruct (is_tick ev) eqn:Htick.
    + cbn [List.length] in Hk |- *.
      destruct Hat as [c [mx [Hc [Hm [Hck Hmm]]]]].
      assert (Hpos : (0 < mx)%Q).
      { rewrite Hmm. change 0%Q with (inject_Z 0). rewrite <- Zlt_Qlt. lia. }
      assert (Hz : Qeq_bool mx 0 = false).
      { destruct (Qeq_bool mx 0) eqn:Hq; [|reflexivity].
        apply Qeq_bool_iff in Hq. rewrite Hq in Hpos.
        exfalso. exact (Qlt_irrefl _ Hpos). }
      destruct (on_notification_tick ev g c mx Htick Hc Hm Hz)
        as [g1 [H1 [Hc1 [Hm1 [_ Hp1]]]]].
      assert (Hc1' : (c + 1 == inject_Z (Z.of_nat (S k)))%Q).
      { rewrite Hck, Nat2Z.inj_succ. unfold Z.succ. rewrite inject_Z_plus.
        reflexivity. }
      assert (Hat1 : progress_at (S k) m g1).
      { exists (c + 1)%Q, mx. auto. }
      assert (Hin1 : in_range (progress g1)).
      { rewrite Hp1. split.
        - apply Qle_shift_div_l; [exact Hpos|]. rewrite Qmult_0_l, Hc1'.
          change 0%Q with (inject_Z 0). rewrite <- Zle_Qle. lia.
        - apply Qle_shift_div_r; [exact Hpos|]. rewrite Qmult_1_l, Hc1', Hmm.
          rewrite <- Zle_Qle. lia. }
      destruct (IH g1 (S k) m Hat1 Hin1 Hs ltac:(lia)) as [g2 [H2 [Hat2 Hin2]]].
      exists g2. cbn [for_each]. rewrite (bind_ok _ _ _ _ _ H1).
      split; [exact H2|]. split; [|exact Hin2].
      replace (k + S (List.length (filter is_tick evs)))
        with (S k + List.length (filter is_tick evs)) by lia.
      exact Hat2.
    + destruct (on_notification_quiet ev g Htick Hstart)
        as [g1 [H1 [Hc1 [Hm1 [_ Hp1]]]]].
      assert (Hat1 : progress_at k m g1).
      { destruct Hat as [c [mx [Hc [Hm H]]]]. exists c, mx.
        rewrite Hc1, Hm1. auto. }
      assert (Hin1 : in_range (progress g1))
        by (apply (in_range_unchanged_or_full (progress g)); assumption).
      destruct (IH g1 k m Hat1 Hin1 Hs Hk) as [g2 [H2 [Hat2 Hin2]]].
      exists g2. cbn [for_each]. rewrite (bind_ok _ _ _ _ _ H1). auto.
Qed.

Lemma quiet_filters (pre : list (nat * Event)) :
  Forall quiet pre ->
  filter is_tick (map snd pre) = [] /\ filter is_starting (map snd pre) = [].
Proof.
  intros H. induction H as [|[t ev] pre [H1 H2] _ [IH1 IH2]]; [split; reflexivity|].
  cbn [map snd filter] in *. rewrite H1, H2. auto.
Qed.

Lemma filter_nil_app_l {A} (f : A -> bool) (a b : list A) :
  filter f (a ++ b) = [] -> filter f a = [].
Proof.
  rewrite filter_app. intros H. apply app_eq_nil in H. tauto.
Qed.

(** The window over the notifications of a run, from its first one on:
    no handler raises, and the bar shows what it showed before the run or a
    fraction between 0 and 1. *)
Lemma window_over_run (E : Ext) interrupt_at self entries (s s' : St E) r
    (g : RegressionGUI) (seen later : list Event) :
  run_test_suite_body interrupt_at self entries s = (s', r) ->
  events s = [] ->
  case_1_run g = run_case_a self -> case_2_run g = run_case_b self ->
  trace s' = seen ++ later ->
  exists g', for_each seen (on_notification datetime_now) g = (g', Ok tt)
             /\ (progress g' = progress g \/ in_range (progress g')).
Proof.
  intros Hrun Hnil H1 H2 Hsplit.
  destruct (run_test_suite_body_progress E _ _ _ _ _ _ Hrun)
    as [pre [post [He [Hq Hpost]]]].
  rewrite Hnil in He. cbn [app] in He.
  unfold trace in Hsplit. rewrite He, map_app in Hsplit.
  destruct (quiet_filters pre Hq) as [Hqt Hqs].
  symmetry in Hsplit. apply app_eq_app in Hsplit.
  destruct Hsplit as [l [[Hs Hl]|[Hs Hl]]].
  - (* the Starting notification has been seen, or is next *)
    destruct (notify_quiet (map snd pre) g Hqt Hqs)
      as [g1 [Hg1 [_ [_ [[Ha1 Hb1] Hp1]]]]].
    rewrite Hs, for_each_app, (bind_ok _ _ _ _ _ Hg1).
    destruct Hpost as [->|[t [rest [-> [Ht Hst]]]]].
    + cbn [map] in Hl. symmetry in Hl. apply app_eq_nil in Hl.
      destruct Hl as [-> _]. exists g1. split; [reflexivity|].
      destruct Hp1 as [Hp1|Hp1]; [left; exact Hp1|].
      right. rewrite Hp1. split; [discriminate|apply Qle_refl].
    + destruct l as [|ev l].
      * exists g1. split; [reflexivity|].
        destruct Hp1 as [Hp1|Hp1]; [left; exact Hp1|].
        right. rewrite Hp1. split; [discriminate|apply Qle_refl].
      * cbn [map snd app] in Hl. injection Hl as <- Hl.
        destruct (on_notification_starting 2 (List.length entries) g1)
          as [g2 [Hg2 [Hat2 [_ Hp2]]]].
        rewrite Ha1, Hb1, H1, H2 in Hat2.
        fold (progress_steps self entries) in Hat2.
        unfold count_of in Ht, Hst. rewrite Hl in Ht, Hst.
        rewrite filter_app, length_app in Ht.
        apply length_zero_iff_nil in Hst. apply filter_nil_app_l in Hst.
        assert (Hin2 : in_range (progress g2))
          by (rewrite Hp2; split; [apply Qle_refl|discriminate]).
        destruct (notify_ticks l g2 0 (progress_steps self entries)
                    Hat2 Hin2 Hst ltac:(simpl; lia)) as [g3 [Hg3 [_ Hin3]]].
        exists g3. cbn [for_each]. rewrite (bind_ok _ _ _ _ _ Hg2).
        split; [exact Hg3|right; exact Hin3].
  - (* still among the lines printed before the start *)
    rewrite Hs in Hqt, Hqs.
    apply filter_nil_app_l in Hqt. apply filter_nil_app_l in Hqs.
    destruct (notify_quiet seen g Hqt Hqs) as [g1 [Hg1 [_ [_ [_ Hp1]]]]].
    exists g1. split; [exact Hg1|].
    destruct Hp1 as [Hp1|Hp1]; [left; exact Hp1|].
    right. rewrite Hp1. split; [discriminate|apply Qle_refl].
Qed.

End WindowProgress.

(** X10.  A run announces itself at most once, with two builds and the
    number of its entries, after events that neither complete a case nor a
    diff; the case-completed and diff-completed notifications that follow are
    together no more than the entries times the builds asked for plus one. *)
Theorem run_announced_once
    (E : Ext) (interrupt_at : option nat) (self : SuiteRunner)
    (entries : list TestEntry) (w : World E) :
  let out := run_test_suite interrupt_at self entries w in
  exists pre post,
    events (fst out) = pre ++ post
    /\ Forall quiet pre
    /\ (post = []
        \/ exists t rest,
             post = (t, Starting 2 (List.length entries)) :: rest
             /\ count_of is_tick rest
                <= List.length entries
                   * ((if run_case_a self then 1 else 0)
                      + (if run_case_b self then 1 else 0) + 1)
             /\ count_of is_starting rest = 0).
Proof.
  intros out. unfold out, run_test_suite.
  destruct (run_test_suite_body interrupt_at self entries (initial_state w))
    as [s' r] eqn:Hrun.
  exact (run_test_suite_body_progress E _ _ _ _ _ _ Hrun).
Qed.

(** X11.  While the window follows a run whose two run flags are its
    own, no handler of a notification raises, whatever the progress values
    were before (unset, or zero), and after every notification the progress
    bar shows what it showed before the run or a fraction between 0 and 1. *)
Theorem progress_bar_stays_in_range
    (datetime_now : nat -> string)
    (E : Ext) (interrupt_at : option nat) (self : SuiteRunner)
    (entries : list TestEntry) (w : World E)
    (g : RegressionGUI) (seen later : list Event)
    (H1 : case_1_run g = run_case_a self)
    (H2 : case_2_run g = run_case_b self)
    (Hseen : trace (fst (run_test_suite interrupt_at self entries w))
             = seen ++ later) :
  exists g',
    for_each seen (on_notification datetime_now) g = (g', Ok tt)
    /\ (progress g' = progress g \/ in_range (progress g')).
Proof.
  unfold run_test_suite in Hseen.
  destruct (run_test_suite_body interrupt_at self entries (initial_state w))
    as [s' r] eqn:Hrun.
  exact (window_over_run datetime_now E interrupt_at self entries
           (initial_state w) s' r g seen later Hrun eq_refl H1 H2 Hseen).
Qed.

Lemma progress_bar_stays_in_range_witness :
  let out := run_test_suite (E := MemFS.ext) None MemFS.runner
               [new_TestEntry "SimpleTest" None] MemFS.disk in
  exists g',
    for_each (trace (fst out)) (on_notification (fun _ => "2019-01-01 00:00:00"))
      (new_RegressionGUI true true)
    = (g', Ok tt)
    /\ (progress g' = progress (new_RegressionGUI true true)
        \/ in_range (progress g')).
Proof.
  intros out.
  apply (progress_bar_stays_in_range (fun _ => "2019-01-01 00:00:00")
           MemFS.ext None MemFS.runner [new_TestEntry "SimpleTest" None] MemFS.disk
           (new_RegressionGUI true true) (trace (fst out)) []).
  - reflexivity.
  - reflexivity.
  - vm_compute. reflexivity.
Defined.

(* ================================================================= *)
(** ** The log of the window *)

Lemma last_n_all {A} n (l : list A) : List.length l <= n -> last_n n l = l.
Proof.
  intros H. unfold last_n. replace (List.length l - n) with 0 by lia. reflexivity.
Qed.

Lemma length_last_n {A} n (l : list A) : List.length (last_n n l) <= n.
Proof. unfold last_n. rewrite length_skipn. lia. Qed.

Lemma last_n_app {A} n (a b : list A) :
  last_n n (last_n n a ++ b) = last_n n (a ++ b).
Proof.
  destruct (Nat.le_gt_cases (List.length a) n) as [Hle|Hgt].
  - rewrite (last_n_all n a Hle). reflexivity.
  - unfold last_n. rewrite !length_app, length_skipn.
    replace (List.length a - (List.length a - n) + List.length b - n)
      with (List.length b) by lia.
    replace (List.length a + List.length b - n)
      with (List.length b + (List.length a - n)) by lia.
    rewrite <- skipn_skipn. f_equal.
    rewrite skipn_app.
    replace (List.length a - n - List.length a) with 0 by lia. reflexivity.
Qed.

Lemma last_n_snoc_full {A} n (l : list A) (x : A) :
  0 < n -> List.length l = n -> last_n n (l ++ [x]) = List.tl l ++ [x].
Proof.
  intros Hn Hl. unfold last_n. rewrite length_app. cbn [List.length].
  replace (List.length l + 1 - n) with 1 by lia.
  destruct l as [|y l]; [simpl in Hl; lia|]. reflexivity.
Qed.

Section WindowLog.

Variable datetime_now : nat -> string.

(** One entry: the log grows by it, and gives up its oldest entry when
    it is full. *)
Lemma add_log_entry_run (message : string) (g : RegressionGUI) :
  List.length (log_store g) <= log_store_limit ->
  log_messages (add_log_entry datetime_now message g)
  = last_n log_store_limit (log_messages g ++ [message])
  /\ List.length (log_store (add_log_entry datetime_now message g))
     <= log_store_limit.
Proof.
  intros Hlen. unfold log_messages, add_log_entry. cbn [log_store].
  assert (Hpos : 0 < log_store_limit) by (unfold log_store_limit; lia).
  destruct (log_store_limit <=? List.length (log_store g)) eqn:Hfull.
  - apply Nat.leb_le in Hfull.
    assert (Heq : List.length (log_store g) = log_store_limit) by lia.
    split.
    + rewrite last_n_snoc_full by (rewrite ?length_map; assumption).
      rewrite map_app. cbn [map snd]. f_equal.
      destruct (log_store g); reflexivity.
    + rewrite length_app. cbn [List.length].
      destruct (log_store g) as [|e l]; simpl in *; lia.
  - apply Nat.leb_gt in Hfull. split.
    + rewrite last_n_all by (rewrite length_app, length_map; simpl; lia).
      rewrite map_app. reflexivity.
    + rewrite length_app. simpl. lia.
Qed.

(** X12.  The log never holds more than 5000 entries, and what it holds
    is the newest: after any number of entries added to a log within the
    limit, its messages are the last 5000 of the old ones followed by the new
    ones, in their order. *)
Theorem log_keeps_the_newest
    (messages : list string) (g : RegressionGUI)
    (Hlen : List.length (log_store g) <= log_store_limit) :
  log_messages (add_log_entries datetime_now messages g)
  = last_n log_store_limit (log_messages g ++ messages)
  /\ List.length (log_store (add_log_entries datetime_now messages g))
     <= log_store_limit.
Proof.
  revert g Hlen. induction messages as [|m messages IH]; intros g Hlen.
  - simpl. rewrite app_nil_r.
    rewrite last_n_all by (unfold log_messages; rewrite length_map; exact Hlen).
    auto.
  - cbn [add_log_entries fold_left].
    destruct (add_log_entry_run m g Hlen) as [Hm Hl].
    destruct (IH _ Hl) as [IHm IHl].
    unfold add_log_entries in IHm, IHl. split; [|exact IHl].
    rewrite IHm, Hm, last_n_app, <- app_assoc. reflexivity.
Qed.

End WindowLog.

Lemma log_keeps_the_newest_witness :
  log_messages
    (add_log_entries (fun _ => "2019-01-01 00:00:00")
       ["Building idf list"; "Completed building idf list"]
       (new_RegressionGUI true true))
  = ["Building idf list"; "Completed building idf list"].
Proof.
  apply (log_keeps_the_newest (fun _ => "2019-01-01 00:00:00")
           ["Building idf list"; "Completed building idf list"]
           (new_RegressionGUI true true)).
  simpl. lia.
Defined.

(* ================================================================= *)
(** ** The selection of input files in the window *)

Lemma str_in_In (x : string) (l : list string) : str_in x l = true <-> In x l.
Proof.
  unfold str_in. rewrite existsb_exists. split.
  - intros [y [Hy He]]. apply String.eqb_eq in He. subst. exact Hy.
  - intros H. exists x. split; [exact H|apply String.eqb_refl].
Qed.

Lemma set_row_run_same (r : IdfRow) : set_row_run (row_run r) r = r.
Proof. destruct r; reflexivity. Qed.

(** The nested loops of [restore_file_selection] check the rows whose
    name is in the list, and those only. *)
Lemma restore_loops (file_list : list string) :
  forall store : list IdfRow,
  fold_left
    (fun store filename =>
       map (fun idf_entry =>
              if String.eqb (row_idf idf_entry) filename
              then set_row_run true idf_entry else idf_entry) store)
    file_list store
  = map (fun r => if str_in (row_idf r) file_list then set_row_run true r else r)
        store.
Proof.
  induction file_list as [|f files IH]; intros store.
  - simpl. symmetry. apply map_id.
  - cbn [fold_left]. rewrite IH, map_map. apply map_ext. intros r.
    unfold str_in. cbn [existsb].
    destruct (String.eqb (row_idf r) f); cbn [orb set_row_run row_idf].
    + destruct (existsb _ files); reflexivity.
    + reflexivity.
Qed.

Lemma restore_file_selection_rows (file_list : list string) (g : RegressionGUI) :
  idf_list_store (restore_file_selection file_list g)
  = map (fun r => set_row_run (str_in (row_idf r) file_list) r) (idf_list_store g).
Proof.
  unfold restore_file_selection. cbn [set_idf_list_store idf_list_store].
  rewrite restore_loops, map_map. apply map_ext. intros r.
  cbn [set_row_run row_idf]. destruct (str_in (row_idf r) file_list); reflexivity.
Qed.

Lemma selectedfiles_loop (store : list IdfRow) :
  forall selected : list string,
  fold_left (fun selected idf_entry =>
               if row_run idf_entry then selected ++ [row_idf idf_entry]
               else selected) store selected
  = selected ++ map row_idf (filter row_run store).
Proof.
  induction store as [|r store IH]; intros selected.
  - simpl. rewrite app_nil_r. reflexivity.
  - cbn [fold_left filter]. rewrite IH. destruct (row_run r).
    + cbn [map]. rewrite <- app_assoc. reflexivity.
    + reflexivity.
Qed.

Lemma selectedfiles_rows (g : RegressionGUI) :
  selectedfiles g = map row_idf (filter row_run (idf_list_store g)).
Proof. unfold selectedfiles. rewrite selectedfiles_loop. reflexivity. Qed.

Lemma num_selected_loop (store : list IdfRow) :
  forall n : nat,
  fold_left (fun num_selected this_file =>
               if row_run this_file then num_selected + 1 else num_selected)
            store n
  = n + List.length (filter row_run store).
Proof.
  induction store as [|r store IH]; intros n.
  - simpl. lia.
  - cbn [fold_left filter]. rewrite IH. destruct (row_run r); simpl; lia.
Qed.

Lemma same_name_same_row (store : list IdfRow) (r r' : IdfRow) :
  NoDup (map row_idf store) -> In r store -> In r' store ->
  row_idf r = row_idf r' -> r = r'.
Proof.
  induction store as [|x store IH]; intros Hnd Hr Hr' Hname; [contradiction|].
  cbn [map] in Hnd. inversion Hnd as [|y l Hnotin Hnd']. subst.
  destruct Hr as [->|Hr], Hr' as [->|Hr'].
  - reflexivity.
  - exfalso. apply Hnotin. rewrite Hname. apply in_map. exact Hr'.
  - exfalso. apply Hnotin. rewrite <- Hname. apply in_map. exact Hr.
  - apply IH; assumption.
Qed.

Lemma restore_selected_rows (store : list IdfRow) :
  NoDup (map row_idf store) ->
  map (fun r => set_row_run
                  (str_in (row_idf r) (map row_idf (filter row_run store))) r)
      store
  = store.
Proof.
  intros Hnd. transitivity (map (fun r : IdfRow => r) store); [|apply map_id].
  apply map_ext_in. intros r Hr.
  transitivity (set_row_run (row_run r) r); [|apply set_row_run_same]. f_equal.
  destruct (row_run r) eqn:Hrun.
  - apply str_in_In. apply in_map. apply filter_In. auto.
  - destruct (str_in (row_idf r) (map row_idf (filter row_run store))) eqn:Hin;
      [|reflexivity].
    apply str_in_In in Hin. apply in_map_iff in Hin.
    destruct Hin as [r' [Hname Hr']]. apply filter_In in Hr'.
    destruct Hr' as [Hr' Hrun'].
    assert (r = r') by (apply (same_name_same_row store); auto).
    subst r'. congruence.
Qed.

(** X13.  The selection of input files survives a save and a restore
    when no two rows of the list have the same name: restoring the names
    written by [save_settings] leaves every row as it was.  With two rows of
    one name, one of them checked, both come back checked. *)
Theorem selection_survives_save_and_restore :
  (forall g : RegressionGUI,
     NoDup (map row_idf (idf_list_store g)) ->
     idf_list_store (restore_file_selection (selectedfiles g) g)
     = idf_list_store g)
  /\ (let g := set_idf_list_store rows_of_one_name (new_RegressionGUI true true) in
      map row_run (idf_list_store g) = [true; false]
      /\ map row_run (idf_list_store (restore_file_selection (selectedfiles g) g))
         = [true; true]).
Proof.
  split.
  - intros g Hnd.
    rewrite restore_file_selection_rows, selectedfiles_rows.
    apply restore_selected_rows. exact Hnd.
  - split; reflexivity.
Qed.

Lemma selection_survives_save_and_restore_witness :
  let g := set_idf_list_store
             [ {| row_run := true; row_idf := "1ZoneUncontrolled";
                  row_epw := "Denver" |};
               {| row_run := false; row_idf := "5ZoneAirCooled";
                  row_epw := "Chicago" |} ]
             (new_RegressionGUI true true) in
  idf_list_store (restore_file_selection (selectedfiles g) g) = idf_list_store g.
Proof.
  intros g.
  apply (proj1 selection_survives_save_and_restore g).
  simpl. constructor.
  - simpl. intros [H|[]]. discriminate.
  - constructor; [simpl; tauto|constructor].
Defined.


(* ================================================================= *)
(** ** The run button of the window after a run *)

Section WindowButton.

Variable datetime_now : nat -> string.

Lemma advance_progress_button (g g' : RegressionGUI) r :
  advance_progress g = (g', r) -> shown_running g' = shown_running g.
Proof.
  unfold advance_progress.
  destruct (current_progress_value g) as [c|]; [|intros H; injection H as <- _; reflexivity].
  cbn [set_current_progress_value progress_maximum_value].
  destruct (progress_maximum_value g) as [mx|];
    [|intros H; injection H as <- _; reflexivity].
  destruct (Qeq_bool mx 0); intros H; injection H as <- _; reflexivity.
Qed.

Lemma on_notification_button (ev : Event) (g g' : RegressionGUI) r :
  is_ending ev = false ->
  on_notification datetime_now ev g = (g', r) ->
  shown_running g' = shown_running g.
Proof.
  intros Hev. destruct ev; try discriminate; cbn [on_notification];
    try (intros H; injection H as <- _; reflexivity).
  - unfold case_completed_callback_handler, bind.
    destruct (advance_progress g) as [g1 [[]|x]] eqn:Ha;
      pose proof (advance_progress_button _ _ _ Ha) as Hb.
    + destruct (negb (muffle_err_msg c)); [destruct (run_success c)|];
        intros H; injection H as <- _; exact Hb.
    + intros H; injection H as <- _; exact Hb.
  - unfold diff_completed_callback_handler. apply advance_progress_button.
Qed.

Lemma notifications_button (evs : list Event) :
  forall g g' r,
  forallb (fun ev => negb (is_ending ev)) evs = true ->
  for_each evs (on_notification datetime_now) g = (g', r) ->
  shown_running g' = shown_running g.
Proof.
  induction evs as [|ev evs IH]; intros g g' r Hall.
  - intros H. injection H as <- _. reflexivity.
  - cbn [forallb] in Hall. apply andb_true_iff in Hall. destruct Hall as [Hev Hall].
    apply negb_true_iff in Hev.
    cbn [for_each]. unfold bind at 1.
    destruct (on_notification datetime_now ev g) as [g1 [[]|x]] eqn:H1;
      pose proof (on_notification_button _ _ _ _ Hev H1) as Hb.
    + intros H. rewrite (IH _ _ _ Hall H). exact Hb.
    + intros H. injection H as <- _. exact Hb.
Qed.

Lemma on_notification_ending (ev : Event) (g : RegressionGUI) :
  is_ending ev = true ->
  exists g', on_notification datetime_now ev g = (g', Ok tt)
             /\ shown_running g' = (false, "Run Suite")
             /\ progress g' = 1%Q.
Proof.
  destruct ev; try discriminate; intros _; cbn [on_notification];
    (eexists; split; [reflexivity|]); split; reflexivity.
Qed.

Lemma build_events_not_ending interrupt_at (evs : list (nat * Event)) :
  Forall (build_event interrupt_at) evs ->
  forallb (fun ev => negb (is_ending ev)) (map snd evs) = true.
Proof.
  intros H. induction H as [|[t ev] evs Hb _ IH]; [reflexivity|].
  cbn [map snd forallb]. rewrite IH, andb_true_r.
  unfold build_event in Hb. cbn [snd fst] in Hb.
  destruct ev; simpl in *; try reflexivity; discriminate.
Qed.

Lemma plain_events_not_ending (evs : list (nat * Event)) :
  Forall plain evs ->
  forallb (fun ev => negb (is_ending ev)) (map snd evs) = true.
Proof.
  intros H. induction H as [|[t ev] evs Hb _ IH]; [reflexivity|].
  cbn [map snd forallb]. rewrite IH, andb_true_r.
  unfold plain in Hb. cbn [snd] in Hb.
  destruct ev; simpl in *; try reflexivity; discriminate.
Qed.

(** The window after all the notifications of a run. *)
Lemma window_after_run (E : Ext) interrupt_at self entries (w : World E)
    (g : RegressionGUI) :
  case_1_run g = run_case_a self -> case_2_run g = run_case_b self ->
  let out := run_test_suite interrupt_at self entries w in
  exists g',
    for_each (trace (fst out)) (on_notification datetime_now) g = (g', Ok tt)
    /\ match snd out with
       | Ok _ => shown_running g' = (false, "Run Suite") /\ progress g' = 1%Q
       | Raise _ => shown_running g' = shown_running g
       end.
Proof.
  intros H1 H2 out.
  assert (Hall : exists g',
             for_each (trace (fst out)) (on_notification datetime_now) g
             = (g', Ok tt)).
  { unfold out, run_test_suite.
    destruct (run_test_suite_body interrupt_at self entries (initial_state w))
      as [s' r] eqn:Hrun. cbn [fst].
    destruct (window_over_run datetime_now E interrupt_at self entries
                (initial_state w) s' r g (trace s') [] Hrun eq_refl H1 H2
                (eq_sym (app_nil_r _))) as [g' [Hg' _]].
    exists g'. exact Hg'. }
  destruct Hall as [g' Hg']. exists g'. split; [exact Hg'|].
  pose proof (run_test_suite_shape E interrupt_at self entries w) as Hshape.
  fold out in Hshape.
  destruct Hshape as [[Hres [evs [c [He [Hf _]]]]]
                     |[[res [evs1 [evs2 [t [c [Hres [He [Hf1 [Hf2 _]]]]]]]]]
                      |[x [evs [Hres [He Hf]]]]]];
    rewrite Hres; cbn [app] in He.
  - (* cancelled *)
    unfold trace in Hg'. rewrite He, map_app, for_each_app in Hg'.
    cbn [map snd] in Hg'. unfold bind at 1 in Hg'.
    destruct (for_each (map snd evs) (on_notification datetime_now) g)
      as [g1 [[]|y]]; [|discriminate].
    cbn [for_each] in Hg'.
    destruct (on_notification_ending Cancelled g1 eq_refl) as [g2 [H [Hb Hp]]].
    rewrite (bind_ok _ _ _ _ _ H) in Hg'. injection Hg' as <-. auto.
  - (* complete *)
    unfold trace in Hg'.
    replace (evs1 ++ (t, SimulationsComplete) :: evs2 ++ [(c, AllDone (snd res))])
      with ((evs1 ++ (t, SimulationsComplete) :: evs2) ++ [(c, AllDone (snd res))])
      in He by (rewrite <- app_assoc; reflexivity).
    rewrite He, map_app, for_each_app in Hg'.
    cbn [map snd] in Hg'. unfold bind at 1 in Hg'.
    destruct (for_each (map snd (evs1 ++ (t, SimulationsComplete) :: evs2))
                (on_notification datetime_now) g) as [g1 [[]|y]]; [|discriminate].
    cbn [for_each] in Hg'.
    destruct (on_notification_ending (AllDone (snd res)) g1 eq_refl)
      as [g2 [H [Hb Hp]]].
    rewrite (bind_ok _ _ _ _ _ H) in Hg'. injection Hg' as <-. auto.
  - (* aborted by an exception *)
    unfold trace in Hg'. rewrite He in Hg'.
    exact (notifications_button _ _ _ _ (build_events_not_ending _ _ Hf) Hg').
Qed.

(** X15.  When a run returns, cancelled or complete, its last
    notification gives the run button back: the window is no longer marked as
    running, the button reads [Run Suite] and the bar is full.  When the run
    ends by an exception no notification does so: the window stays as it was,
    still marked as running if it was. *)
Theorem button_released_when_run_returns
    (E : Ext) (interrupt_at : option nat) (self : SuiteRunner)
    (entries : list TestEntry) (w : World E) (g : RegressionGUI)
    (H1 : case_1_run g = run_case_a self)
    (H2 : case_2_run g = run_case_b self) :
  let out := run_test_suite interrupt_at self entries w in
  exists g',
    for_each (trace (fst out)) (on_notification datetime_now) g = (g', Ok tt)
    /\ match snd out with
       | Ok _ =>
           test_suite_is_running g' = false
           /\ btn_run_suite g' = "Run Suite"
           /\ progress g' = 1%Q
       | Raise _ =>
           test_suite_is_running g' = test_suite_is_running g
           /\ btn_run_suite g' = btn_run_suite g
       end.
Proof.
  intros out.
  destruct (window_after_run E interrupt_at self entries w g H1 H2)
    as [g' [Hg' Hend]].
  exists g'. split; [exact Hg'|]. fold out in Hend.
  unfold shown_running in Hend.
  destruct (snd out).
  - destruct Hend as [Hb Hp]. injection Hb as Hr Hl. auto.
  - injection Hend as Hr Hl. auto.
Qed.

End WindowButton.

Lemma button_released_when_run_returns_witness :
  let out := run_test_suite (E := MemFS.ext) (Some 0) MemFS.runner
               [new_TestEntry "SimpleTest" None] MemFS.disk in
  exists g',
    for_each (trace (fst out)) (on_notification (fun _ => "2019-01-01 00:00:00"))
      (suite_started (new_RegressionGUI true true))
    = (g', Ok tt)
    /\ test_suite_is_running g' = false
    /\ btn_run_suite g' = "Run Suite"
    /\ progress g' = 1%Q.
Proof.
  intros out.
  apply (button_released_when_run_returns (fun _ => "2019-01-01 00:00:00")
           MemFS.ext (Some 0) MemFS.runner [new_TestEntry "SimpleTest" None]
           MemFS.disk (suite_started (new_RegressionGUI true true))).
  - reflexivity.
  - reflexivity.
Defined.

(** A run that an exception ends: the data set an input names cannot be
    copied, the run stops there, and the window still shows a suite
    running. *)
Example window_stays_running_after_exception :
  let out := run_test_suite (E := MemFS.ext) None MemFS.runner
               [new_TestEntry "Window" None] disk_without_data_set in
  snd out = Raise (OtherError "No such file: /datasets/Window5DataFile.dat")
  /\ exists g',
       for_each (trace (fst out)) (on_notification (fun _ => "2019-01-01 00:00:00"))
         (suite_started (new_RegressionGUI true true))
       = (g', Ok tt)
       /\ test_suite_is_running g' = true
       /\ btn_run_suite g' = "Cancel Suite".
Proof.
  split; [vm_compute; reflexivity|].
  eexists. split; [vm_compute; reflexivity|]. split; reflexivity.
Qed.

(* ================================================================= *)
(** ** The selection of input files over a restart *)

Lemma rows_by_name_and_weather (selected : list string) (store : list IdfRow) :
  map (fun r => set_row_run (str_in (row_idf r) selected) r) store
  = map (fun p => {| row_run := str_in (fst p) selected;
                     row_idf := fst p; row_epw := snd p |})
        (combine (map row_idf store) (map row_epw store)).
Proof.
  induction store as [|r store IH]; [reflexivity|].
  cbn [map combine]. rewrite IH. reflexivity.
Qed.

Lemma restore_onto_same_names (g_old g : RegressionGUI) :
  NoDup (map row_idf (idf_list_store g_old)) ->
  map row_idf (idf_list_store g) = map row_idf (idf_list_store g_old) ->
  map row_epw (idf_list_store g) = map row_epw (idf_list_store g_old) ->
  idf_list_store (restore_file_selection (selectedfiles g_old) g)
  = idf_list_store g_old.
Proof.
  intros Hnd Hn He.
  rewrite restore_file_selection_rows, selectedfiles_rows.
  rewrite rows_by_name_and_weather, Hn, He, <- rows_by_name_and_weather.
  apply restore_selected_rows. exact Hnd.
Qed.

Lemma iterated_names_of_strings (l : list string) :
  iterated_names (JArray (map JString l)) = Ok l.
Proof.
  cbn [iterated_names]. f_equal. induction l as [|x l IH]; [reflexivity|].
  cbn [map flat_map app]. rewrite IH. reflexivity.
Qed.

(** X16.  Over a restart the selection of input files comes back as it
    was saved when the list is rebuilt from the same files, no two of one
    name, and at least one row was checked.  A selection with no row checked
    is not restored: the rebuilt list stays as [rebuild_idf_list] fills it,
    with every input checked that needs no external interface. *)
Theorem selection_over_restart
    (verified_idf_files : list VerifiedFile) (g_old g : RegressionGUI)
    (Hnames : NoDup (map filename verified_idf_files))
    (Hidf : map row_idf (idf_list_store g_old)
            = map row_idf (rows_of_verified_files verified_idf_files))
    (Hepw : map row_epw (idf_list_store g_old)
            = map row_epw (rows_of_verified_files verified_idf_files))
    (Hloaded : try_to_restore_files g
               = JArray (map JString (selectedfiles g_old)))
    (Hrebuilt : idf_list_store g = rows_of_verified_files verified_idf_files) :
  exists g',
    restore_at_startup g = (g', Ok tt)
    /\ idf_list_store g'
       = match selectedfiles g_old with
         | [] => rows_of_verified_files verified_idf_files
         | _ :: _ => idf_list_store g_old
         end.
Proof.
  unfold restore_at_startup. rewrite Hloaded, iterated_names_of_strings.
  destruct (selectedfiles g_old) as [|f files] eqn:Hsaved.
  - exists g. split; [reflexivity|exact Hrebuilt].
  - cbn [map json_truth]. eexists. split; [reflexivity|].
    rewrite <- Hsaved.
    apply restore_onto_same_names; [|rewrite Hrebuilt; auto|rewrite Hrebuilt; auto].
    rewrite Hidf. unfold rows_of_verified_files. rewrite map_map. exact Hnames.
Qed.

Lemma selection_over_restart_witness :
  let verified_idf_files :=
    [ {| filename := "1ZoneUncontrolled"; external_interface := false;
         has_weather_file := true; weatherfilename := "Denver" |};
      {| filename := "5ZoneAirCooled"; external_interface := false;
         has_weather_file := false; weatherfilename := "" |} ] in
  let g_old :=
    set_idf_list_store
      (map (set_row_run false) (rows_of_verified_files verified_idf_files))
      (new_RegressionGUI true true) in
  let g :=
    set_idf_list_store (rows_of_verified_files verified_idf_files)
      (set_try_to_restore_files (JArray []) (new_RegressionGUI true true)) in
  exists g',
    restore_at_startup g = (g', Ok tt)
    /\ idf_list_store g' = rows_of_verified_files verified_idf_files.
Proof.
  intros verified_idf_files g_old g.
  apply (selection_over_restart verified_idf_files g_old g).
  - simpl. constructor.
    + simpl. intros [H|[]]. discriminate.
    + constructor; [simpl; tauto|constructor].
  - reflexivity.
  - reflexivity.
  - reflexivity.
  - reflexivity.
Defined.

(* ================================================================= *)
(** ** The phases of a complete run *)

Lemma summary_step_prints (E : Ext) msg1 (f : World E -> World E * Result unit)
    msg2 (failed : exn -> string) (s : St E) :
  exists s' evs,
    try_except (my_print msg1 ;;; call f ;;; my_print msg2)
               (fun e => my_print (failed e)) s = (s', Ok tt)
    /\ events s' = events s ++ evs /\ Forall printed evs.
Proof.
  unfold try_except, bind, my_print, emit, call. simpl.
  destruct (f (world s)) as [w [u|x]]; simpl.
  - do 2 eexists. split; [reflexivity|]. simpl. rewrite <- app_assoc.
    split; [reflexivity|]. repeat constructor.
  - do 2 eexists. split; [reflexivity|]. simpl. rewrite <- app_assoc.
    split; [reflexivity|]. repeat constructor.
Qed.

(** What follows the simulations: the diffs of the entries, one after
    the other, then printed lines, then the notification that all is done. *)
Lemma finish_suite_phases (E : Ext) self entries (s : St E) :
  exists s' es cs diffs after c,
    finish_suite self entries s = (s', Ok (Some (es, cs)))
    /\ events s' = events s ++ (clock s, SimulationsComplete) :: diffs ++ after
                               ++ [(c, AllDone cs)]
    /\ forallb is_diff_phase_event (map snd diffs) = true
    /\ filter is_diff_completed (map snd diffs)
       = map DiffCompleted (map basename entries)
    /\ Forall printed after
    /\ map basename es = map basename entries.
Proof.
  unfold finish_suite, my_simulationscomplete.
  rewrite (bind_ok _ _ _ _ _ (emit_run E SimulationsComplete s)).
  unfold diff_logs_for_build.
  destruct (diff_entries_run E self entries {| entries_by_file := [] |}
              (after_emit SimulationsComplete s))
    as [s1 [es [cs [evs1 [Hrun [He1 [Hdc [Hph [Hnames _]]]]]]]]].
  rewrite (bind_ok _ _ _ _ _ Hrun).
  simpl snd.
  match goal with
  | |- context [try_except (my_print ?m1 ;;; call ?f ;;; my_print ?m2) ?h] =>
      destruct (summary_step_prints E m1 f m2
                  (fun e => ("Could not write runtime summary file: " ++ str_of_exn e)%string)
                  s1) as [s2 [evs2 [Hs2 [He2 Hp2]]]]
  end.
  rewrite (bind_ok _ _ _ _ _ Hs2).
  match goal with
  | |- context [try_except (my_print ?m1 ;;; call ?f ;;; my_print ?m2) ?h] =>
      destruct (summary_step_prints E m1 f m2
                  (fun e => ("Could not write results summary file: " ++ str_of_exn e)%string)
                  s2) as [s3 [evs3 [Hs3 [He3 Hp3]]]]
  end.
  rewrite (bind_ok _ _ _ _ _ Hs3).
  unfold my_print, my_alldone.
  rewrite (bind_ok _ _ _ _ _ (emit_run E _ _)).
  rewrite (bind_ok _ _ _ _ _ (emit_run E _ _)).
  rewrite (bind_ok _ _ _ _ _ (emit_run E _ _)).
  rewrite (bind_ok _ _ _ _ _ (emit_run E _ _)).
  rewrite (bind_ok _ _ _ _ _ (emit_run E _ _)).
  unfold ret.
  exists (after_emit (AllDone cs)
            (after_emit (Print "Test suite complete")
               (after_emit (Print (tab ++ build_dir (build_tree_b self)))
                  (after_emit (Print (tab ++ build_dir (build_tree_a self)))
                     (after_emit (Print "Test suite complete for directories:") s3))))),
         es, cs, evs1,
         (evs2 ++ evs3
          ++ [ (clock s3, Print "Test suite complete for directories:");
               (S (clock s3), Print (tab ++ build_dir (build_tree_a self)));
               (S (S (clock s3)), Print (tab ++ build_dir (build_tree_b self)));
               (S (S (S (clock s3))), Print "Test suite complete") ]),
         (S (S (S (S (clock s3))))).
  split; [reflexivity|]. split; [|split; [exact Hph|split; [exact Hdc|split]]].
  - unfold after_emit. cbn [events clock snd]. rewrite He3, He2, He1.
    unfold after_emit. cbn [events]. rewrite <- !app_assoc. reflexivity.
  - apply Forall_app. split; [exact Hp2|].
    apply Forall_app. split; [exact Hp3|]. repeat constructor.
  - clear -Hnames. induction Hnames as [|e e' l l' [Hn _] _ IH]; [reflexivity|].
    cbn [map]. rewrite Hn, IH. reflexivity.
Qed.

Section Returns.

Context {E : Ext}.

Lemma bind_returns {A B} (P : nat * Event -> Prop)
    (m : M (St E) A) (k : A -> M (St E) B) (s s' : St E) (b : B) :
  emits (E := E) P m ->
  bind m k s = (s', Ok b) ->
  exists a s1 evs,
    events s1 = events s ++ evs /\ Forall P evs /\ k a s1 = (s', Ok b).
Proof.
  intros Hm. unfold bind.
  destruct (m s) as [s1 [a|x]] eqn:H1; [|intros H; discriminate].
  intros H. destruct (Hm _ _ _ H1) as [evs [He Hf]].
  exists a, s1, evs. auto.
Qed.

Lemma check_returns interrupt_at
    (next : M (St E) (option (list TestEntry * CompletedStructure)))
    (s s' : St E) res :
  (stop <- id_like_to_stop_now interrupt_at ;;
   if stop then my_cancelled ;;; ret None else next) s = (s', Ok (Some res)) ->
  next s = (s', Ok (Some res)).
Proof.
  unfold bind at 1. unfold id_like_to_stop_now at 1.
  destruct (flag_at interrupt_at (clock s)); [|auto].
  unfold my_cancelled. rewrite (bind_ok _ _ _ _ _ (emit_run E _ s)).
  unfold ret. intros H. discriminate.
Qed.

End Returns.

Lemma run_build_kinds (E : Ext) interrupt_at self entries bt :
  emits (E := E) build_kind (run_build interrupt_at self entries bt).
Proof.
  intros s s' r. unfold run_build. unfold bind at 1.
  destruct (stage_entries self bt entries s) as [s1 [tasks|x]] eqn:H1;
    destruct (stage_entries_run E _ _ _ _ _ _ H1) as [evs1 [He1 [Hf1 _]]];
    assert (Hk1 : Forall build_kind evs1)
      by (eapply Forall_impl; [|exact Hf1]; intros [t ev]; unfold build_kind;
          cbn [snd]; destruct ev; simpl; intros; try discriminate; reflexivity).
  - intros H2.
    destruct (run_in_process_run E _ _ _ _ _ H2) as [runs [tail [evs2 [He2 [Hm Hr]]]]].
    exists (evs1 ++ evs2). split; [rewrite He2, He1, app_assoc; reflexivity|].
    apply Forall_app. split; [exact Hk1|].
    apply Forall_forall. intros [t ev] Hin. unfold build_kind. cbn [snd].
    apply (in_map snd) in Hin. cbn [snd] in Hin. rewrite Hm in Hin.
    apply in_app_or in Hin. destruct Hin as [Hin|Hin].
    + apply in_flat_map in Hin. destruct Hin as [[tk c] [_ Hin]].
      cbn in Hin. destruct Hin as [<-|[<-|[]]]; reflexivity.
    + destruct Hr as [[_ [-> _]] | [x [tk [rest [_ [-> _]]]]]]; [contradiction|].
      destruct Hin as [<-|[]]. reflexivity.
  - intros H. injection H as <- <-. exists evs1. split; [exact He1|exact Hk1].
Qed.

Lemma printed_build_kind te : printed te -> build_kind te.
Proof.
  destruct te as [t ev]. unfold printed, build_kind. cbn [snd].
  destruct ev; simpl; intros H; try discriminate; reflexivity.
Qed.

(** A run that completes has gone through to [finish_suite], with
    events of the build phase only before it. *)
Lemma run_reaches_finish_suite (E : Ext) interrupt_at self entries
    (s s' : St E) res :
  run_test_suite_body interrupt_at self entries s = (s', Ok (Some res)) ->
  exists s1 before,
    events s1 = events s ++ before
    /\ Forall build_kind before
    /\ finish_suite self entries s1 = (s', Ok (Some res)).
Proof.
  assert (Hb : forall s0 : St E,
             run_suite_b interrupt_at self entries s0 = (s', Ok (Some res)) ->
             exists s1 before,
               events s1 = events s0 ++ before
               /\ Forall build_kind before
               /\ finish_suite self entries s1 = (s', Ok (Some res))).
  { intros s0. unfold run_suite_b. destruct (run_case_b self).
    - intros H.
      destruct (bind_returns build_kind _ _ _ _ _
                  (run_build_kinds E interrupt_at self entries (build_tree_b self)) H)
        as [[] [s1 [evs [He [Hf Hk]]]]].
      apply check_returns in Hk. exists s1, evs. auto.
    - intros H. exists s0, []. rewrite app_nil_r. auto. }
  unfold run_test_suite_body. intros H.
  destruct (bind_returns build_kind _ _ _ _ _
              (emits_weaken E _ _ _ printed_build_kind
                 (prepare_dir_structure_prints E _ _ _)) H)
    as [[] [s1 [evs1 [He1 [Hf1 Hk1]]]]].
  apply check_returns in Hk1.
  unfold my_starting in Hk1. rewrite (bind_ok _ _ _ _ _ (emit_run E _ s1)) in Hk1.
  assert (Hrest : exists s2 before,
             events s2 = events (after_emit (Starting 2 (List.length entries)) s1)
                         ++ before
             /\ Forall build_kind before
             /\ finish_suite self entries s2 = (s', Ok (Some res))).
  { destruct (run_case_a self).
    - destruct (bind_returns build_kind _ _ _ _ _
                  (run_build_kinds E interrupt_at self entries (build_tree_a self)) Hk1)
        as [[] [s2 [evs2 [He2 [Hf2 Hk2]]]]].
      apply check_returns in Hk2.
      destruct (Hb _ Hk2) as [s3 [evs3 [He3 [Hf3 Hk3]]]].
      exists s3, (evs2 ++ evs3). split; [rewrite He3, He2, app_assoc; reflexivity|].
      split; [apply Forall_app; split; assumption|exact Hk3].
    - exact (Hb _ Hk1). }
  destruct Hrest as [s2 [before [He2 [Hf2 Hk2]]]].
  exists s2, (evs1 ++ (clock s1, Starting 2 (List.length entries)) :: before).
  split.
  - rewrite He2. unfold after_emit. cbn [events]. rewrite He1, <- !app_assoc.
    reflexivity.
  - split; [|exact Hk2].
    apply Forall_app. split; [exact Hf1|]. constructor; [reflexivity|exact Hf2].
Qed.

(** X17.  In a run that completes, no diff is made before every
    simulation is over: the trace is the build phase (printed lines, the
    announcement, starts and completions of cases), then the notification
    that the simulations are complete, then the diffs with one diff-completed
    notification per entry in the order of the suite, then printed lines, and
    last the notification that all is done, with the results returned. *)
Theorem diffs_follow_the_simulations
    (E : Ext) (interrupt_at : option nat) (self : SuiteRunner)
    (entries : list TestEntry) (w : World E) (s' : St E)
    (res : list TestEntry * CompletedStructure)
    (H : run_test_suite interrupt_at self entries w = (s', Ok (Some res))) :
  exists before diffs after t c,
    events s'
    = before ++ (t, SimulationsComplete) :: diffs ++ after
      ++ [(c, AllDone (snd res))]
    /\ forallb is_build_kind (map snd before) = true
    /\ forallb is_diff_phase_event (map snd diffs) = true
    /\ filter is_diff_completed (map snd diffs)
       = map DiffCompleted (map basename entries)
    /\ forallb is_print (map snd after) = true
    /\ map basename (fst res) = map basename entries.
Proof.
  unfold run_test_suite in H.
  destruct (run_reaches_finish_suite E _ _ _ _ _ _ H)
    as [s1 [before [He1 [Hf1 Hfin]]]].
  destruct (finish_suite_phases E self entries s1)
    as [s2 [es [cs [diffs [after [c [Hrun [He2 [Hph [Hdc [Hpr Hnames]]]]]]]]]]].
  rewrite Hrun in Hfin. injection Hfin as <- <-.
  exists before, diffs, after, (clock s1), c.
  split; [rewrite He2, He1; reflexivity|].
  split; [|split; [exact Hph|split; [exact Hdc|split; [|exact Hnames]]]].
  - clear -Hf1. induction Hf1 as [|te l Hk _ IH]; [reflexivity|].
    cbn [map forallb]. unfold build_kind in Hk. rewrite Hk, IH. reflexivity.
  - clear -Hpr. induction Hpr as [|te l Hk _ IH]; [reflexivity|].
    cbn [map forallb]. unfold printed in Hk. rewrite Hk, IH. reflexivity.
Qed.

Lemma diffs_follow_the_simulations_witness :
  let out := run_test_suite (E := MemFS.ext) None MemFS.runner
               [new_TestEntry "SimpleTest" None] MemFS.disk in
  let res := match snd out with
             | Ok (Some res) => res
             | _ => ([], {| entries_by_file := [] |})
             end in
  exists before diffs after t c,
    events (fst out)
    = before ++ (t, SimulationsComplete) :: diffs ++ after
      ++ [(c, AllDone (snd res))]
    /\ forallb is_build_kind (map snd before) = true
    /\ forallb is_diff_phase_event (map snd diffs) = true
    /\ filter is_diff_completed (map snd diffs) = [DiffCompleted "SimpleTest"]
    /\ forallb is_print (map snd after) = true
    /\ map basename (fst res) = ["SimpleTest"].
Proof.
  intros out res.
  apply (diffs_follow_the_simulations MemFS.ext None MemFS.runner
           [new_TestEntry "SimpleTest" None] MemFS.disk (fst out) res).
  vm_compute. reflexivity.
Defined.

(* ================================================================= *)
(** ** A failure while the inputs are staged *)

Lemma stage_entries_app (E : Ext) self bt (l1 l2 : list TestEntry) :
  forall s : St E,
  stage_entries self bt (l1 ++ l2) s
  = (jobs1 <- stage_entries self bt l1 ;;
     jobs2 <- stage_entries self bt l2 ;;
     ret (jobs1 ++ jobs2)) s.
Proof.
  induction l1 as [|e l1 IH]; intros s.
  - cbn [app stage_entries]. unfold bind, ret. cbv beta iota.
    destruct (stage_entries self bt l2 s) as [s1 [jobs|x]]; reflexivity.
  - cbn [app stage_entries]. rewrite bind_assoc. apply bind_ext. intros job s1.
    rewrite bind_assoc.
    transitivity
      ((runs <- (jobs1 <- stage_entries self bt l1 ;;
                 jobs2 <- stage_entries self bt l2 ;;
                 ret (jobs1 ++ jobs2)) ;;
        ret match job with Some task => task :: runs | None => runs end) s1).
    { unfold bind at 1 2. rewrite IH. reflexivity. }
    rewrite bind_assoc. apply bind_ext. intros jobs1 s2.
    unfold bind, ret.
    destruct (stage_entries self bt l2 s2) as [s3 [jobs2|x]]; destruct job;
      reflexivity.
Qed.

Lemma not_executed_filter (evs : list (nat * Event)) :
  Forall not_executed evs -> filter is_executed (map snd evs) = [].
Proof.
  intros H. induction H as [|[t ev] evs Hn _ IH]; [reflexivity|].
  cbn [map snd filter]. unfold not_executed in Hn. cbn [snd] in Hn.
  rewrite Hn. exact IH.
Qed.

(** X18.  An exception while one input is staged ends the build before
    any simulation is started, also for the inputs staged before it: the jobs
    are run only after the whole list has been made.  Unlike a missing input,
    which is reported and passed over, a failed copy or a directory that
    cannot be made aborts run_build. *)
Theorem staging_failure_aborts_the_build
    (E : Ext) (interrupt_at : option nat) (self : SuiteRunner)
    (build_tree : BuildTree) (staged : list TestEntry) (this_entry : TestEntry)
    (rest : list TestEntry) (s s1 s2 : St E) (energy_plus_runs : list Task)
    (x : exn)
    (Hstaged : stage_entries self build_tree staged s = (s1, Ok energy_plus_runs))
    (Hfail : stage_entry self build_tree this_entry s1 = (s2, Raise x)) :
  run_build interrupt_at self (staged ++ this_entry :: rest) build_tree s
  = (s2, Raise x)
  /\ filter is_executed (trace s2) = filter is_executed (trace s)
  /\ filter is_case_completed (trace s2)
     = filter is_case_completed (trace s1).
Proof.
  split; [|split].
  - unfold run_build. unfold bind at 1. rewrite stage_entries_app.
    rewrite (bind_ok _ _ _ _ _ Hstaged). cbn [stage_entries].
    unfold bind at 1. unfold bind at 1. rewrite Hfail. reflexivity.
  - destruct (stage_entries_run E _ _ _ _ _ _ Hstaged) as [evs1 [He1 [Hf1 _]]].
    destruct (stage_entry_run E _ _ _ _ _ _ Hfail) as [evs2 [He2 Hc2]].
    destruct Hc2 as [[Hp _]|[Hr _]]; [|discriminate].
    unfold trace. rewrite He2, He1, !map_app, !filter_app.
    rewrite (not_executed_filter evs1)
      by (apply print_or_failed_not_executed; exact Hf1).
    rewrite (not_executed_filter evs2)
      by (apply print_or_failed_not_executed, printed_is_print_or_failed; exact Hp).
    rewrite !app_nil_r. reflexivity.
  - destruct (stage_entry_run E _ _ _ _ _ _ Hfail) as [evs2 [He2 Hc2]].
    destruct Hc2 as [[Hp _]|[Hr _]]; [|discriminate].
    unfold trace. rewrite He2, map_app, filter_app.
    assert (Hn : filter is_case_completed (map snd evs2) = []).
    { clear -Hp. induction Hp as [|[t ev] evs H _ IH]; [reflexivity|].
      cbn [map snd filter]. unfold printed in H. cbn [snd] in H.
      destruct ev; simpl in *; try discriminate. exact IH. }
    rewrite Hn, app_nil_r. reflexivity.
Qed.

Lemma staging_failure_aborts_the_build_witness :
  let s := initial_state (E := MemFS.ext) disk_with_two_data_sets in
  let out := run_build None MemFS.runner
               [new_TestEntry "SimpleTest" None; new_TestEntry "TwoSets" None;
                new_TestEntry "SimpleTest" None]
               (MemFS.tree "/a") s in
  out = (fst out, Raise (OtherError "File exists: /a/Tests/TwoSets/datasets"))
  /\ filter is_executed (trace (fst out)) = [].
Proof.
  intros s out.
  destruct (staging_failure_aborts_the_build MemFS.ext None MemFS.runner
              (MemFS.tree "/a") [new_TestEntry "SimpleTest" None]
              (new_TestEntry "TwoSets" None) [new_TestEntry "SimpleTest" None]
              s
              (fst (stage_entries MemFS.runner (MemFS.tree "/a")
                      [new_TestEntry "SimpleTest" None] s))
              (fst out)
              [ {| task_build_tree := MemFS.tree "/a";
                   task_basename := "SimpleTest";
                   task_run_directory := "/a/Tests/SimpleTest";
                   task_run_type := NONE;
                   task_reporting_freq := "Hourly";
                   task_parametric := false;
                   task_epw_path :=
                     "/src/weather/USA_IL_Chicago-OHare.Intl.AP.725300_TMY3.epw" |} ]
              (OtherError "File exists: /a/Tests/TwoSets/datasets")
              ltac:(vm_compute; reflexivity) ltac:(vm_compute; reflexivity))
    as [Hrun [Hexec _]].
  split; [exact Hrun|exact Hexec].
Defined.

(* ================================================================= *)
(** ** The settings file of the window *)

Lemma when_key_present (k : string) (members : list (string * json)) (v : json)
    (body : json -> M RegressionGUI unit) (g : RegressionGUI) :
  lookup_member k members = Some v ->
  when_key k (JObject members) body g = body v g.
Proof.
  intros H. unfold when_key, bind, lift_result, json_contains, json_getitem.
  rewrite H. reflexivity.
Qed.

Lemma spin_value_in_range (n : Z) (g : RegressionGUI) :
  (0 <= n <= 1000)%Z ->
  file_list_num_files (set_file_list_num_files (inject_Z n) g) = inject_Z n.
Proof.
  intros Hn. cbn [set_file_list_num_files file_list_num_files].
  destruct (Qle_bool (inject_Z n) 0) eqn:H0.
  - apply Qle_bool_iff in H0. change 0%Q with (inject_Z 0) in H0.
    rewrite <- Zle_Qle in H0. assert (n = 0%Z) by lia. subst. reflexivity.
  - destruct (Qle_bool 1000 (inject_Z n)) eqn:H1; [|reflexivity].
    apply Qle_bool_iff in H1. change 1000%Q with (inject_Z 1000) in H1.
    rewrite <- Zle_Qle in H1. assert (n = 1000%Z) by lia. subst. reflexivity.
Qed.

Lemma run_type_read_back (t : ForceRunType) (g : RegressionGUI) :
  (let run_config_option :=
     JString match t with NONE => "NONE" | DD => "DDONLY" | ANNUAL => "ANNUAL" end in
   if json_is_string "NONE" run_config_option
   then gui_update (set_window_force_run_type NONE)
   else if json_is_string "DDONLY" run_config_option
   then gui_update (set_window_force_run_type DD)
   else if json_is_string "ANNUAL" run_config_option
   then gui_update (set_window_force_run_type ANNUAL)
   else ret tt) g
  = (set_window_force_run_type t g, Ok tt).
Proof. destruct t; reflexivity. Qed.

(** Reading back the object [save_settings] wrote for [g], into any
    window. *)
Lemma apply_saved_settings (X : Desk) (g g0 : RegressionGUI) (n : Z) :
  file_list_num_files g = inject_Z n -> (0 <= n <= 1000)%Z ->
  exists g', apply_settings X (output_object g) g0 = (g', Ok tt)
             /\ settings_of g g' /\ rest_of g0 g'.
Proof.
  intros Hspin Hn.
  pose proof (spin_value_in_range n) as Hclamp.
  unfold apply_settings, output_object. rewrite Hspin.
  destruct (window_force_run_type g) eqn:Hrt;
    cbv [when_key bind lift_result json_contains json_getitem lookup_member ret
         gui_update python_int String.eqb Ascii.eqb Bool.eqb json_is_string
         inject_Z Qnum Qden];
    rewrite Z.quot_1_r;
    (eexists; split; [reflexivity|]);
    unfold settings_of, rest_of;
    cbn [set_master_data_file set_try_to_restore_files set_file_list_num_files
         set_case_1_run set_case_1_dir set_case_1_type
         set_case_2_run set_case_2_dir set_case_2_type
         set_window_force_run_type set_report_frequency set_num_threads_to_run
         master_data_file try_to_restore_files file_list_num_files
         case_1_run case_1_dir case_1_type case_2_run case_2_dir case_2_type
         window_force_run_type report_frequency num_threads_to_run
         idf_list_store log_store status_bar progress current_progress_value
         progress_maximum_value test_suite_is_running btn_run_suite
         currently_saving idf_files_have_been_built json_truth];
    rewrite Hspin;
    specialize (Hclamp g0 Hn);
    cbn [set_file_list_num_files file_list_num_files] in Hclamp;
    unfold inject_Z in Hclamp; rewrite Hclamp, Hrt;
    repeat split; reflexivity.
Qed.

Lemma output_object_flag (b : bool) (g : RegressionGUI) :
  output_object (set_currently_saving b g) = output_object g.
Proof. reflexivity. Qed.

Lemma set_currently_saving_back (g : RegressionGUI) :
  currently_saving g = false ->
  set_currently_saving false (set_currently_saving true g) = g.
Proof. destruct g. cbn. intros ->. reflexivity. Qed.

(** X19.  Settings come back as they were saved.  When the window is
    not in the middle of a save and the file can be written, [save_settings]
    writes the settings and leaves the window as it was; [load_settings] then
    reads into any window the master file, the run flags, directories and
    types of the two builds, the run type by its name, the reporting
    frequency, the number of threads and the number of files to pick at
    random, and hands the names of the checked files over for the selection to
    be restored; nothing else of that window changes. *)
Theorem settings_come_back
    (X : Desk) (g g0 : RegressionGUI) (fs fs1 : Files X) (n : Z)
    (Hidle : currently_saving g = false)
    (Hspin : file_list_num_files g = inject_Z n)
    (Hrange : (0 <= n <= 1000)%Z)
    (Hwrite : write_settings X (settings_file X) (output_object g) fs = (fs1, Ok tt))
    (Hexists : file_exists X (settings_file X) fs1 = true)
    (Hread : read_settings X (settings_file X) fs1 = Ok (Some (output_object g))) :
  save_settings X (g, fs) = ((g, fs1), Ok true)
  /\ exists g',
       load_settings X (g0, fs1) = ((g', fs1), Ok tt)
       /\ settings_of g g' /\ rest_of g0 g'.
Proof.
  split.
  - unfold save_settings. rewrite Hidle, output_object_flag, Hwrite.
    rewrite set_currently_saving_back by exact Hidle. reflexivity.
  - destruct (apply_saved_settings X g g0 n Hspin Hrange) as [g' [Happly [Hs Hr]]].
    exists g'. split; [|split; assumption].
    unfold load_settings. rewrite Hexists, Hread. cbn [negb].
    rewrite Happly. reflexivity.
Qed.

Lemma settings_come_back_witness :
  let g := set_idf_list_store
             [ {| row_run := true; row_idf := "1ZoneUncontrolled";
                  row_epw := "Denver" |};
               {| row_run := false; row_idf := "5ZoneAirCooled";
                  row_epw := "Chicago" |} ]
             (set_window_force_run_type DD (new_RegressionGUI true false)) in
  exists g',
    load_settings one_file_desk (new_RegressionGUI true true, Some (output_object g))
    = ((g', Some (output_object g)), Ok tt)
    /\ settings_of g g' /\ rest_of (new_RegressionGUI true true) g'.
Proof.
  intros g.
  apply (settings_come_back one_file_desk g (new_RegressionGUI true true)
           None (Some (output_object g)) 10).
  - reflexivity.
  - reflexivity.
  - lia.
  - reflexivity.
  - reflexivity.
  - reflexivity.
Defined.

(** X20.  A save that fails blocks every later save.  When the file
    cannot be written the exception leaves [save_settings] with the saving
    flag still set; from then on every call finds the flag set, pushes a
    message on the status bar and returns without writing, and no handler of
    a notification resets the flag. *)
Theorem failed_save_blocks_later_saves
    (X : Desk) (g : RegressionGUI) (fs fs1 : Files X) (x : exn)
    (Hidle : currently_saving g = false)
    (Hwrite : write_settings X (settings_file X) (output_object g) fs
              = (fs1, Raise x)) :
  save_settings X (g, fs) = ((set_currently_saving true g, fs1), Raise x)
  /\ (forall (g2 : RegressionGUI) (fs2 : Files X),
        currently_saving g2 = true ->
        exists g3,
          save_settings X (g2, fs2) = ((g3, fs2), Ok false)
          /\ currently_saving g3 = true)
  /\ (forall datetime_now ev (g2 g3 : RegressionGUI) r,
        on_notification datetime_now ev g2 = (g3, r) ->
        currently_saving g3 = currently_saving g2).
Proof.
  split; [|split].
  - unfold save_settings. rewrite Hidle, output_object_flag, Hwrite. reflexivity.
  - intros g2 fs2 Hbusy. unfold save_settings. rewrite Hbusy.
    eexists. split; [reflexivity|exact Hbusy].
  - intros datetime_now ev g2 g3 r.
    assert (Hadv : forall g4 g5 r', advance_progress g4 = (g5, r') ->
                                    currently_saving g5 = currently_saving g4).
    { intros g4 g5 r'. unfold advance_progress.
      destruct (current_progress_value g4) as [c|];
        [|intros H; injection H as <- _; reflexivity].
      cbn [set_current_progress_value progress_maximum_value].
      destruct (progress_maximum_value g4) as [mx|];
        [|intros H; injection H as <- _; reflexivity].
      destruct (Qeq_bool mx 0); intros H; injection H as <- _; reflexivity. }
    destruct ev; cbn [on_notification];
      try (intros H; injection H as <- _; reflexivity).
    + unfold case_completed_callback_handler, bind.
      destruct (advance_progress g2) as [g4 [[]|y]] eqn:Ha;
        pose proof (Hadv _ _ _ Ha) as Hb.
      * destruct (negb (muffle_err_msg c)); [destruct (run_success c)|];
          intros H; injection H as <- _; exact Hb.
      * intros H; injection H as <- _; exact Hb.
    + unfold diff_completed_callback_handler. apply Hadv.
Qed.

Lemma failed_save_blocks_later_saves_witness :
  save_settings read_only_desk (new_RegressionGUI true true, None)
  = ((set_currently_saving true (new_RegressionGUI true true), None),
     Raise (OtherError "Permission denied: /home/user/.saved-epsuite-settings")).
Proof.
  apply (failed_save_blocks_later_saves read_only_desk
           (new_RegressionGUI true true) None None
           (OtherError "Permission denied: /home/user/.saved-epsuite-settings")).
  - reflexivity.
  - reflexivity.
Defined.

(* ================================================================= *)
(** ** Selecting files at random *)

Lemma check_at_length (store : list IdfRow) :
  forall i, List.length (check_at i store) = List.length store.
Proof.
  induction store as [|r store IH]; intros [|i]; simpl; auto.
Qed.

Lemma check_at_names (store : list IdfRow) :
  forall i, map row_idf (check_at i store) = map row_idf store
            /\ map row_epw (check_at i store) = map row_epw store.
Proof.
  induction store as [|r store IH]; intros [|i]; simpl; auto.
  destruct (IH i) as [H1 H2]. rewrite H1, H2. auto.
Qed.

Lemma check_at_count (store : list IdfRow) :
  forall i, i < List.length store ->
  row_run (nth i store no_row) = false ->
  List.length (filter row_run (check_at i store))
  = S (List.length (filter row_run store)).
Proof.
  induction store as [|r store IH]; intros [|i] Hi Hrun; simpl in *; try lia.
  - rewrite Hrun. reflexivity.
  - destruct (row_run r); simpl; rewrite IH; auto; lia.
Qed.

Lemma check_at_other (store : list IdfRow) :
  forall i j, i <> j -> nth j (check_at i store) no_row = nth j store no_row.
Proof.
  induction store as [|r store IH]; intros [|i] [|j] Hij; simpl; auto;
    try contradiction.
Qed.

(** The rows of a list of distinct indices, none of them checked
    before, are checked one by one. *)
Lemma check_rows_run (indices : list nat) :
  forall g : RegressionGUI,
  NoDup indices ->
  Forall (fun i => i < List.length (idf_list_store g)) indices ->
  (forall i, In i indices -> row_run (nth i (idf_list_store g) no_row) = false) ->
  exists g',
    for_each indices check_row g = (g', Ok tt)
    /\ num_checked g' = num_checked g + List.length indices
    /\ map row_idf (idf_list_store g') = map row_idf (idf_list_store g)
    /\ map row_epw (idf_list_store g') = map row_epw (idf_list_store g)
    /\ status_bar g' = status_bar g.
Proof.
  induction indices as [|i indices IH]; intros g Hnd Hlt Hfalse.
  - exists g. simpl. rewrite Nat.add_0_r. auto.
  - inversion Hnd as [|i' l Hnotin Hnd']. subst.
    inversion Hlt as [|i' l Hi Hlt']. subst.
    cbn [for_each]. unfold bind at 1. unfold check_row at 1.
    apply Nat.ltb_lt in Hi. rewrite Hi. apply Nat.ltb_lt in Hi.
    set (g1 := set_idf_list_store (check_at i (idf_list_store g)) g).
    assert (Hstore : idf_list_store g1 = check_at i (idf_list_store g))
      by reflexivity.
    destruct (IH g1 Hnd') as [g' [Hrun [Hnum [Hidf [Hepw Hbar]]]]].
    + rewrite Hstore, check_at_length. exact Hlt'.
    + intros j Hj. rewrite Hstore, check_at_other.
      * apply Hfalse. right. exact Hj.
      * intros ->. contradiction.
    + exists g'. split; [exact Hrun|].
      destruct (check_at_names (idf_list_store g) i) as [Hn1 Hn2].
      rewrite Hnum, Hidf, Hepw, Hbar, Hstore, Hn1, Hn2.
      unfold num_checked. rewrite Hstore.
      rewrite check_at_count by (auto; apply Hfalse; left; reflexivity).
      cbn [List.length]. split; [lia|auto].
Qed.

Lemma cleared_rows (store : list IdfRow) (i : nat) :
  row_run (nth i (map (set_row_run false) store) no_row) = false.
Proof.
  revert i. induction store as [|r store IH]; intros [|i]; simpl; auto.
Qed.

Lemma filter_run_cleared (b : bool) (store : list IdfRow) :
  List.length (filter row_run (map (set_row_run b) store))
  = if b then List.length store else 0.
Proof.
  induction store as [|r store IH]; [destruct b; reflexivity|].
  cbn [map filter set_row_run row_run]. destruct b; cbn [List.length]; rewrite IH;
    reflexivity.
Qed.

Lemma set_row_run_names (b : bool) (store : list IdfRow) :
  map row_idf (map (set_row_run b) store) = map row_idf store.
Proof. rewrite map_map. apply map_ext. reflexivity. Qed.

Lemma set_row_run_weather (b : bool) (store : list IdfRow) :
  map row_epw (map (set_row_run b) store) = map row_epw store.
Proof. rewrite map_map. apply map_ext. reflexivity. Qed.


